(** * IntrusionNet: the agent loop of [src/main.py]

    A shallow embedding of the loop that asks a remote assistant for one
    shell command at a time, runs it, and feeds the captured output back.

    - Python [str] values are modelled as [string]: sequences of code points
      below 256, with [str.isspace], [str.lower], [str.strip] and
      [str.split] written out on that range.
    - The remote service, the clock, the process table and the file system
      are the program's environment.  Their answers are collected in a
      record [Env]; what the program changes is collected in [World].
    - Every function of the source is a computation in the monad [M]:
      it threads the [World], may raise a Python exception, and emits the
      [event]s it performs in order.  The two [while True] loops run on
      fuel; running out of fuel is the outcome [Running], which stands for
      a program that is still looping. *)

From Stdlib Require Import ZArith NArith Ascii String List Lia Bool DecimalString.
From stdpp Require Import gmap strings list fin_maps.
Import ListNotations.
Open Scope string_scope.
Open Scope list_scope.

(** ** Python strings *)

Module PyStr.

(** [str.isspace] on one code point below 256: TAB..CR, FS..US, SPACE,
    NEL and NBSP. *)
Definition isspace (c : ascii) : bool :=
  let n := N_of_ascii c in
  ((9 <=? n) && (n <=? 13) || (28 <=? n) && (n <=? 32)
   || (n =? 133) || (n =? 160))%N.

(** [str.lower] on one code point below 256: A..Z and the Latin-1 capitals
    (all of 0xC0..0xDE but the multiplication sign) move up by 32. *)
Definition lower_char (c : ascii) : ascii :=
  let n := N_of_ascii c in
  if ((65 <=? n) && (n <=? 90)
      || (192 <=? n) && (n <=? 222) && negb (n =? 215))%N
  then ascii_of_N (n + 32) else c.

Fixpoint lower (s : string) : string :=
  match s with
  | EmptyString => EmptyString
  | String c s' => String (lower_char c) (lower s')
  end.

Fixpoint lstrip (s : string) : string :=
  match s with
  | EmptyString => EmptyString
  | String c s' => if isspace c then lstrip s' else s
  end.

Fixpoint rstrip (s : string) : string :=
  match s with
  | EmptyString => EmptyString
  | String c s' =>
      match rstrip s' with
      | EmptyString => if isspace c then EmptyString else String c EmptyString
      | r => String c r
      end
  end.

(** [s.strip()] *)
Definition strip (s : string) : string := rstrip (lstrip s).

(** [s.split()]: the maximal runs of non-whitespace, in order.  [tok] is
    the token being read. *)
Fixpoint split_from (tok : string) (s : string) : list string :=
  match s with
  | EmptyString => match tok with EmptyString => [] | _ => [tok] end
  | String c s' =>
      if isspace c then
        match tok with
        | EmptyString => split_from EmptyString s'
        | _ => tok :: split_from EmptyString s'
        end
      else split_from (tok +:+ String c EmptyString) s'
  end.

Definition split (s : string) : list string := split_from EmptyString s.

(** The words of the specification, for comparison with [split]: the
    leading whitespace-delimited token. *)
Fixpoint token_prefix (s : string) : string :=
  match s with
  | EmptyString => EmptyString
  | String c s' => if isspace c then EmptyString else String c (token_prefix s')
  end.

Definition leading_token (s : string) : string := token_prefix (lstrip s).

Fixpoint all_space (s : string) : bool :=
  match s with
  | EmptyString => true
  | String c s' => isspace c && all_space s'
  end.

Fixpoint concat (l : list string) : string :=
  match l with
  | [] => EmptyString
  | s :: l' => s +:+ concat l'
  end.

End PyStr.

(** ** [datetime] and [strftime] *)

Module PyTime.

Record datetime := {
  year : N; month : N; day : N;
  hour : N; minute : N; second : N
}.

(** The values [datetime.now()] can take (MINYEAR is 1, but a clock read
    by this program shows a four-digit year). *)
Definition valid (d : datetime) : bool :=
  ((1000 <=? year d) && (year d <=? 9999)
   && (1 <=? month d) && (month d <=? 12)
   && (1 <=? day d) && (day d <=? 31)
   && (hour d <=? 23) && (minute d <=? 59) && (second d <=? 59))%N.

(** Decimal numeral of [n]. *)
Definition dec (n : N) : string := NilEmpty.string_of_uint (N.to_uint n).

Fixpoint zeros (k : nat) : string :=
  match k with
  | O => EmptyString
  | S k' => String "0" (zeros k')
  end.

(** Zero padding on the left up to [width] characters. *)
Definition zfill (width : nat) (s : string) : string :=
  zeros (width - String.length s) +:+ s.

(** [d.strftime("%Y%m%d_%H%M%S")] *)
Definition strftime (d : datetime) : string :=
  zfill 4 (dec (year d)) +:+ zfill 2 (dec (month d)) +:+ zfill 2 (dec (day d))
  +:+ "_"
  +:+ zfill 2 (dec (hour d)) +:+ zfill 2 (dec (minute d)) +:+ zfill 2 (dec (second d)).

Definition is_digit (c : ascii) : bool :=
  let n := N_of_ascii c in ((48 <=? n) && (n <=? 57))%N.

Fixpoint all_digits (s : string) : bool :=
  match s with
  | EmptyString => true
  | String c s' => is_digit c && all_digits s'
  end.

(** The shape YYYYMMDD_HHMMSS. *)
Definition is_timestamp (s : string) : bool :=
  (String.length s =? 15)%nat
  && all_digits (substring 0 8 s)
  && String.eqb (substring 8 1 s) "_"
  && all_digits (substring 9 6 s).

End PyTime.

Import PyStr PyTime.

(** ** Exceptions, events, environment and world *)

(** The exception classes that occur, each a subclass of [Exception]. *)
Inductive exn_class :=
| ValueError | IndexError | UnboundLocalError | UnicodeDecodeError
| CalledProcessError
| OSError | FileNotFoundError | PermissionError.

Record exn := { exn_cls : exn_class; exn_msg : string }.

(** [isinstance(e, OSError)] *)
Definition is_OSError (c : exn_class) : bool :=
  match c with
  | OSError | FileNotFoundError | PermissionError => true
  | _ => false
  end.

Inductive role := user | assistant.

(** A message of the thread: who wrote it, under which assistant, and its
    content blocks (the [text.value] of each). *)
Record Message := {
  msg_role : role;
  msg_assistant_id : option string;
  msg_content : list string
}.

Record Run := { run_id : nat }.

(** What the program does to the outside, in the order it does it. *)
Inductive event :=
| EvExecute (command : string)          (* execute_command is entered *)
| EvPrint (s : string)                  (* print *)
| EvLog (s : string)                    (* logging.error *)
| EvSend (content : string)             (* messages.create, role user *)
| EvCreateRun (r : nat)                 (* runs.create *)
| EvPoll (r : nat) (status : string)    (* runs.retrieve and its answer *)
| EvList                                (* messages.list *)
| EvSleep (secs : nat)                  (* time.sleep *)
| EvPopen (command : string)            (* the child process is started *)
| EvWait (command : string)             (* Popen.__exit__: wait for the child *)
| EvOpenW (f : string)                  (* open(f, 'w') *)
| EvWrite (f : string) (s : string)     (* file.write *)
| EvCloseW (f : string)                 (* the writer is closed *)
| EvOpenR (f : string)                  (* open(f, 'r') *)
| EvRead (f : string) (s : string)      (* file.read and what it returns *)
| EvCloseR (f : string).                (* the reader is closed *)

(** What [subprocess.Popen(command, shell=True, ...)] meets: either the
    process cannot be started, or it runs, writes [out] (the lines of its
    merged standard output and error), the pipe then ends or breaks with
    [broken], and the child leaves with [exit_code]. *)
Inductive popen_outcome :=
| PopenRaise (e : exn)
| PopenStart (out : list string) (broken : option exn) (exit_code : Z).

(** The answers of the environment. *)
Record Env := {
  env_api_key : option string;            (* os.getenv('OPENAI_API_KEY') *)
  env_assistant_id : string;              (* the id the service gives the assistant *)
  env_thread_id : string;                 (* the id the service gives the thread *)
  env_status : nat -> string;             (* answer to the n-th poll *)
  env_replies : nat -> list (list string);(* the messages the assistant posts during run r,
                                             each a list of content blocks *)
  env_now : nat -> datetime;              (* the n-th reading of the clock *)
  env_popen : nat -> string -> popen_outcome; (* fate of the n-th child process *)
  env_open_w : string -> option exn       (* why a file cannot be opened for writing *)
}.

(** What the program has changed so far. *)
Record World := {
  w_thread : list Message;     (* the thread on the service, oldest first *)
  w_active : list nat;         (* runs created and not yet reported completed *)
  w_runs : nat;                (* number of runs created *)
  w_polls : nat;               (* number of polls made *)
  w_clock : nat;               (* number of clock readings *)
  w_spawns : nat;              (* number of processes asked for *)
  w_fs : gmap string string    (* the files and their content *)
}.

Definition world0 : World :=
  {| w_thread := []; w_active := []; w_runs := 0; w_polls := 0;
     w_clock := 0; w_spawns := 0; w_fs := ∅ |}.

(** ** The monad *)

Inductive outcome (A : Type) :=
| Ret (a : A)        (* returns a *)
| Raise (e : exn)    (* an exception propagates *)
| Running.           (* still looping when the fuel ran out *)
Arguments Ret {A} a.
Arguments Raise {A} e.
Arguments Running {A}.

Definition M (A : Type) : Type := World -> outcome A * World * list event.

Definition ret {A} (a : A) : M A := fun w => (Ret a, w, []).
Definition raise {A} (e : exn) : M A := fun w => (Raise e, w, []).
Definition running {A} : M A := fun w => (Running, w, []).

Definition bind {A B} (m : M A) (k : A -> M B) : M B := fun w =>
  match m w with
  | (Ret a, w1, t1) => let '(o, w2, t2) := k a w1 in (o, w2, t1 ++ t2)
  | (Raise e, w1, t1) => (Raise e, w1, t1)
  | (Running, w1, t1) => (Running, w1, t1)
  end.

(** [try: m  except ...: h e] for handlers that catch every [Exception]. *)
Definition try_except {A} (m : M A) (h : exn -> M A) : M A := fun w =>
  match m w with
  | (Raise e, w1, t1) => let '(o, w2, t2) := h e w1 in (o, w2, t1 ++ t2)
  | r => r
  end.

(** The exit of a [with] block: [cleanup] runs when [m] returns and when
    it raises. *)
Definition finally {A} (m : M A) (cleanup : M unit) : M A := fun w =>
  match m w with
  | (Running, w1, t1) => (Running, w1, t1)
  | (o, w1, t1) => let '(_, w2, t2) := cleanup w1 in (o, w2, t1 ++ t2)
  end.

Definition emit (e : event) : M unit := fun w => (Ret tt, w, [e]).
Definition get_world : M World := fun w => (Ret w, w, []).

Declare Scope py_scope.
Delimit Scope py_scope with py.
Notation "x <- m ;; k" := (bind m (fun x => k))
  (at level 100, m at next level, right associativity) : py_scope.
Notation "m ;; k" := (bind m (fun _ => k))
  (at level 100, right associativity) : py_scope.
Open Scope py_scope.

Definition outcome_of {A} (r : outcome A * World * list event) : outcome A := fst (fst r).
Definition world_of {A} (r : outcome A * World * list event) : World := snd (fst r).
Definition events_of {A} (r : outcome A * World * list event) : list event := snd r.

(** ** World updates *)

Definition with_thread (t : list Message) (w : World) : World :=
  {| w_thread := t; w_active := w_active w; w_runs := w_runs w;
     w_polls := w_polls w; w_clock := w_clock w; w_spawns := w_spawns w;
     w_fs := w_fs w |}.

Definition with_active (a : list nat) (w : World) : World :=
  {| w_thread := w_thread w; w_active := a; w_runs := w_runs w;
     w_polls := w_polls w; w_clock := w_clock w; w_spawns := w_spawns w;
     w_fs := w_fs w |}.

Definition with_runs (n : nat) (w : World) : World :=
  {| w_thread := w_thread w; w_active := w_active w; w_runs := n;
     w_polls := w_polls w; w_clock := w_clock w; w_spawns := w_spawns w;
     w_fs := w_fs w |}.

Definition with_polls (n : nat) (w : World) : World :=
  {| w_thread := w_thread w; w_active := w_active w; w_runs := w_runs w;
     w_polls := n; w_clock := w_clock w; w_spawns := w_spawns w;
     w_fs := w_fs w |}.

Definition with_clock (n : nat) (w : World) : World :=
  {| w_thread := w_thread w; w_active := w_active w; w_runs := w_runs w;
     w_polls := w_polls w; w_clock := n; w_spawns := w_spawns w;
     w_fs := w_fs w |}.

Definition with_spawns (n : nat) (w : World) : World :=
  {| w_thread := w_thread w; w_active := w_active w; w_runs := w_runs w;
     w_polls := w_polls w; w_clock := w_clock w; w_spawns := n;
     w_fs := w_fs w |}.

Definition with_fs (fs : gmap string string) (w : World) : World :=
  {| w_thread := w_thread w; w_active := w_active w; w_runs := w_runs w;
     w_polls := w_polls w; w_clock := w_clock w; w_spawns := w_spawns w;
     w_fs := fs |}.

Definition modify (f : World -> World) : M unit := fun w => (Ret tt, f w, []).

Record Client := { api_key : string }.

(** A child process as the program holds it. *)
Record Proc := {
  proc_command : string;
  proc_out : list string;
  proc_broken : option exn;
  proc_exit_code : Z
}.

Definition newline : string := String (ascii_of_N 10) EmptyString.

(** What the outer loop does next. *)
Inductive ctl :=
| Break
| Continue (run : Run) (message_content : option string).

(** ** The program *)

Section Program.

Variable env : Env.

(** *** The library calls the program makes *)

Definition print (s : string) : M unit := emit (EvPrint s).
Definition logging_error (s : string) : M unit := emit (EvLog s).
Definition time_sleep (secs : nat) : M unit := emit (EvSleep secs).

Definition datetime_now : M datetime := fun w =>
  (Ret (env_now env (w_clock w)), with_clock (S (w_clock w)) w, []).

(** [subprocess.Popen(command, shell=True, stdout=PIPE, stderr=STDOUT,
    text=True)] *)
Definition Popen (command : string) : M Proc := fun w =>
  let w' := with_spawns (S (w_spawns w)) w in
  match env_popen env (w_spawns w) command with
  | PopenRaise e => (Raise e, w', [])
  | PopenStart out broken code =>
      (Ret {| proc_command := command; proc_out := out;
              proc_broken := broken; proc_exit_code := code |},
       w', [EvPopen command])
  end.

(** [Popen.__exit__]: the pipe is closed and the child waited for; its
    exit code is stored in the object and not looked at. *)
Definition Popen_exit (proc : Proc) : M unit := emit (EvWait (proc_command proc)).

(** [open(filename, 'w')]: the file is created or emptied. *)
Definition open_w (filename : string) : M string := fun w =>
  match env_open_w env filename with
  | Some e => (Raise e, w, [])
  | None => (Ret filename, with_fs (<[filename := EmptyString]> (w_fs w)) w,
             [EvOpenW filename])
  end.

(** [file.write(s)]: the text is given to the writer of the file.  [w_fs]
    counts it to the content of the file from here on; where it is until
    the writer is closed is followed by [storage_after] below. *)
Definition file_write (file : string) (s : string) : M unit := fun w =>
  (Ret tt, with_fs (alter (fun c => c +:+ s) file (w_fs w)) w, [EvWrite file s]).

Definition close_w (file : string) : M unit := emit (EvCloseW file).

(** [open(filename, 'r')] *)
Definition open_r (filename : string) : M string := fun w =>
  match w_fs w !! filename with
  | None => (Raise {| exn_cls := FileNotFoundError;
                      exn_msg := "[Errno 2] No such file or directory: " +:+ filename |},
             w, [])
  | Some _ => (Ret filename, w, [EvOpenR filename])
  end.

Definition file_read (file : string) : M string := fun w =>
  let c := default EmptyString (w_fs w !! file) in
  (Ret c, w, [EvRead file c]).

Definition close_r (file : string) : M unit := emit (EvCloseR file).

(** [l[0]] *)
Definition index0 {A} (l : list A) : M A :=
  match l with
  | [] => raise {| exn_cls := IndexError; exn_msg := "list index out of range" |}
  | x :: _ => ret x
  end.

(** *** The service, as the program sees it *)

(** [client.beta.threads.messages.create(thread_id, role="user", content)]:
    the message is appended to the thread. *)
Definition messages_create (content : string) : M unit :=
  modify (fun w => with_thread
    (w_thread w ++ [{| msg_role := user; msg_assistant_id := None;
                       msg_content := [content] |}]) w) ;;
  emit (EvSend content).

(** [client.beta.threads.messages.list(thread_id)]: the messages of the
    thread, the newest first. *)
Definition messages_list : M (list Message) :=
  w <- get_world ;;
  emit EvList ;;
  ret (rev (w_thread w)).

(** [client.beta.threads.runs.create(thread_id, assistant_id)] *)
Definition runs_create : M Run := fun w =>
  let r := w_runs w in
  (Ret {| run_id := r |},
   with_active (w_active w ++ [r]) (with_runs (S r) w),
   [EvCreateRun r]).

Definition reply_message (blocks : list string) : Message :=
  {| msg_role := assistant; msg_assistant_id := Some (env_assistant_id env);
     msg_content := blocks |}.

(** [client.beta.threads.runs.retrieve(run_id, thread_id)]: the status the
    service reports.  A run is active until a poll reports it "completed";
    by then the messages the assistant wrote during the run are in the
    thread. *)
Definition runs_retrieve (r : nat) : M string := fun w =>
  let status := env_status env (w_polls w) in
  let w1 := with_polls (S (w_polls w)) w in
  let w2 :=
    if String.eqb status "completed" && existsb (Nat.eqb r) (w_active w) then
      with_thread (w_thread w ++ map reply_message (env_replies env r))
        (with_active (List.filter (fun x => negb (Nat.eqb r x)) (w_active w)) w1)
    else w1 in
  (Ret status, w2, [EvPoll r status]).

(** *** The functions of main.py *)

Definition initialize_openai_client : M Client :=
  match env_api_key env with
  | Some (String c k) => ret {| api_key := String c k |}
  | _ => raise {| exn_cls := ValueError;
                  exn_msg := "OPENAI_API_KEY is not set in environment variables." |}
  end.

Definition create_assistant (client : Client) : M string :=
  ret (env_assistant_id env).

Definition create_thread (client : Client) : M string :=
  ret (env_thread_id env).

Definition send_message (client : Client) (thread_id content : string) : M unit :=
  messages_create content.

Definition list_messages (client : Client) (thread_id : string) : M (list Message) :=
  messages_list.

Definition create_run (client : Client) (thread_id assistant_id : string) : M Run :=
  runs_create.

Definition check_run_status (client : Client) (run : nat) (thread_id : string) : M string :=
  runs_retrieve run.

Definition is_pen_test_complete (message : string) : bool :=
  String.eqb (lower (strip message)) "done".

Definition get_assistant_responses (client : Client) (thread_id assistant_id : string)
  : M (list Message) :=
  messages <- messages_list ;;
  ret (List.filter
         (fun msg => bool_decide (msg_assistant_id msg = Some assistant_id))
         messages).

(** [for line in proc.stdout: print(line, end=''); file.write(line)] over
    the lines that have arrived. *)
Fixpoint for_lines (lines : list string) (file : string) : M unit :=
  match lines with
  | [] => ret tt
  | line :: rest =>
      print line ;;
      file_write file line ;;
      for_lines rest file
  end.

(** The body of the [with] statement: the lines in arrival order, then the
    end of the pipe. *)
Definition copy_output (proc : Proc) (file : string) : M unit :=
  for_lines (proc_out proc) file ;;
  match proc_broken proc with
  | Some e => raise e
  | None => ret tt
  end.

(** The [with Popen(...) as proc, open(filename, 'w') as file] statement. *)
Definition capture (command filename : string) : M unit :=
  proc <- Popen command ;;
  finally
    (file <- open_w filename ;;
     finally (copy_output proc file) (close_w file))
    (Popen_exit proc).

(** The [except] clauses, in the order of the source. *)
Definition handlers (base_command : string) (e : exn) : M unit :=
  match exn_cls e with
  | CalledProcessError =>
      logging_error ("Error executing command: " +:+ exn_msg e)
  | FileNotFoundError =>
      logging_error ("Command not found: " +:+ base_command)
  | c =>
      if is_OSError c
      then logging_error ("OS error occurred: " +:+ exn_msg e)
      else logging_error ("Unexpected error executing command: " +:+ exn_msg e)
  end.

Definition artifact_name (base_command timestamp : string) : string :=
  base_command +:+ "_results_" +:+ timestamp +:+ ".txt".

Definition execute_command (command : string) : M string :=
  emit (EvExecute command) ;;   (* the call itself, for counting *)
  print ("Executing command: " +:+ command +:+ newline) ;;
  base_command <- index0 (split command) ;;
  now <- datetime_now ;;
  let timestamp := strftime now in
  let filename := artifact_name base_command timestamp in
  try_except (capture command filename) (handlers base_command) ;;
  ret filename.

(** The inner [while True]: poll until the run is completed. *)
Fixpoint poll_loop (polls : nat) (client : Client) (thread_id assistant_id : string)
    (run : Run) (message_content : option string) : M (option string) :=
  match polls with
  | O => running
  | S polls' =>
      run_status <- check_run_status client (run_id run) thread_id ;;
      if String.eqb run_status "completed" then
        assistant_responses <- get_assistant_responses client thread_id assistant_id ;;
        match assistant_responses with
        | [] => ret message_content
        | m :: _ =>
            block <- index0 (msg_content m) ;;
            ret (Some block)
        end
      else
        time_sleep 10 ;;
        poll_loop polls' client thread_id assistant_id run message_content
  end.

(** Reading the local variable [message_content]. *)
Definition read_message_content (message_content : option string) : M string :=
  match message_content with
  | Some m => ret m
  | None =>
      raise {| exn_cls := UnboundLocalError;
               exn_msg := "cannot access local variable 'message_content'" |}
  end.

(** Lines 161 to 169: the completion test, and the execution and feedback
    of one action. *)
Definition act (client : Client) (thread_id assistant_id : string)
    (message_content : string) : M ctl :=
  if is_pen_test_complete message_content then
    print ("Penetration Testing is complete." +:+ newline) ;;
    ret Break
  else
    filename <- execute_command message_content ;;
    file <- open_r filename ;;
    finally
      (file_content <- file_read file ;;
       send_message client thread_id file_content ;;
       run <- create_run client thread_id assistant_id ;;
       ret (Continue run (Some message_content)))
      (close_r file).

(** One turn of the outer [while True]. *)
Definition cycle (polls : nat) (client : Client) (thread_id assistant_id : string)
    (run : Run) (message_content : option string) : M ctl :=
  mc <- poll_loop polls client thread_id assistant_id run message_content ;;
  m <- read_message_content mc ;;
  act client thread_id assistant_id m.

Fixpoint main_loop (cycles polls : nat) (client : Client)
    (thread_id assistant_id : string)
    (run : Run) (message_content : option string) : M unit :=
  match cycles with
  | O => running
  | S cycles' =>
      c <- cycle polls client thread_id assistant_id run message_content ;;
      match c with
      | Break => ret tt
      | Continue run' mc' =>
          main_loop cycles' polls client thread_id assistant_id run' mc'
      end
  end.

(** [main(ip_address)], with a bound on the turns of the outer loop and on
    the polls of each turn. *)
Definition main (cycles polls : nat) (ip_address : string) : M unit :=
  client <- initialize_openai_client ;;
  assistant_id <- create_assistant client ;;
  thread_id <- create_thread client ;;
  send_message client thread_id
    ("Start a penetration test on this machine " +:+ ip_address +:+ ".") ;;
  run <- create_run client thread_id assistant_id ;;
  main_loop cycles polls client thread_id assistant_id run None.

End Program.

(** ** Reading traces and threads *)

Definition is_execute (e : event) : bool :=
  match e with EvExecute _ => true | _ => false end.

Definition is_create_run (e : event) : bool :=
  match e with EvCreateRun _ => true | _ => false end.

Definition is_log (e : event) : bool :=
  match e with EvLog _ => true | _ => false end.

Definition is_send (e : event) : bool :=
  match e with EvSend _ => true | _ => false end.

(** Number of times the executor was entered. *)
Definition count_execute (t : list event) : nat :=
  List.length (List.filter is_execute t).

(** The contents submitted, in the order of submission. *)
Fixpoint sent (t : list event) : list string :=
  match t with
  | [] => []
  | EvSend c :: t' => c :: sent t'
  | _ :: t' => sent t'
  end.

(** The contents of the requester turns of a thread, oldest first. *)
Fixpoint user_contents (th : list Message) : list (list string) :=
  match th with
  | [] => []
  | m :: th' =>
      match msg_role m with
      | user => msg_content m :: user_contents th'
      | assistant => user_contents th'
      end
  end.

Definition roles (w : World) : list role := map msg_role (w_thread w).

(** The objective, then [n] pairs of an oracle turn and a requester turn. *)
Fixpoint turn_pattern (n : nat) : list role :=
  match n with
  | O => [user]
  | S n' => turn_pattern n' ++ [assistant; user]
  end.

Fixpoint no_adjacent_assistant (l : list role) : bool :=
  match l with
  | assistant :: ((assistant :: _) as l') => false
  | _ :: l' => no_adjacent_assistant l'
  | [] => true
  end.

(** At most one run in flight: a run is created only when no earlier run
    is still waiting for its "completed". [flying] is the run in flight. *)
Fixpoint single_flight_from (flying : option nat) (t : list event) : bool :=
  match t with
  | [] => true
  | EvCreateRun r :: t' =>
      match flying with
      | None => single_flight_from (Some r) t'
      | Some _ => false
      end
  | EvPoll r status :: t' =>
      match flying with
      | Some r' =>
          if String.eqb status "completed" && Nat.eqb r r'
          then single_flight_from None t'
          else single_flight_from flying t'
      | None => single_flight_from flying t'
      end
  | _ :: t' => single_flight_from flying t'
  end.

Definition single_flight (t : list event) : bool := single_flight_from None t.

(** The files open for writing after the events [t]. *)
Fixpoint writers_after (open : list string) (t : list event) : list string :=
  match t with
  | [] => open
  | EvOpenW f :: t' => writers_after (f :: open) t'
  | EvCloseW f :: t' =>
      writers_after (List.filter (fun g => negb (String.eqb f g)) open) t'
  | _ :: t' => writers_after open t'
  end.

(** No file is opened for reading, or read, while a writer of it is open. *)
Fixpoint closed_before_read_from (open : list string) (t : list event) : bool :=
  match t with
  | [] => true
  | EvOpenW f :: t' => closed_before_read_from (f :: open) t'
  | EvCloseW f :: t' =>
      closed_before_read_from (List.filter (fun g => negb (String.eqb f g)) open) t'
  | EvOpenR f :: t' =>
      negb (existsb (String.eqb f) open) && closed_before_read_from open t'
  | EvRead f _ :: t' =>
      negb (existsb (String.eqb f) open) && closed_before_read_from open t'
  | _ :: t' => closed_before_read_from open t'
  end.

Definition closed_before_read (t : list event) : bool :=
  closed_before_read_from [] t.

(** The events of the inner loop of [execute_command] for the lines [out]:
    each line is shown and written before the next one is read. *)
Fixpoint line_events (file : string) (out : list string) : list event :=
  match out with
  | [] => []
  | line :: rest => EvPrint line :: EvWrite file line :: line_events file rest
  end.

(** The events of [polls] polls of run [r] none of which is answered
    "completed", the first of them being poll number [start]. *)
Fixpoint waiting_events (env : Env) (r start polls : nat) : list event :=
  match polls with
  | O => []
  | S polls' =>
      EvPoll r (env_status env start) :: EvSleep 10
      :: waiting_events env r (S start) polls'
  end.

(** None of the polls [start], ..., [start + polls - 1] is answered
    "completed". *)
Fixpoint none_completed (env : Env) (start polls : nat) : bool :=
  match polls with
  | O => true
  | S polls' =>
      negb (String.eqb (env_status env start) "completed")
      && none_completed env (S start) polls'
  end.

(** The words of the specification for the completion test: the message
    is the sentinel up to case, between whitespace. *)
Definition is_sentinel (m : string) : Prop :=
  exists l t r,
    m = l +:+ t +:+ r /\ all_space l = true /\ all_space r = true
    /\ lower t = "done".


(** ** Sample environments *)

Definition noon : datetime :=
  {| year := 2024; month := 3; day := 7; hour := 9; minute := 5; second := 0 |}.

(** The scenario of the specification: the assistant asks for one scan,
    then answers Done. *)
Definition env_scan : Env :=
  {| env_api_key := Some "sk-test";
     env_assistant_id := "asst_1";
     env_thread_id := "thread_1";
     env_status := fun n => nth n ["queued"; "completed"; "in_progress"] "completed";
     env_replies := fun r => match r with O => [["scan-tool 10.0.0.5"]] | _ => [["Done"]] end;
     env_now := fun _ => noon;
     env_popen := fun _ _ => PopenStart ["line1" +:+ newline; "line2" +:+ newline] None 0;
     env_open_w := fun _ => None |}.

(** The first run fails and stays failed. *)
Definition env_failed : Env :=
  {| env_api_key := Some "sk-test";
     env_assistant_id := "asst_1";
     env_thread_id := "thread_1";
     env_status := fun _ => "failed";
     env_replies := fun _ => [];
     env_now := fun _ => noon;
     env_popen := fun _ _ => PopenStart [] None 0;
     env_open_w := fun _ => None |}.

(** The first run is completed and the assistant has written nothing. *)
Definition env_silent : Env :=
  {| env_api_key := Some "sk-test";
     env_assistant_id := "asst_1";
     env_thread_id := "thread_1";
     env_status := fun _ => "completed";
     env_replies := fun _ => [];
     env_now := fun _ => noon;
     env_popen := fun _ _ => PopenStart [] None 0;
     env_open_w := fun _ => None |}.

(** The assistant asks for a scan and the system cannot start a process. *)
Definition env_nolaunch : Env :=
  {| env_api_key := Some "sk-test";
     env_assistant_id := "asst_1";
     env_thread_id := "thread_1";
     env_status := fun _ => "completed";
     env_replies := fun _ => [["scan-tool 10.0.0.5"]];
     env_now := fun _ => noon;
     env_popen := fun _ _ =>
       PopenRaise {| exn_cls := OSError;
                     exn_msg := "[Errno 11] Resource temporarily unavailable" |};
     env_open_w := fun _ => None |}.

(** The assistant answers with blanks only. *)
Definition env_blank : Env :=
  {| env_api_key := Some "sk-test";
     env_assistant_id := "asst_1";
     env_thread_id := "thread_1";
     env_status := fun _ => "completed";
     env_replies := fun _ => [["   "]];
     env_now := fun _ => noon;
     env_popen := fun _ _ => PopenStart [] None 0;
     env_open_w := fun _ => None |}.

(** The assistant writes two messages during one run, the second of them
    the sentinel. *)
Definition env_twice : Env :=
  {| env_api_key := Some "sk-test";
     env_assistant_id := "asst_1";
     env_thread_id := "thread_1";
     env_status := fun _ => "completed";
     env_replies := fun _ => [["id"]; ["done"]];
     env_now := fun _ => noon;
     env_popen := fun _ _ => PopenStart [] None 0;
     env_open_w := fun _ => None |}.

(** The assistant answers the first run and writes nothing during the
    second. *)
Definition env_once : Env :=
  {| env_api_key := Some "sk-test";
     env_assistant_id := "asst_1";
     env_thread_id := "thread_1";
     env_status := fun _ => "completed";
     env_replies := fun r => match r with O => [["id"]] | _ => [] end;
     env_now := fun _ => noon;
     env_popen := fun _ _ => PopenStart ["uid=0(root)" +:+ newline] None 0;
     env_open_w := fun _ => None |}.

(** The assistant names the tool by a path whose directory does not exist
    where the program runs. *)
Definition env_nodir : Env :=
  {| env_api_key := Some "sk-test";
     env_assistant_id := "asst_1";
     env_thread_id := "thread_1";
     env_status := fun _ => "completed";
     env_replies := fun _ => [["/opt/tools/scan 10.0.0.5"]];
     env_now := fun _ => noon;
     env_popen := fun _ _ => PopenStart ["found" +:+ newline] None 0;
     env_open_w := fun _ =>
       Some {| exn_cls := FileNotFoundError;
               exn_msg := "[Errno 2] No such file or directory" |} |}.

(** The output of the child stops being text after its first line. *)
Definition env_broken : Env :=
  {| env_api_key := Some "sk-test";
     env_assistant_id := "asst_1";
     env_thread_id := "thread_1";
     env_status := fun _ => "completed";
     env_replies := fun _ => [["scan-tool 10.0.0.5"]];
     env_now := fun _ => noon;
     env_popen := fun _ _ =>
       PopenStart ["line1" +:+ newline]
         (Some {| exn_cls := UnicodeDecodeError; exn_msg := "invalid start byte" |}) 0;
     env_open_w := fun _ => None |}.

(** The environment [env] with other messages of the assistant. *)
Definition with_replies (replies : nat -> list (list string)) (env : Env) : Env :=
  {| env_api_key := env_api_key env;
     env_assistant_id := env_assistant_id env;
     env_thread_id := env_thread_id env;
     env_status := env_status env;
     env_replies := replies;
     env_now := env_now env;
     env_popen := env_popen env;
     env_open_w := env_open_w env |}.

Definition client0 : Client := {| api_key := "sk-test" |}.

(** The events of polling. *)
Definition polling_event (e : event) : bool :=
  match e with
  | EvPoll _ _ | EvSleep _ | EvList => true
  | _ => false
  end.

(** The world after a poll of run [r] that is answered "completed". *)
Definition delivered (env : Env) (r : nat) (w : World) : World :=
  let w1 := with_polls (S (w_polls w)) w in
  if existsb (Nat.eqb r) (w_active w) then
    with_thread (w_thread w ++ map (reply_message env) (env_replies env r))
      (with_active (List.filter (fun x => negb (Nat.eqb r x)) (w_active w)) w1)
  else w1.

(** What the program takes from the thread [th] as the proposed action. *)
Definition extracted (assistant_id : string) (th : list Message)
    (message_content : option string) : outcome (option string) :=
  match List.filter
          (fun msg => bool_decide (msg_assistant_id msg = Some assistant_id))
          (rev th) with
  | [] => Ret message_content
  | m :: _ =>
      match msg_content m with
      | [] => Raise {| exn_cls := IndexError; exn_msg := "list index out of range" |}
      | block :: _ => Ret (Some block)
      end
  end.

Definition done_message : string := "Penetration Testing is complete." +:+ newline.

Definition user_message (content : string) : Message :=
  {| msg_role := user; msg_assistant_id := None; msg_content := [content] |}.

(** The world after the content [c] is submitted and the next run created. *)
Definition fed_back (c : string) (w : World) : World :=
  with_active (w_active w ++ [w_runs w])
    (with_runs (S (w_runs w))
       (with_thread (w_thread w ++ [user_message c]) w)).

(** The events that touch neither the thread nor the runs. *)
Definition local_event (e : event) : bool :=
  match e with
  | EvSend _ | EvCreateRun _ | EvPoll _ _ => false
  | _ => true
  end.

(** A stretch of events during which no file is read under an open
    writer, and after which no writer is left open. *)
Definition balanced (t : list event) : Prop :=
  closed_before_read_from [] t = true /\ writers_after [] t = [].

(** The submitted contents are the requester turns, in the same order. *)
Definition in_submission_order (w : World) (t : list event) (w' : World) : Prop :=
  user_contents (w_thread w')
  = user_contents (w_thread w) ++ map (fun c => [c]) (sent t).

(** Bounded search, to settle a property of all small numbers by
    evaluation. *)
Fixpoint check_below (P : N -> bool) (k : nat) : bool :=
  match k with
  | O => true
  | S k' => P (N.of_nat k') && check_below P k'
  end.

Definition two_digits (s : string) : bool :=
  (String.length s =? 2)%nat && all_digits s.

Definition four_digits (s : string) : bool :=
  (String.length s =? 4)%nat && all_digits s.

(** ** Start-up: [env_setup] and the [__main__] block *)

Module Setup.

Definition KEY : string := "OPENAI_API_KEY".
Definition dotenv_path : string := ".env".
Definition dquote : string := String (ascii_of_N 34) EmptyString.

(** The process before the loop: its environment variables, the files,
    the lines waiting on standard input, and what was written to standard
    output (prompts included). *)
Record Host := {
  os_environ : gmap string string;
  host_files : gmap string string;
  host_stdin : list string;
  host_stdout : list string
}.

Inductive host_exn :=
| EOFError
| HostOSError (msg : string).

Inductive result (A : Type) :=
| Ok (a : A) (h : Host)
| Err (e : host_exn) (h : Host).
Arguments Ok {A} a h.
Arguments Err {A} e h.

Definition with_environ (e : gmap string string) (h : Host) : Host :=
  {| os_environ := e; host_files := host_files h;
     host_stdin := host_stdin h; host_stdout := host_stdout h |}.

Definition with_files (f : gmap string string) (h : Host) : Host :=
  {| os_environ := os_environ h; host_files := f;
     host_stdin := host_stdin h; host_stdout := host_stdout h |}.

Definition with_stdin (l : list string) (h : Host) : Host :=
  {| os_environ := os_environ h; host_files := host_files h;
     host_stdin := l; host_stdout := host_stdout h |}.

Definition with_stdout (l : list string) (h : Host) : Host :=
  {| os_environ := os_environ h; host_files := host_files h;
     host_stdin := host_stdin h; host_stdout := l |}.

(** [if not x] for what [os.getenv] returns. *)
Definition falsy (x : option string) : bool :=
  match x with
  | Some (String _ _) => false
  | _ => true
  end.

Definition host_print (s : string) (h : Host) : Host :=
  with_stdout (host_stdout h ++ [s]) h.

(** [input(prompt)]: the prompt is written, one line is read. *)
Definition input (prompt : string) (h : Host) : result string :=
  let h1 := host_print prompt h in
  match host_stdin h1 with
  | [] => Err EOFError h1
  | line :: rest => Ok line (with_stdin rest h1)
  end.

Section WithLibrary.

(** python-dotenv's reading of a file: the dictionary it computes from the
    content of the file and the variables of the process. *)
Variable dotenv_values : gmap string string -> string -> gmap string string.

(** Why a file cannot be opened for appending. *)
Variable open_a : string -> option string.

(** [load_dotenv(dotenv_path=path)]: the values of the file are set for
    the variables that the process does not have; a missing file is no
    error. *)
Definition load_dotenv (path : string) (h : Host) : Host :=
  match host_files h !! path with
  | None => h
  | Some content =>
      with_environ (os_environ h ∪ dotenv_values (os_environ h) content) h
  end.

(** The line that [env_setup] writes. *)
Definition key_line (api_key : string) : string :=
  "OPENAI_API_KEY=" +:+ dquote +:+ api_key +:+ dquote +:+ newline.

Definition env_setup (h : Host) : result unit :=
  let h1 := load_dotenv dotenv_path h in
  if falsy (os_environ h1 !! KEY) then
    match input "Please enter your OPENAI_API_KEY: " h1 with
    | Err e h2 => Err e h2
    | Ok line h2 =>
        let api_key := strip line in
        match open_a dotenv_path with
        | Some msg => Err (HostOSError msg) h2
        | None =>
            let old := default EmptyString (host_files h2 !! dotenv_path) in
            let h3 :=
              with_files (<[dotenv_path := old +:+ key_line api_key]> (host_files h2)) h2 in
            let h4 := with_environ (<[KEY := api_key]> (os_environ h3)) h3 in
            Ok tt
              (host_print
                 ("API Key saved to .env file and loaded for this session." +:+ newline)
                 h4)
        end
    end
  else Ok tt h1.

(** The environment of the loop with the key the process has. *)
Definition with_api_key (k : option string) (env : Env) : Env :=
  {| env_api_key := k;
     env_assistant_id := env_assistant_id env;
     env_thread_id := env_thread_id env;
     env_status := env_status env;
     env_replies := env_replies env;
     env_now := env_now env;
     env_popen := env_popen env;
     env_open_w := env_open_w env |}.

(** How the script ends. *)
Inductive entry_result :=
| SysExit (code : Z) (h : Host)
| SetupFailed (e : host_exn) (h : Host)
| MainRan (h : Host) (r : outcome unit * World * list event).

(** The [if __name__ == "__main__"] block, for the command line [argv]. *)
Definition entry (env : Env) (cycles polls : nat) (argv : list string)
    (h : Host) (w : World) : entry_result :=
  match argv with
  | _ :: ip_address :: _ =>
      match env_setup h with
      | Err e h' => SetupFailed e h'
      | Ok _ h' =>
          MainRan h'
            (main (with_api_key (os_environ h' !! KEY) env) cycles polls ip_address w)
      end
  | _ => SysExit 1 (host_print ("Please provide an IP address" +:+ newline) h)
  end.

End WithLibrary.

End Setup.

(** Sample hosts: no key anywhere, and a user who types a key between
    blanks, or only a blank. *)
Definition host_typing (line : string) : Setup.Host :=
  {| Setup.os_environ := ∅; Setup.host_files := ∅;
     Setup.host_stdin := [line]; Setup.host_stdout := [] |}.

Definition host_with_key : Setup.Host :=
  {| Setup.os_environ := <["OPENAI_API_KEY" := "sk-env"]> ∅;
     Setup.host_files := <[".env" := "OPENAI_API_KEY=sk-file"]> ∅;
     Setup.host_stdin := []; Setup.host_stdout := [] |}.

(** A reading of .env files that finds the one key of [host_with_key]. *)
Definition sample_dotenv_values (environ : gmap string string) (content : string)
  : gmap string string :=
  if String.eqb content "OPENAI_API_KEY=sk-file"
  then <["OPENAI_API_KEY" := "sk-file"]> ∅ else ∅.

Definition may_append (path : string) : option string := None.

(** ** More readers of traces *)

Definition is_poll (e : event) : bool :=
  match e with EvPoll _ _ => true | _ => false end.

Definition is_list (e : event) : bool :=
  match e with EvList => true | _ => false end.

Definition is_write (e : event) : bool :=
  match e with EvWrite _ _ => true | _ => false end.

(** The seconds slept. *)
Fixpoint total_sleep (t : list event) : nat :=
  match t with
  | [] => 0
  | EvSleep n :: t' => n + total_sleep t'
  | _ :: t' => total_sleep t'
  end.

(** Every submission is followed at once by the creation of a run, and no
    run is created otherwise. *)
Fixpoint paired (t : list event) : bool :=
  match t with
  | [] => true
  | EvSend _ :: t' =>
      match t' with
      | EvCreateRun _ :: t'' => paired t''
      | _ => false
      end
  | EvCreateRun _ :: _ => false
  | _ :: t' => paired t'
  end.

(** Every poll asks for the run created last; [last] is that run. *)
Fixpoint polls_latest_from (last : option nat) (t : list event) : bool :=
  match t with
  | [] => true
  | EvCreateRun r :: t' => polls_latest_from (Some r) t'
  | EvPoll r _ :: t' =>
      match last with
      | Some r' => Nat.eqb r r' && polls_latest_from last t'
      | None => false
      end
  | _ :: t' => polls_latest_from last t'
  end.

Definition polls_latest (t : list event) : bool := polls_latest_from None t.




(** Several submissions in a row. *)
Definition send_all (client : Client) (thread_id : string) (contents : list string)
  : M unit :=
  fold_right (fun c k => send_message client thread_id c ;; k) (ret tt) contents.

(** The events that neither submit a turn nor create a run. *)
Definition quiet_event (e : event) : bool :=
  match e with
  | EvSend _ | EvCreateRun _ => false
  | _ => true
  end.

(** Whether a child is running after the events [t], when that can be
    told: a child is started only when none is running and waited for
    only when one is, and while a child is running the program neither
    enters the executor again nor reads an artifact back, submits a turn,
    creates a run or polls. *)
Fixpoint child_after (running : bool) (t : list event) : option bool :=
  match t with
  | [] => Some running
  | EvPopen _ :: t' => if running then None else child_after true t'
  | EvWait _ :: t' => if running then child_after false t' else None
  | EvExecute _ :: t' => if running then None else child_after running t'
  | EvOpenR _ :: t' => if running then None else child_after running t'
  | EvSend _ :: t' => if running then None else child_after running t'
  | EvCreateRun _ :: t' => if running then None else child_after running t'
  | EvPoll _ _ :: t' => if running then None else child_after running t'
  | _ :: t' => child_after running t'
  end.

Definition one_child_at_a_time (t : list event) : Prop :=
  child_after false t = Some false.

(** The file an event opens, writes, reads or closes. *)
Definition file_of (e : event) : option string :=
  match e with
  | EvOpenW f | EvWrite f _ | EvCloseW f
  | EvOpenR f | EvRead f _ | EvCloseR f => Some f
  | _ => None
  end.

(** Every file that is touched in the trace [t] is the artifact of an
    action for which the executor was entered in [t], named with a
    reading of the clock. *)
Definition opens_only_artifacts (env : Env) (t : list event) : Prop :=
  forall e f,
    In e t -> file_of e = Some f ->
    exists action n,
      In (EvExecute action) t
      /\ f = artifact_name (leading_token action) (strftime (env_now env n)).

(** The thread [th'] is the thread [th] with turns added at its end. *)
Definition thread_extends (th th' : list Message) : Prop :=
  exists more, th' = th ++ more.

(** ** What a file holds while it is written

    [open(filename, 'w')] returns a buffered text writer: [file.write]
    leaves the text in the buffer of the file object, and the file
    receives it when the writer passes its buffer on, at the latest when
    it is closed.  The program reads no file under an open writer, so
    [w_fs] keeps one content per file: what the closed writers have left
    in it and what an open writer has been given.  [storage_after] follows
    the file operations of a trace and tells the two apart. *)

(** The bytes a string takes in UTF-8, for code points below 256. *)
Fixpoint encoded_length (s : string) : nat :=
  match s with
  | EmptyString => 0
  | String c s' => (if (N_of_ascii c <? 128)%N then 1 else 2) + encoded_length s'
  end.

(** The bytes a text writer collects before it passes any on (the chunk
    size of [io.TextIOWrapper], 8192). *)
Definition buffer_size : nat := 64 * 128.

Record Storage := {
  on_disk : gmap string string;     (* what the files hold *)
  in_buffer : gmap string string    (* what the open writers still hold *)
}.

(** One file operation.  [open(f, 'w')] creates or empties the file; a
    write that stays below [buffer_size] is kept in the buffer; closing
    the writer appends its buffer to the file.  How much of a buffer that
    has filled up is passed on, and when, differs between the versions of
    the [io] module: a trace is not followed beyond such a write. *)
Definition storage_step (st : Storage) (e : event) : option Storage :=
  match e with
  | EvOpenW f =>
      Some {| on_disk := <[f := EmptyString]> (on_disk st);
              in_buffer := <[f := EmptyString]> (in_buffer st) |}
  | EvWrite f s =>
      match in_buffer st !! f with
      | Some held =>
          if Nat.ltb (encoded_length (held +:+ s)) buffer_size
          then Some {| on_disk := on_disk st;
                       in_buffer := <[f := held +:+ s]> (in_buffer st) |}
          else None
      | None => None
      end
  | EvCloseW f =>
      match in_buffer st !! f with
      | Some held =>
          Some {| on_disk := alter (fun c => c +:+ held) f (on_disk st);
                  in_buffer := delete f (in_buffer st) |}
      | None => Some st
      end
  | _ => Some st
  end.

Fixpoint storage_after (st : Storage) (t : list event) : option Storage :=
  match t with
  | [] => Some st
  | e :: t' =>
      match storage_step st e with
      | Some st' => storage_after st' t'
      | None => None
      end
  end.

(** The files of a world in which no writer is open. *)
Definition stored (w : World) : Storage :=
  {| on_disk := w_fs w; in_buffer := ∅ |}.

(** * Facts *)

(** ** Strings *)

Section StringFacts.

Lemma append_nil_l (s : string) : "" +:+ s = s.
Proof. reflexivity. Qed.

Lemma append_cons (c : ascii) (s t : string) :
  String c s +:+ t = String c (s +:+ t).
Proof. reflexivity. Qed.

Ltac str_simpl := rewrite ?append_cons, ?append_nil_l.

Lemma append_nil_r (s : string) : s +:+ "" = s.
Proof.
  induction s as [|c s IH]; str_simpl; [reflexivity | now rewrite IH].
Qed.

Lemma append_assoc (a b c : string) : (a +:+ b) +:+ c = a +:+ (b +:+ c).
Proof.
  induction a as [|x a IH]; str_simpl; [reflexivity | now rewrite IH].
Qed.

Lemma all_space_app (a b : string) :
  all_space (a +:+ b) = all_space a && all_space b.
Proof.
  induction a as [|c a IH]; str_simpl; simpl; [reflexivity|].
  rewrite IH. now rewrite andb_assoc.
Qed.

Lemma lstrip_all_space (s : string) : all_space s = true -> lstrip s = "".
Proof.
  induction s as [|c s IH]; simpl; [reflexivity|].
  intros [Hc Hs]%andb_prop. rewrite Hc. auto.
Qed.

Lemma rstrip_all_space (s : string) : all_space s = true -> rstrip s = "".
Proof.
  induction s as [|c s IH]; simpl; [reflexivity|].
  intros [Hc Hs]%andb_prop. rewrite (IH Hs), Hc. reflexivity.
Qed.

Lemma lstrip_decompose (s : string) :
  exists l, s = l +:+ lstrip s /\ all_space l = true.
Proof.
  induction s as [|c s [l [Hl Hsp]]]; simpl.
  - exists "". split; reflexivity.
  - destruct (isspace c) eqn:Hc.
    + exists (String c l). str_simpl. simpl. rewrite Hc, Hsp.
      split; [now f_equal | reflexivity].
    + exists "". split; reflexivity.
Qed.

Lemma rstrip_decompose (s : string) :
  exists r, s = rstrip s +:+ r /\ all_space r = true.
Proof.
  induction s as [|c s [r [Hr Hsp]]]; simpl.
  - exists "". split; reflexivity.
  - destruct (rstrip s) as [|a x] eqn:Hrs.
    + rewrite append_nil_l in Hr. subst r. destruct (isspace c) eqn:Hc.
      * exists (String c s). simpl. rewrite Hc, Hsp. split; reflexivity.
      * exists s. split; [reflexivity | assumption].
    + exists r. split; [|assumption]. str_simpl. f_equal.
      rewrite Hr at 1. reflexivity.
Qed.

(** [strip] removes whitespace on both sides and nothing else. *)
Lemma strip_decompose (s : string) :
  exists l r, s = l +:+ strip s +:+ r /\ all_space l = true /\ all_space r = true.
Proof.
  destruct (lstrip_decompose s) as [l [Hl Hsl]].
  destruct (rstrip_decompose (lstrip s)) as [r [Hr Hsr]].
  exists l, r. unfold strip. rewrite <- Hr. auto.
Qed.

Lemma lstrip_app (l s : string) : all_space l = true -> lstrip (l +:+ s) = lstrip s.
Proof.
  induction l as [|c l IH]; str_simpl; simpl; [reflexivity|].
  intros [Hc Hl]%andb_prop. rewrite Hc. auto.
Qed.

Lemma lower_char_space (c : ascii) :
  isspace (lower_char c) = false -> isspace c = false.
Proof.
  destruct c as [[] [] [] [] [] [] [] []]; vm_compute; intros H; congruence.
Qed.

Lemma lower_done (t : string) :
  lower t = "done" ->
  exists c1 c2 c3 c4,
    t = String c1 (String c2 (String c3 (String c4 "")))
    /\ isspace c1 = false /\ isspace c4 = false.
Proof.
  destruct t as [|c1 [|c2 [|c3 [|c4 [|c5 t]]]]]; simpl; intros H; try discriminate.
  injection H as H1 H2 H3 H4.
  exists c1, c2, c3, c4. split; [reflexivity|].
  split; apply lower_char_space; [rewrite H1 | rewrite H4]; reflexivity.
Qed.

Lemma strip_sentinel (l t r : string) :
  all_space l = true -> all_space r = true -> lower t = "done" ->
  strip (l +:+ t +:+ r) = t.
Proof.
  intros Hl Hr Ht.
  destruct (lower_done t Ht) as (c1 & c2 & c3 & c4 & -> & H1 & H4).
  unfold strip. rewrite lstrip_app by assumption.
  str_simpl. simpl. rewrite H1. simpl.
  rewrite (rstrip_all_space r Hr), H4. reflexivity.
Qed.

(** The completion test of the source is the test of the specification. *)
Lemma is_pen_test_complete_sentinel (m : string) :
  is_pen_test_complete m = true <-> is_sentinel m.
Proof.
  unfold is_pen_test_complete. rewrite String.eqb_eq. split.
  - intros H. destruct (strip_decompose m) as (l & r & Hm & Hl & Hr).
    exists l, (strip m), r. auto.
  - intros (l & t & r & -> & Hl & Hr & Ht).
    now rewrite strip_sentinel.
Qed.

Lemma split_from_head (s tok : string) :
  tok <> "" ->
  exists rest, split_from tok s = (tok +:+ token_prefix s) :: rest.
Proof.
  revert tok. induction s as [|c s IH]; intros tok Htok.
  - cbn [split_from token_prefix]. rewrite append_nil_r.
    destruct tok; [congruence | eauto].
  - cbn [split_from token_prefix]. destruct (isspace c).
    + rewrite append_nil_r. destruct tok; [congruence | eauto].
    + destruct (IH (tok +:+ String c "")) as [rest Hrest].
      { destruct tok; str_simpl; congruence. }
      exists rest. rewrite Hrest, append_assoc. reflexivity.
Qed.

(** [split] gives nothing exactly on blank strings, and otherwise starts
    with the leading token. *)
Lemma split_leading_token (s : string) :
  (all_space s = true /\ split s = [])
  \/ (all_space s = false /\ leading_token s <> ""
      /\ exists rest, split s = leading_token s :: rest).
Proof.
  unfold split, leading_token.
  induction s as [|c s IH]; simpl; [left; auto|].
  destruct (isspace c) eqn:Hc; simpl.
  - exact IH.
  - right. rewrite Hc. split; [reflexivity|]. split; [congruence|].
    destruct (split_from_head s (String c "")) as [rest Hrest]; [congruence|].
    exists rest. exact Hrest.
Qed.

Lemma split_all_space (s : string) : all_space s = true -> split s = [].
Proof.
  intros H. destruct (split_leading_token s) as [[_ E] | [E _]]; congruence.
Qed.

Lemma split_cons (s tok : string) (rest : list string) :
  split s = tok :: rest ->
  tok = leading_token s /\ tok <> "" /\ all_space s = false.
Proof.
  intros H. destruct (split_leading_token s) as [[_ E] | (E & Hne & rest' & E')].
  - congruence.
  - rewrite E' in H. injection H as <- _. auto.
Qed.

Lemma all_space_not_complete (s : string) :
  all_space s = true -> is_pen_test_complete s = false.
Proof.
  intros H. unfold is_pen_test_complete, strip.
  rewrite (lstrip_all_space s H). reflexivity.
Qed.

End StringFacts.

(** ** Time stamps *)

Section TimeFacts.

Lemma check_below_sound (P : N -> bool) (k : nat) :
  check_below P k = true -> forall n, (n < N.of_nat k)%N -> P n = true.
Proof.
  induction k as [|k IH]; simpl; intros H n Hn; [lia|].
  apply andb_prop in H as [H1 H2].
  destruct (N.eq_dec n (N.of_nat k)) as [->|Hne]; [assumption|].
  apply IH; [assumption | lia].
Qed.

Lemma pad2_two_digits (n : N) : (n <= 99)%N -> two_digits (zfill 2 (dec n)) = true.
Proof.
  intros H.
  apply (check_below_sound (fun n => two_digits (zfill 2 (dec n))) 100);
    [vm_compute; reflexivity | lia].
Qed.

Lemma pad4_four_digits (n : N) :
  (1000 <= n <= 9999)%N -> four_digits (zfill 4 (dec n)) = true.
Proof.
  intros H.
  assert (E : ((n <? 1000)%N || four_digits (zfill 4 (dec n))) = true).
  { apply (check_below_sound
             (fun n => (n <? 1000)%N || four_digits (zfill 4 (dec n)))
             (100 * 100));
      [vm_compute; reflexivity | lia]. }
  apply orb_prop in E as [E|E]; [apply N.ltb_lt in E; lia | exact E].
Qed.

Lemma two_digits_shape (s : string) :
  two_digits s = true ->
  exists a b, s = String a (String b "") /\ is_digit a = true /\ is_digit b = true.
Proof.
  unfold two_digits. destruct s as [|a [|b [|c s]]]; simpl; try discriminate.
  intros H. apply andb_prop in H as [Ha Hb]. rewrite andb_true_r in Hb.
  eauto.
Qed.

Lemma four_digits_shape (s : string) :
  four_digits s = true ->
  exists a b c d, s = String a (String b (String c (String d "")))
    /\ is_digit a = true /\ is_digit b = true
    /\ is_digit c = true /\ is_digit d = true.
Proof.
  unfold four_digits.
  destruct s as [|a [|b [|c [|d [|e s]]]]]; simpl; try discriminate.
  intros H. repeat (apply andb_prop in H as [?H H]).
  exists a, b, c, d. auto.
Qed.

(** A valid clock reading prints as YYYYMMDD_HHMMSS. *)
Lemma strftime_shape (d : datetime) :
  valid d = true -> is_timestamp (strftime d) = true.
Proof.
  unfold valid. intros H.
  repeat (apply andb_prop in H as [H ?H]).
  repeat match goal with
         | H : (_ <=? _)%N = true |- _ => apply N.leb_le in H
         end.
  destruct (four_digits_shape _ (pad4_four_digits (year d) ltac:(lia)))
    as (y1 & y2 & y3 & y4 & Ey & ? & ? & ? & ?).
  destruct (two_digits_shape _ (pad2_two_digits (month d) ltac:(lia)))
    as (m1 & m2 & Em & ? & ?).
  destruct (two_digits_shape _ (pad2_two_digits (day d) ltac:(lia)))
    as (d1 & d2 & Ed & ? & ?).
  destruct (two_digits_shape _ (pad2_two_digits (hour d) ltac:(lia)))
    as (h1 & h2 & Eh & ? & ?).
  destruct (two_digits_shape _ (pad2_two_digits (minute d) ltac:(lia)))
    as (i1 & i2 & Ei & ? & ?).
  destruct (two_digits_shape _ (pad2_two_digits (second d) ltac:(lia)))
    as (s1 & s2 & Es & ? & ?).
  unfold strftime. rewrite Ey, Em, Ed, Eh, Ei, Es.
  unfold is_timestamp. simpl.
  repeat match goal with
         | H : is_digit _ = true |- _ => rewrite H; clear H
         end.
  reflexivity.
Qed.

End TimeFacts.

(** ** The executor *)

Section ExecutorFacts.

Variable env : Env.

Lemma concat_app (a b : list string) : concat (a ++ b) = concat a +:+ concat b.
Proof.
  induction a as [|x a IH]; simpl; [reflexivity|].
  rewrite IH, append_assoc. reflexivity.
Qed.

Lemma line_events_app (file : string) (a b : list string) :
  line_events file (a ++ b) = line_events file a ++ line_events file b.
Proof. induction a as [|x a IH]; simpl; [reflexivity | now rewrite IH]. Qed.

(** The copying loop gives the lines to the writer, one write per line. *)
Lemma for_lines_spec (out : list string) (file c : string)
    (fs : gmap string string) (w : World) :
  for_lines out file (with_fs (<[file := c]> fs) w)
  = (Ret tt, with_fs (<[file := c +:+ concat out]> fs) w, line_events file out).
Proof.
  revert c. induction out as [|line out IH]; intros c.
  - simpl. rewrite append_nil_r. reflexivity.
  - cbn [for_lines line_events concat].
    unfold bind, print, emit, file_write. cbn [w_fs with_fs].
    rewrite alter_insert_eq.
    change (with_fs (<[file:=c +:+ line]> fs) (with_fs (<[file:=c]> fs) w))
      with (with_fs (<[file:=c +:+ line]> fs) w).
    rewrite IH, append_assoc. reflexivity.
Qed.

(** The three fates of the [with] statement. *)
Lemma capture_no_launch (command filename : string) (e : exn) (w : World) :
  env_popen env (w_spawns w) command = PopenRaise e ->
  capture env command filename w = (Raise e, with_spawns (S (w_spawns w)) w, []).
Proof.
  intros H. unfold capture, bind, Popen. rewrite H. reflexivity.
Qed.

Lemma capture_no_file (command filename : string) (out : list string)
    (broken : option exn) (code : Z) (e : exn) (w : World) :
  env_popen env (w_spawns w) command = PopenStart out broken code ->
  env_open_w env filename = Some e ->
  capture env command filename w
  = (Raise e, with_spawns (S (w_spawns w)) w, [EvPopen command; EvWait command]).
Proof.
  intros H1 H2. unfold capture, bind, Popen, finally, open_w, Popen_exit, emit.
  rewrite H1, H2. reflexivity.
Qed.

Lemma capture_started (command filename : string) (out : list string)
    (broken : option exn) (code : Z) (w : World) :
  env_popen env (w_spawns w) command = PopenStart out broken code ->
  env_open_w env filename = None ->
  capture env command filename w
  = (match broken with Some e => Raise e | None => Ret tt end,
     with_fs (<[filename := concat out]> (w_fs w)) (with_spawns (S (w_spawns w)) w),
     [EvPopen command; EvOpenW filename] ++ line_events filename out
     ++ [EvCloseW filename; EvWait command]).
Proof.
  intros H1 H2.
  unfold capture, bind, Popen, finally, open_w, Popen_exit, close_w, emit, copy_output.
  rewrite H1, H2. cbn [proc_out proc_broken proc_command w_fs with_spawns].
  unfold bind.
  rewrite (for_lines_spec out filename "" (w_fs w)).
  rewrite append_nil_l.
  destruct broken as [e|]; unfold raise, ret; cbn [app];
    rewrite ?app_nil_r, <- ?app_assoc; reflexivity.
Qed.

(** The handlers log one line and return. *)
Lemma handlers_spec (base_command : string) (e : exn) (w : World) :
  exists msg, handlers base_command e w = (Ret tt, w, [EvLog msg]).
Proof.
  unfold handlers, logging_error, emit.
  destruct (exn_cls e); simpl; eauto.
Qed.


(** Before the [try]: the token and the clock. *)
Lemma execute_command_blank (command : string) (w : World) :
  split command = [] ->
  execute_command env command w
  = (Raise {| exn_cls := IndexError; exn_msg := "list index out of range" |},
     w,
     [EvExecute command; EvPrint ("Executing command: " +:+ command +:+ newline)]).
Proof.
  intros H. unfold execute_command, bind, emit, print, emit.
  rewrite H. reflexivity.
Qed.

Lemma execute_command_token (command tok : string) (rest : list string) (w : World) :
  split command = tok :: rest ->
  execute_command env command w
  = let filename := artifact_name tok (strftime (env_now env (w_clock w))) in
    let '(_, w', t) :=
      try_except (capture env command filename) (handlers tok)
        (with_clock (S (w_clock w)) w) in
    (Ret filename, w',
     [EvExecute command; EvPrint ("Executing command: " +:+ command +:+ newline)] ++ t).
Proof.
  intros H. unfold execute_command, bind, emit, print, emit, datetime_now.
  rewrite H. cbn [index0]. unfold ret at 1. cbn [app].
  destruct (try_except _ _ _) as [[o w'] t] eqn:E.
  assert (Ho : exists u, o = Ret u).
  { unfold try_except in E.
    destruct (capture _ _ _ _) as [[[u | e |] w1] t1] eqn:Ec.
    - injection E as <- _ _. eauto.
    - destruct (handlers_spec tok e w1) as [msg Hh]. rewrite Hh in E.
      injection E as <- _ _. eauto.
    - exfalso. revert Ec. unfold capture, bind, Popen, finally, open_w.
      destruct (env_popen _ _ _); [discriminate|].
      destruct (env_open_w _ _); [discriminate|].
      unfold copy_output, bind.
      rewrite for_lines_spec. destruct broken; discriminate. }
  destruct Ho as [[] ->]. unfold ret. rewrite app_nil_r. reflexivity.
Qed.

End ExecutorFacts.

(** ** The buffer of the writer *)

Section StorageFacts.

Lemma encoded_length_app (a b : string) :
  encoded_length (a +:+ b) = encoded_length a + encoded_length b.
Proof.
  induction a as [|c a IH]; [reflexivity|].
  rewrite append_cons. cbn [encoded_length]. rewrite IH. lia.
Qed.

Lemma storage_after_app (st : Storage) (t1 t2 : list event) :
  storage_after st (t1 ++ t2)
  = match storage_after st t1 with
    | Some st' => storage_after st' t2
    | None => None
    end.
Proof.
  revert st. induction t1 as [|e t1 IH]; intros st; [reflexivity|].
  cbn [app storage_after]. destruct (storage_step st e); [apply IH | reflexivity].
Qed.

(** While the output is smaller than the buffer, the lines written are in
    the buffer and the file is as it was. *)
Lemma storage_after_lines (f : string) (out : list string) (held : string)
    (d b : gmap string string) :
  encoded_length (held +:+ concat out) < buffer_size ->
  storage_after {| on_disk := d; in_buffer := <[f := held]> b |} (line_events f out)
  = Some {| on_disk := d; in_buffer := <[f := held +:+ concat out]> b |}.
Proof.
  revert held. induction out as [|l out IH]; intros held Hlen.
  - cbn [line_events storage_after concat]. rewrite append_nil_r. reflexivity.
  - cbn [line_events storage_after storage_step on_disk in_buffer].
    rewrite lookup_insert_eq.
    cbn [concat] in Hlen. rewrite <- append_assoc in Hlen.
    assert (Hl : encoded_length (held +:+ l) < buffer_size).
    { rewrite encoded_length_app in Hlen. lia. }
    apply Nat.ltb_lt in Hl. rewrite Hl.
    rewrite insert_insert_eq, (IH (held +:+ l) Hlen).
    cbn [concat]. rewrite append_assoc. reflexivity.
Qed.

(** A log entry changes no file. *)
Lemma storage_after_log (st : Storage) (t : list event) :
  List.filter (fun e => negb (is_log e)) t = [] ->
  storage_after st t = Some st.
Proof.
  induction t as [|e t IH]; [reflexivity|].
  destruct e; cbn [List.filter is_log negb]; try discriminate.
  intros H. cbn [storage_after storage_step]. exact (IH H).
Qed.

End StorageFacts.

Section ExecutorCases.

Variable env : Env.

(** Every call of the executor has one of five shapes. *)
Lemma execute_command_cases (command : string) (w : World) :
  let name :=
    artifact_name (leading_token command) (strftime (env_now env (w_clock w))) in
  let hdr :=
    [EvExecute command; EvPrint ("Executing command: " +:+ command +:+ newline)] in
  let w1 := with_spawns (S (w_spawns w)) (with_clock (S (w_clock w)) w) in
  (all_space command = true
   /\ execute_command env command w
      = (Raise {| exn_cls := IndexError; exn_msg := "list index out of range" |},
         w, hdr))
  \/ (all_space command = false
      /\ ((exists e msg,
             env_popen env (w_spawns w) command = PopenRaise e
             /\ execute_command env command w = (Ret name, w1, hdr ++ [EvLog msg]))
          \/ (exists out broken code e msg,
                env_popen env (w_spawns w) command = PopenStart out broken code
                /\ env_open_w env name = Some e
                /\ execute_command env command w
                   = (Ret name, w1,
                      hdr ++ [EvPopen command; EvWait command; EvLog msg]))
          \/ (exists out broken code tail,
                env_popen env (w_spawns w) command = PopenStart out broken code
                /\ env_open_w env name = None
                /\ (broken = None /\ tail = []
                    \/ exists e msg, broken = Some e /\ tail = [EvLog msg])
                /\ execute_command env command w
                   = (Ret name,
                      with_fs (<[name := concat out]> (w_fs w)) w1,
                      hdr ++ [EvPopen command; EvOpenW name]
                      ++ line_events name out
                      ++ [EvCloseW name; EvWait command] ++ tail)))).
Proof.
  intros name hdr w1.
  destruct (split_leading_token command) as [[Hsp Hsplit] | (Hsp & Hne & rest & Hsplit)].
  - left. split; [assumption|]. now apply execute_command_blank.
  - right. split; [assumption|].
    rewrite (execute_command_token env command _ rest w Hsplit).
    fold name. cbv zeta. unfold try_except.
    destruct (env_popen env (w_spawns w) command) as [e | out broken code] eqn:Hp.
    + left. rewrite (capture_no_launch env command name e); [|exact Hp].
      destruct (handlers_spec (leading_token command) e
                  (with_spawns (S (w_spawns w)) (with_clock (S (w_clock w)) w)))
        as [msg Hh].
      change (w_spawns (with_clock (S (w_clock w)) w)) with (w_spawns w).
      rewrite Hh. exists e, msg. split; reflexivity.
    + right. destruct (env_open_w env name) as [e|] eqn:Ho.
      * left.
        rewrite (capture_no_file env command name out broken code e); [|exact Hp|exact Ho].
        destruct (handlers_spec (leading_token command) e
                    (with_spawns (S (w_spawns w)) (with_clock (S (w_clock w)) w)))
          as [msg Hh].
        change (w_spawns (with_clock (S (w_clock w)) w)) with (w_spawns w).
        rewrite Hh. exists out, broken, code, e, msg. repeat split; reflexivity.
      * right.
        rewrite (capture_started env command name out broken code); [|exact Hp|exact Ho].
        change (w_spawns (with_clock (S (w_clock w)) w)) with (w_spawns w).
        change (w_fs (with_clock (S (w_clock w)) w)) with (w_fs w).
        destruct broken as [e|].
        -- destruct (handlers_spec (leading_token command) e
                       (with_fs (<[name := concat out]> (w_fs w)) w1))
             as [msg Hh].
           fold w1. rewrite Hh.
           exists out, (Some e), code, [EvLog msg].
           split; [reflexivity|]. split; [reflexivity|].
           split; [right; eauto|].
           cbn [app]. rewrite <- !app_assoc. reflexivity.
        -- exists out, None, code, [].
           split; [reflexivity|]. split; [reflexivity|].
           split; [left; auto|]. fold w1. rewrite !app_nil_r. reflexivity.
Qed.

End ExecutorCases.

(** ** Polling *)

Section PollFacts.

Variable env : Env.
Variables (client : Client) (thread_id assistant_id : string).

Lemma with_polls_with_polls (a b : nat) (w : World) :
  with_polls a (with_polls b w) = with_polls a w.
Proof. reflexivity. Qed.

(** A poll that is not answered "completed" is followed by a sleep and the
    next poll. *)
Lemma poll_loop_waiting_step (polls : nat) (run : Run) (mc : option string) (w : World) :
  String.eqb (env_status env (w_polls w)) "completed" = false ->
  poll_loop env (S polls) client thread_id assistant_id run mc w
  = let '(o, w', t) :=
      poll_loop env polls client thread_id assistant_id run mc
        (with_polls (S (w_polls w)) w) in
    (o, w', EvPoll (run_id run) (env_status env (w_polls w)) :: EvSleep 10 :: t).
Proof.
  intros H. cbn [poll_loop].
  unfold bind at 1, check_run_status, runs_retrieve.
  rewrite H. cbn [andb]. unfold bind, time_sleep, emit.
  destruct (poll_loop _ _ _ _ _ _ _ _) as [[o w'] t]. reflexivity.
Qed.

(** A poll that is answered "completed" ends the polling. *)
Lemma poll_loop_completed_step (polls : nat) (run : Run) (mc : option string) (w : World) :
  env_status env (w_polls w) = "completed" ->
  poll_loop env (S polls) client thread_id assistant_id run mc w
  = (extracted assistant_id (w_thread (delivered env (run_id run) w)) mc,
     delivered env (run_id run) w,
     [EvPoll (run_id run) "completed"; EvList]).
Proof.
  intros H. cbn [poll_loop].
  unfold bind at 1, check_run_status, runs_retrieve.
  rewrite H. cbn [String.eqb Ascii.eqb Bool.eqb andb].
  change (String.eqb "completed" "completed") with true. cbn [andb].
  fold (delivered env (run_id run) w).
  unfold get_assistant_responses, messages_list, bind, get_world, emit, ret, extracted.
  cbn [app].
  destruct (List.filter _ _) as [|m l]; [reflexivity|].
  unfold index0. destruct (msg_content m); reflexivity.
Qed.

Lemma poll_loop_waiting (polls : nat) (run : Run) (mc : option string) (w : World) :
  none_completed env (w_polls w) polls = true ->
  poll_loop env polls client thread_id assistant_id run mc w
  = (Running, with_polls (w_polls w + polls) w,
     waiting_events env (run_id run) (w_polls w) polls).
Proof.
  revert w. induction polls as [|polls IH]; intros w H.
  - cbn [poll_loop waiting_events]. unfold running.
    rewrite Nat.add_0_r. destruct w; reflexivity.
  - cbn [none_completed] in H. apply andb_prop in H as [H1 H2].
    apply negb_true_iff in H1.
    rewrite poll_loop_waiting_step by assumption.
    rewrite IH by exact H2.
    cbn [waiting_events w_polls with_polls].
    rewrite with_polls_with_polls.
    replace (S (w_polls w) + polls) with (w_polls w + S polls) by lia.
    reflexivity.
Qed.

(** The polling either goes on to the end of the fuel, or stops at the
    first "completed". *)
Lemma poll_loop_spec (polls : nat) (run : Run) (mc : option string) (w : World) :
  (none_completed env (w_polls w) polls = true
   /\ poll_loop env polls client thread_id assistant_id run mc w
      = (Running, with_polls (w_polls w + polls) w,
         waiting_events env (run_id run) (w_polls w) polls))
  \/ (exists k,
        k < polls
        /\ none_completed env (w_polls w) k = true
        /\ env_status env (w_polls w + k) = "completed"
        /\ poll_loop env polls client thread_id assistant_id run mc w
           = (extracted assistant_id
                (w_thread (delivered env (run_id run) (with_polls (w_polls w + k) w))) mc,
              delivered env (run_id run) (with_polls (w_polls w + k) w),
              waiting_events env (run_id run) (w_polls w) k
              ++ [EvPoll (run_id run) "completed"; EvList])).
Proof.
  revert w. induction polls as [|polls IH]; intros w.
  - left. split; [reflexivity|]. now apply poll_loop_waiting.
  - destruct (String.eqb (env_status env (w_polls w)) "completed") eqn:E.
    + right. exists 0. apply String.eqb_eq in E.
      split; [lia|]. split; [reflexivity|].
      rewrite Nat.add_0_r. split; [exact E|].
      rewrite poll_loop_completed_step by exact E.
      replace (with_polls (w_polls w) w) with w by (destruct w; reflexivity).
      reflexivity.
    + rewrite poll_loop_waiting_step by exact E.
      destruct (IH (with_polls (S (w_polls w)) w)) as [[Hn Hp] | (k & Hk & Hn & Hs & Hp)].
      * left. cbn [w_polls with_polls] in Hn, Hp.
        split; [cbn [none_completed]; rewrite E; exact Hn|].
        rewrite Hp. rewrite with_polls_with_polls.
        replace (S (w_polls w) + polls) with (w_polls w + S polls) by lia.
        reflexivity.
      * right. exists (S k). cbn [w_polls with_polls] in Hn, Hs, Hp.
        split; [lia|].
        split; [cbn [none_completed]; rewrite E; exact Hn|].
        replace (w_polls w + S k) with (S (w_polls w) + k) by lia.
        split; [exact Hs|].
        rewrite Hp. rewrite with_polls_with_polls. reflexivity.
Qed.

Lemma waiting_events_polling (r start polls : nat) :
  forallb polling_event (waiting_events env r start polls) = true.
Proof.
  revert start. induction polls as [|polls IH]; intros start; simpl; auto.
Qed.

Lemma poll_loop_events (polls : nat) (run : Run) (mc : option string) (w : World) :
  forallb polling_event
    (events_of (poll_loop env polls client thread_id assistant_id run mc w)) = true.
Proof.
  destruct (poll_loop_spec polls run mc w) as [[_ ->] | (k & _ & _ & _ & ->)];
    unfold events_of; cbn [snd].
  - apply waiting_events_polling.
  - rewrite forallb_app, waiting_events_polling. reflexivity.
Qed.

End PollFacts.

(** ** One turn of the loop *)

Section ActFacts.

Variable env : Env.
Variables (client : Client) (thread_id assistant_id : string).

Lemma act_done (m : string) (w : World) :
  is_pen_test_complete m = true ->
  act env client thread_id assistant_id m w = (Ret Break, w, [EvPrint done_message]).
Proof.
  intros H. unfold act. rewrite H. reflexivity.
Qed.

Lemma act_raise (m : string) (e : exn) (w w' : World) (t : list event) :
  is_pen_test_complete m = false ->
  execute_command env m w = (Raise e, w', t) ->
  act env client thread_id assistant_id m w = (Raise e, w', t).
Proof.
  intros H E. unfold act. rewrite H. unfold bind at 1. rewrite E. reflexivity.
Qed.

(** After the executor has returned a name: the file is read back, its
    content submitted and the next run created, or the file is missing. *)
Lemma act_feedback (m name : string) (w w' : World) (t : list event) :
  is_pen_test_complete m = false ->
  execute_command env m w = (Ret name, w', t) ->
  act env client thread_id assistant_id m w
  = match w_fs w' !! name with
    | None =>
        (Raise {| exn_cls := FileNotFoundError;
                  exn_msg := "[Errno 2] No such file or directory: " +:+ name |},
         w', t)
    | Some c =>
        (Ret (Continue {| run_id := w_runs w' |} (Some m)),
         fed_back c w',
         t ++ [EvOpenR name; EvRead name c; EvSend c; EvCreateRun (w_runs w');
               EvCloseR name])
    end.
Proof.
  intros H E. unfold act. rewrite H. unfold bind at 1. rewrite E.
  unfold bind at 1, open_r.
  destruct (w_fs w' !! name) as [c|] eqn:Hc; [|now rewrite app_nil_r].
  unfold finally, bind, file_read, send_message, messages_create, create_run,
    runs_create, close_r, emit, modify, bind, ret.
  rewrite Hc. reflexivity.
Qed.

Lemma line_events_no_execute (file : string) (out : list string) :
  count_execute (line_events file out) = 0.
Proof. induction out as [|l out IH]; simpl; auto. Qed.

Lemma count_execute_app (a b : list event) :
  count_execute (a ++ b) = count_execute a + count_execute b.
Proof. unfold count_execute. now rewrite List.filter_app, List.length_app. Qed.

Lemma count_execute_polling (t : list event) :
  forallb polling_event t = true -> count_execute t = 0.
Proof.
  induction t as [|e t IH]; simpl; [reflexivity|].
  intros [He Ht]%andb_prop. destruct e; try discriminate; auto.
Qed.

Lemma no_create_run_polling (t : list event) :
  forallb polling_event t = true -> forallb (fun e => negb (is_create_run e)) t = true.
Proof.
  induction t as [|e t IH]; simpl; [reflexivity|].
  intros [He Ht]%andb_prop. destruct e; try discriminate; auto.
Qed.

(** The executor is entered once per call, first of all. *)
Lemma execute_command_events (command : string) (w : World) :
  exists post,
    events_of (execute_command env command w) = EvExecute command :: post
    /\ count_execute post = 0
    /\ forallb (fun e => negb (is_create_run e)) post = true.
Proof.
  destruct (execute_command_cases env command w)
    as [[_ ->] | [_ [(e & msg & _ & ->)
                    | [(out & b & c & e & msg & _ & _ & ->)
                      | (out & b & c & tail & _ & _ & Htail & ->)]]]];
    unfold events_of; cbn [snd app]; eexists; (split; [reflexivity|]).
  - split; reflexivity.
  - split; reflexivity.
  - split; reflexivity.
  - assert (Ht : count_execute tail = 0 /\
                 forallb (fun e => negb (is_create_run e)) tail = true).
    { destruct Htail as [[_ ->] | (e & msg & _ & ->)]; split; reflexivity. }
    destruct Ht as [Ht1 Ht2].
    split.
    + change (count_execute
                (EvPrint ("Executing command: " +:+ command +:+ newline)
                 :: EvPopen command :: EvOpenW _ :: _))
        with (count_execute (line_events
                (artifact_name (leading_token command)
                   (strftime (env_now env (w_clock w)))) out
              ++ [EvCloseW (artifact_name (leading_token command)
                    (strftime (env_now env (w_clock w)))); EvWait command] ++ tail)).
      rewrite !count_execute_app, line_events_no_execute, Ht1. reflexivity.
    + cbn [forallb is_create_run negb andb].
      rewrite forallb_app. cbn [forallb is_create_run negb andb app].
      rewrite Ht2, andb_true_r.
      clear. induction out as [|l out IH]; simpl; auto.
Qed.

(** One turn that does not meet the sentinel enters the executor once,
    before anything else, and creates at most one run, at its end. *)
Lemma act_events (m : string) (w : World) :
  is_pen_test_complete m = false ->
  exists post,
    events_of (act env client thread_id assistant_id m w) = EvExecute m :: post
    /\ count_execute post = 0.
Proof.
  intros H.
  destruct (execute_command_events m w) as (post & Hev & Hc & _).
  destruct (execute_command env m w) as [[[name | e |] w'] t] eqn:E;
    unfold events_of in Hev; cbn [snd] in Hev; subst t.
  - rewrite (act_feedback m name w w' _ H E).
    destruct (w_fs w' !! name) as [c|]; unfold events_of; cbn [snd app].
    + eexists. split; [reflexivity|].
      rewrite count_execute_app, Hc. reflexivity.
    + eauto.
  - rewrite (act_raise m e w w' _ H E). unfold events_of; cbn [snd]. eauto.
  - exfalso.
    destruct (execute_command_cases env m w)
      as [[_ E'] | [_ [(e & msg & _ & E')
                      | [(out & b & c & e & msg & _ & _ & E')
                        | (out & b & c & tail & _ & _ & _ & E')]]]];
      rewrite E' in E; discriminate.
Qed.

End ActFacts.

(** * The claims *)

(** ** The executor (C5, C6, C7, C10) *)

Section ExecutorClaims.



Lemma execute_command_returns_name (env : Env) (command : string) (w : World) :
  all_space command = false ->
  outcome_of (execute_command env command w)
  = Ret (artifact_name (leading_token command) (strftime (env_now env (w_clock w)))).
Proof.
  intros Hsp.
  destruct (execute_command_cases env command w)
    as [[E _] | [_ [(e & msg & _ & ->)
                   | [(out & b & c & e & msg & _ & _ & ->)
                     | (out & b & c & tail & _ & _ & _ & ->)]]]];
    [congruence | reflexivity ..].
Qed.





(** C6: the artifact of an executed action is named by the leading token
    of the action, then "_results_", then the clock reading taken at the
    call in the form YYYYMMDD_HHMMSS, then ".txt"; that name is returned,
    and it is the file the output is captured in. *)
Theorem artifact_name_format (env : Env) (command : string) (w : World) :
  all_space command = false ->
  valid (env_now env (w_clock w)) = true ->
  let ts := strftime (env_now env (w_clock w)) in
  let name := leading_token command +:+ "_results_" +:+ ts +:+ ".txt" in
  outcome_of (execute_command env command w) = Ret name
  /\ is_timestamp ts = true
  /\ (exists rest, split command = leading_token command :: rest)
  /\ (forall out broken code,
        env_popen env (w_spawns w) command = PopenStart out broken code ->
        env_open_w env name = None ->
        In (EvOpenW name) (events_of (execute_command env command w))
        /\ is_Some (w_fs (world_of (execute_command env command w)) !! name)).
Proof.
  intros Hsp Hvalid ts name.
  split; [now apply execute_command_returns_name|].
  split; [now apply strftime_shape|]. split.
  - destruct (split_leading_token command) as [[E _] | (_ & _ & rest & E)];
      [congruence | eauto].
  - intros out broken code Hp Ho. subst name ts.
    destruct (execute_command_cases env command w)
      as [[E _] | [_ [(e' & msg & Hp' & _)
                     | [(out' & b & c' & e' & msg & _ & Ho' & _)
                       | (out' & b & c' & tail & Hp' & _ & _ & ->)]]]];
      [congruence | congruence | unfold artifact_name in Ho'; congruence |].
    unfold events_of, world_of, artifact_name; cbn [fst snd w_fs with_fs].
    split.
    + cbn [app]. right. right. right. left. reflexivity.
    + rewrite lookup_insert_eq. eauto.
Qed.

Lemma artifact_name_format_witness :
  all_space "scan-tool 10.0.0.5" = false
  /\ valid (env_now env_scan 0) = true
  /\ outcome_of (execute_command env_scan "scan-tool 10.0.0.5" world0)
     = Ret "scan-tool_results_20240307_090500.txt".
Proof.
  split; [reflexivity|]. split; [reflexivity|].
  exact (proj1 (artifact_name_format env_scan "scan-tool 10.0.0.5" world0
                  eq_refl eq_refl)).
Defined.

(** C7 (as the code has it): when the child was started and the artifact
    opened, each line of the merged output is shown and handed to the
    writer of the artifact before the next one is read, in the order of
    arrival, and nothing else is written; when the writer has been closed,
    which is before the child is waited for, the artifact holds exactly
    these lines in their order.  Until then the lines wait in the buffer
    of the writer: for an output smaller than the buffer the artifact is
    empty on disk after any number of lines, and holds them all once the
    call has returned. *)
Theorem capture_preserves_order
    (env : Env) (command : string) (out : list string) (broken : option exn)
    (code : Z) (w : World) :
  all_space command = false ->
  let name :=
    artifact_name (leading_token command) (strftime (env_now env (w_clock w))) in
  env_popen env (w_spawns w) command = PopenStart out broken code ->
  env_open_w env name = None ->
  let r := execute_command env command w in
  let opening :=
    [EvExecute command;
     EvPrint ("Executing command: " +:+ command +:+ newline);
     EvPopen command; EvOpenW name] in
  w_fs (world_of r) !! name = Some (concat out)
  /\ (exists tail,
        events_of r
        = opening ++ line_events name out ++ [EvCloseW name; EvWait command] ++ tail
        /\ List.filter (fun e => negb (is_log e)) tail = [])
  /\ (encoded_length (concat out) < buffer_size ->
      (forall arrived later, out = arrived ++ later ->
         storage_after (stored w) (opening ++ line_events name arrived)
         = Some {| on_disk := <[name := ""]> (w_fs w);
                   in_buffer := <[name := concat arrived]> ∅ |})
      /\ storage_after (stored w) (events_of r) = Some (stored (world_of r))).
Proof.
  intros Hsp name Hp Ho r opening. subst r.
  destruct (execute_command_cases env command w)
    as [[E _] | [_ [(e' & msg & Hp' & _)
                   | [(out' & b & c' & e' & msg & _ & Ho' & _)
                     | (out' & b & c' & tail & Hp' & _ & Htail & ->)]]]];
    [congruence | congruence | fold name in Ho'; congruence |].
  rewrite Hp in Hp'. injection Hp' as <- <- <-. fold name.
  unfold events_of, world_of; cbn [fst snd w_fs with_fs].
  assert (Hquiet : List.filter (fun e => negb (is_log e)) tail = []).
  { destruct Htail as [[_ ->] | (e & msg & _ & ->)]; reflexivity. }
  split; [apply lookup_insert_eq|]. split.
  - exists tail. split; [reflexivity | exact Hquiet].
  - intros Hlen.
    assert (Hpre : forall arrived later, out = arrived ++ later ->
              storage_after (stored w) (opening ++ line_events name arrived)
              = Some {| on_disk := <[name := ""]> (w_fs w);
                        in_buffer := <[name := concat arrived]> ∅ |}).
    { intros arrived later ->.
      unfold opening, stored.
      cbn [app storage_after storage_step on_disk in_buffer].
      rewrite (storage_after_lines name arrived "").
      - rewrite append_nil_l. reflexivity.
      - rewrite append_nil_l. rewrite concat_app, encoded_length_app in Hlen. lia. }
    split; [exact Hpre|].
    change ([EvExecute command;
             EvPrint ("Executing command: " +:+ command +:+ newline)]
            ++ [EvPopen command; EvOpenW name]
            ++ line_events name out ++ [EvCloseW name; EvWait command] ++ tail)
      with (opening ++ line_events name out
            ++ [EvCloseW name; EvWait command] ++ tail).
    rewrite app_assoc, storage_after_app.
    rewrite (Hpre out [] (eq_sym (app_nil_r out))).
    cbn [app storage_after storage_step on_disk in_buffer].
    rewrite lookup_insert_eq, alter_insert_eq, append_nil_l.
    rewrite delete_insert_eq, delete_empty.
    rewrite (storage_after_log _ tail Hquiet).
    reflexivity.
Qed.

Lemma capture_preserves_order_witness :
  all_space "scan-tool 10.0.0.5" = false
  /\ env_popen env_scan 0 "scan-tool 10.0.0.5"
     = PopenStart ["line1" +:+ newline; "line2" +:+ newline] None 0
  /\ env_open_w env_scan "scan-tool_results_20240307_090500.txt" = None
  /\ w_fs (world_of (execute_command env_scan "scan-tool 10.0.0.5" world0))
       !! "scan-tool_results_20240307_090500.txt"
     = Some (concat ["line1" +:+ newline; "line2" +:+ newline]).
Proof.
  split; [reflexivity|]. split; [reflexivity|]. split; [reflexivity|].
  exact (proj1 (capture_preserves_order env_scan "scan-tool 10.0.0.5"
                  ["line1" +:+ newline; "line2" +:+ newline] None 0 world0
                  eq_refl eq_refl eq_refl)).
Defined.

(** C7, as the specification states it, fails: the lines are not in the
    file as they arrive.  In the scenario of the specification both lines
    have arrived and have been written when the writer is about to be
    closed, and the artifact on disk is still empty; it holds the two
    lines when the call has returned. *)
Lemma written_lines_wait_in_the_buffer :
  events_of (execute_command env_scan "scan-tool 10.0.0.5" world0)
  = [EvExecute "scan-tool 10.0.0.5";
     EvPrint ("Executing command: scan-tool 10.0.0.5" +:+ newline);
     EvPopen "scan-tool 10.0.0.5";
     EvOpenW "scan-tool_results_20240307_090500.txt";
     EvPrint ("line1" +:+ newline);
     EvWrite "scan-tool_results_20240307_090500.txt" ("line1" +:+ newline);
     EvPrint ("line2" +:+ newline);
     EvWrite "scan-tool_results_20240307_090500.txt" ("line2" +:+ newline)]
    ++ [EvCloseW "scan-tool_results_20240307_090500.txt";
        EvWait "scan-tool 10.0.0.5"]
  /\ storage_after (stored world0)
       [EvExecute "scan-tool 10.0.0.5";
        EvPrint ("Executing command: scan-tool 10.0.0.5" +:+ newline);
        EvPopen "scan-tool 10.0.0.5";
        EvOpenW "scan-tool_results_20240307_090500.txt";
        EvPrint ("line1" +:+ newline);
        EvWrite "scan-tool_results_20240307_090500.txt" ("line1" +:+ newline);
        EvPrint ("line2" +:+ newline);
        EvWrite "scan-tool_results_20240307_090500.txt" ("line2" +:+ newline)]
     = Some {| on_disk := <["scan-tool_results_20240307_090500.txt" := ""]> ∅;
               in_buffer :=
                 <["scan-tool_results_20240307_090500.txt"
                   := ("line1" +:+ newline) +:+ ("line2" +:+ newline)]> ∅ |}
  /\ storage_after (stored world0)
       (events_of (execute_command env_scan "scan-tool 10.0.0.5" world0))
     = Some {| on_disk :=
                 <["scan-tool_results_20240307_090500.txt"
                   := ("line1" +:+ newline) +:+ ("line2" +:+ newline)]> ∅;
               in_buffer := ∅ |}.
Proof. vm_compute. repeat split. Qed.

(** C10: on an action that is empty or blank the executor raises
    IndexError while it takes the leading token, before the [try]: the
    world is as before (no artifact), nothing is logged, and the exception
    leaves the loop body as it is. *)
Theorem blank_action_raises_index_error
    (env : Env) (client : Client) (thread_id assistant_id command : string)
    (w : World) :
  all_space command = true ->
  let r :=
    (Raise {| exn_cls := IndexError; exn_msg := "list index out of range" |},
     w,
     [EvExecute command; EvPrint ("Executing command: " +:+ command +:+ newline)]) in
  execute_command env command w = r
  /\ act env client thread_id assistant_id command w
     = (Raise {| exn_cls := IndexError; exn_msg := "list index out of range" |},
        w,
        [EvExecute command; EvPrint ("Executing command: " +:+ command +:+ newline)]).
Proof.
  intros Hsp r. subst r.
  assert (E := execute_command_blank env command w (split_all_space command Hsp)).
  split; [exact E|].
  apply act_raise; [now apply all_space_not_complete | exact E].
Qed.

Lemma blank_action_raises_index_error_witness :
  all_space "   " = true
  /\ outcome_of (execute_command env_blank "   " world0)
     = Raise {| exn_cls := IndexError; exn_msg := "list index out of range" |}
  /\ w_fs (world_of (execute_command env_blank "   " world0)) = ∅.
Proof.
  split; [reflexivity|].
  rewrite (proj1 (blank_action_raises_index_error env_blank client0
                    "thread_1" "asst_1" "   " world0 eq_refl)).
  split; reflexivity.
Defined.

End ExecutorClaims.

(** ** The loop (C1, C2, C3, C4) *)

Section LoopClaims.

Variable env : Env.
Variables (client : Client) (thread_id assistant_id : string).

Lemma cycle_after_poll (polls : nat) (run : Run) (mc : option string)
    (m : string) (w w1 : World) (t1 : list event) :
  poll_loop env polls client thread_id assistant_id run mc w = (Ret (Some m), w1, t1) ->
  cycle env polls client thread_id assistant_id run mc w
  = let '(o, w', t) := act env client thread_id assistant_id m w1 in (o, w', t1 ++ t).
Proof.
  intros H. unfold cycle. unfold bind at 1. rewrite H.
  unfold bind at 1, read_message_content, ret.
  destruct (act _ _ _ _ _ _) as [[o w'] t]. reflexivity.
Qed.

Lemma cycle_running (polls : nat) (run : Run) (mc : option string)
    (w w1 : World) (t1 : list event) :
  poll_loop env polls client thread_id assistant_id run mc w = (Running, w1, t1) ->
  cycle env polls client thread_id assistant_id run mc w = (Running, w1, t1).
Proof. intros H. unfold cycle. unfold bind at 1. rewrite H. reflexivity. Qed.

Lemma cycle_raise (polls : nat) (run : Run) (mc : option string) (e : exn)
    (w w1 : World) (t1 : list event) :
  poll_loop env polls client thread_id assistant_id run mc w = (Raise e, w1, t1) ->
  cycle env polls client thread_id assistant_id run mc w = (Raise e, w1, t1).
Proof. intros H. unfold cycle. unfold bind at 1. rewrite H. reflexivity. Qed.

Lemma cycle_unbound (polls : nat) (run : Run) (mc : option string)
    (w w1 : World) (t1 : list event) :
  poll_loop env polls client thread_id assistant_id run mc w = (Ret None, w1, t1) ->
  cycle env polls client thread_id assistant_id run mc w
  = (Raise {| exn_cls := UnboundLocalError;
              exn_msg := "cannot access local variable 'message_content'" |},
     w1, t1).
Proof.
  intros H. unfold cycle. unfold bind at 1. rewrite H.
  unfold bind, read_message_content, raise. rewrite app_nil_r. reflexivity.
Qed.

Lemma act_not_break (m : string) (w : World) :
  is_pen_test_complete m = false ->
  outcome_of (act env client thread_id assistant_id m w) <> Ret Break.
Proof.
  intros H.
  destruct (execute_command env m w) as [[[name | e |] w'] t] eqn:E.
  - rewrite (act_feedback env client thread_id assistant_id m name w w' t H E).
    destruct (w_fs w' !! name); discriminate.
  - rewrite (act_raise env client thread_id assistant_id m e w w' t H E). discriminate.
  - unfold act. rewrite H. unfold bind at 1. rewrite E. discriminate.
Qed.

(** C1: once the proposed action [m] is there, the turn ends the loop
    with success exactly when [m] is the sentinel "done" up to case and
    surrounding whitespace, and then the executor is not entered; on any
    other [m] the executor is entered exactly once, first of all, so
    before the next run is created. *)
Theorem completion_sentinel_ends_loop
    (cycles polls : nat) (run : Run) (mc : option string)
    (m : string) (w w1 : World) (t1 : list event) :
  poll_loop env polls client thread_id assistant_id run mc w = (Ret (Some m), w1, t1) ->
  let r := cycle env polls client thread_id assistant_id run mc w in
  (is_sentinel m <-> outcome_of r = Ret Break)
  /\ (is_sentinel m ->
        main_loop env (S cycles) polls client thread_id assistant_id run mc w
        = (Ret tt, w1, t1 ++ [EvPrint done_message])
        /\ count_execute (t1 ++ [EvPrint done_message]) = 0)
  /\ (~ is_sentinel m ->
        exists post,
          events_of r = t1 ++ EvExecute m :: post
          /\ count_execute t1 = 0
          /\ forallb (fun e => negb (is_create_run e)) t1 = true
          /\ count_execute post = 0).
Proof.
  intros Hpoll r.
  assert (Hc := cycle_after_poll polls run mc m w w1 t1 Hpoll).
  assert (Ht1 : forallb polling_event t1 = true).
  { pose proof (poll_loop_events env client thread_id assistant_id polls run mc w) as P.
    rewrite Hpoll in P. exact P. }
  subst r. split; [|split].
  - rewrite <- is_pen_test_complete_sentinel. rewrite Hc. split.
    + intros H. rewrite act_done by exact H. reflexivity.
    + intros H. destruct (is_pen_test_complete m) eqn:E; [reflexivity|].
      exfalso. apply (act_not_break m w1 E).
      destruct (act _ _ _ _ _ _) as [[o w'] t]. exact H.
  - intros H%is_pen_test_complete_sentinel. split.
    + cbn [main_loop]. unfold bind at 1. rewrite Hc, act_done by exact H.
      unfold ret. rewrite app_nil_r. reflexivity.
    + rewrite count_execute_app, count_execute_polling by exact Ht1. reflexivity.
  - intros H. rewrite <- is_pen_test_complete_sentinel in H.
    apply not_true_is_false in H.
    destruct (act_events env client thread_id assistant_id m w1 H) as (post & Hev & Hpost).
    exists post. rewrite Hc.
    destruct (act _ _ _ _ _ _) as [[o w'] t]. unfold events_of in *. cbn [snd] in *.
    subst t. split; [reflexivity|].
    split; [now apply count_execute_polling|].
    split; [now apply no_create_run_polling | exact Hpost].
Qed.

(** C2 (as the code has it): a poll answered "failed" is followed by a
    sleep of 10 and the next poll, as after every status but "completed";
    as long as no poll is answered "completed" the loop goes on polling
    and raises nothing, and it is left only at a "completed". *)
Theorem failed_status_is_polled_again
    (polls : nat) (run : Run) (mc : option string) (w : World) :
  env_status env (w_polls w) = "failed" ->
  poll_loop env (S polls) client thread_id assistant_id run mc w
  = (let '(o, w', t) :=
       poll_loop env polls client thread_id assistant_id run mc
         (with_polls (S (w_polls w)) w) in
     (o, w', EvPoll (run_id run) "failed" :: EvSleep 10 :: t))
  /\ (none_completed env (w_polls w) (S polls) = true ->
        poll_loop env (S polls) client thread_id assistant_id run mc w
        = (Running, with_polls (w_polls w + S polls) w,
           waiting_events env (run_id run) (w_polls w) (S polls)))
  /\ (outcome_of (poll_loop env (S polls) client thread_id assistant_id run mc w)
      <> Running ->
        exists k, 0 < k /\ k < S polls
                  /\ env_status env (w_polls w + k) = "completed").
Proof.
  intros H. split; [|split].
  - rewrite poll_loop_waiting_step by (rewrite H; reflexivity).
    rewrite H. reflexivity.
  - apply poll_loop_waiting.
  - intros Hout.
    destruct (poll_loop_spec env client thread_id assistant_id (S polls) run mc w)
      as [[_ E] | (k & Hk & _ & Hs & _)].
    + rewrite E in Hout. exfalso. now apply Hout.
    + exists k. split; [|split; assumption].
      destruct k; [|lia]. rewrite Nat.add_0_r, H in Hs. discriminate.
Qed.

(** C3 (what the code does): when a poll is answered "completed" and the
    thread holds no message of the assistant, the polling ends without
    error and hands on the variable as it was; on the first turn the
    variable is unbound and the loop dies of UnboundLocalError. *)
Theorem completed_without_response_unbound
    (polls : nat) (run : Run) (w : World) :
  env_status env (w_polls w) = "completed" ->
  List.filter (fun msg => bool_decide (msg_assistant_id msg = Some assistant_id))
    (rev (w_thread (delivered env (run_id run) w))) = [] ->
  (forall mc,
     poll_loop env (S polls) client thread_id assistant_id run mc w
     = (Ret mc, delivered env (run_id run) w, [EvPoll (run_id run) "completed"; EvList]))
  /\ cycle env (S polls) client thread_id assistant_id run None w
     = (Raise {| exn_cls := UnboundLocalError;
                 exn_msg := "cannot access local variable 'message_content'" |},
        delivered env (run_id run) w,
        [EvPoll (run_id run) "completed"; EvList]).
Proof.
  intros Hs Hempty.
  assert (Hp : forall mc,
     poll_loop env (S polls) client thread_id assistant_id run mc w
     = (Ret mc, delivered env (run_id run) w, [EvPoll (run_id run) "completed"; EvList])).
  { intros mc. rewrite poll_loop_completed_step by exact Hs.
    unfold extracted. rewrite Hempty. reflexivity. }
  split; [exact Hp|].
  apply cycle_unbound, Hp.
Qed.

(** C4 (what the code does): when the child process cannot be started,
    the executor logs the failure and returns the name of a file it has
    not created; the loop then fails to open that file and dies of
    FileNotFoundError, with nothing submitted and no run created. *)
Theorem launch_failure_leaves_no_artifact (m : string) (e : exn) (w : World) :
  all_space m = false ->
  is_pen_test_complete m = false ->
  env_popen env (w_spawns w) m = PopenRaise e ->
  let name :=
    artifact_name (leading_token m) (strftime (env_now env (w_clock w))) in
  w_fs w !! name = None ->
  let r := act env client thread_id assistant_id m w in
  outcome_of r
  = Raise {| exn_cls := FileNotFoundError;
             exn_msg := "[Errno 2] No such file or directory: " +:+ name |}
  /\ w_fs (world_of r) = w_fs w
  /\ w_thread (world_of r) = w_thread w
  /\ sent (events_of r) = []
  /\ forallb (fun e => negb (is_create_run e)) (events_of r) = true.
Proof.
  intros Hsp Hnc Hp name Hfs r. subst r.
  destruct (execute_command_cases env m w)
    as [[E _] | [_ [(e' & msg & _ & E)
                   | [(out & b & c & e' & msg & Hp' & _ & _)
                     | (out & b & c & tail & Hp' & _ & _ & _)]]]];
    [congruence | | congruence | congruence].
  fold name in E.
  rewrite (act_feedback env client thread_id assistant_id m name w _ _ Hnc E).
  cbn [w_fs with_spawns with_clock]. rewrite Hfs.
  unfold outcome_of, world_of, events_of; cbn [fst snd].
  repeat split.
Qed.

End LoopClaims.

Lemma completion_sentinel_ends_loop_witness :
  poll_loop env_scan 1 client0 "thread_1" "asst_1" {| run_id := 1 |} None
    (with_active [1] (with_polls 1 world0))
  = (Ret (Some "Done"),
     delivered env_scan 1 (with_active [1] (with_polls 1 world0)),
     [EvPoll 1 "completed"; EvList])
  /\ (is_sentinel "Done" <->
      outcome_of (cycle env_scan 1 client0 "thread_1" "asst_1" {| run_id := 1 |} None
                    (with_active [1] (with_polls 1 world0))) = Ret Break).
Proof.
  assert (H : poll_loop env_scan 1 client0 "thread_1" "asst_1" {| run_id := 1 |} None
                (with_active [1] (with_polls 1 world0))
              = (Ret (Some "Done"),
                 delivered env_scan 1 (with_active [1] (with_polls 1 world0)),
                 [EvPoll 1 "completed"; EvList])) by reflexivity.
  split; [exact H|].
  exact (proj1 (completion_sentinel_ends_loop env_scan client0 "thread_1" "asst_1"
                  0 1 {| run_id := 1 |} None "Done" _ _ _ H)).
Defined.

(** C2, as the specification states it, fails: the run is reported failed
    and the program goes on polling it; no number of polls ends in an
    exception. *)
Lemma failed_run_is_polled_forever :
  main env_failed 1 3 "10.0.0.5" world0
  = (Running,
     with_polls 3
       (with_active [0]
          (with_runs 1
             (with_thread
                [user_message "Start a penetration test on this machine 10.0.0.5."]
                world0))),
     [EvSend "Start a penetration test on this machine 10.0.0.5."; EvCreateRun 0;
      EvPoll 0 "failed"; EvSleep 10;
      EvPoll 0 "failed"; EvSleep 10;
      EvPoll 0 "failed"; EvSleep 10])
  /\ ~ (exists polls,
          outcome_of (poll_loop env_failed polls client0 "thread_1" "asst_1"
                        {| run_id := 0 |} None world0) <> Running).
Proof.
  split; [reflexivity|].
  intros [polls H]. apply H.
  rewrite poll_loop_waiting; [reflexivity|].
  clear H. generalize (w_polls world0).
  induction polls as [|polls IH]; intros n; [reflexivity|].
  cbn [none_completed]. rewrite IH. reflexivity.
Qed.

Lemma failed_status_is_polled_again_witness :
  env_status env_failed (w_polls world0) = "failed"
  /\ poll_loop env_failed 2 client0 "thread_1" "asst_1" {| run_id := 0 |} None world0
     = (Running, with_polls 2 world0,
        [EvPoll 0 "failed"; EvSleep 10; EvPoll 0 "failed"; EvSleep 10]).
Proof.
  split; [reflexivity|].
  destruct (failed_status_is_polled_again env_failed client0 "thread_1" "asst_1"
              1 {| run_id := 0 |} None world0 eq_refl) as (_ & H & _).
  rewrite (H eq_refl). reflexivity.
Defined.

Lemma completed_without_response_unbound_witness :
  env_status env_silent 0 = "completed"
  /\ cycle env_silent 1 client0 "thread_1" "asst_1" {| run_id := 0 |} None
       (with_active [0] (with_runs 1 world0))
     = (Raise {| exn_cls := UnboundLocalError;
                 exn_msg := "cannot access local variable 'message_content'" |},
        delivered env_silent 0 (with_active [0] (with_runs 1 world0)),
        [EvPoll 0 "completed"; EvList]).
Proof.
  split; [reflexivity|].
  exact (proj2 (completed_without_response_unbound env_silent client0 "thread_1"
                  "asst_1" 0 {| run_id := 0 |} (with_active [0] (with_runs 1 world0))
                  eq_refl eq_refl)).
Defined.

(** The whole program on the silent service. *)
Example main_on_silent_service :
  main env_silent 3 3 "10.0.0.5" world0
  = (Raise {| exn_cls := UnboundLocalError;
              exn_msg := "cannot access local variable 'message_content'" |},
     with_polls 1
       (with_runs 1
          (with_thread
             [user_message "Start a penetration test on this machine 10.0.0.5."]
             world0)),
     [EvSend "Start a penetration test on this machine 10.0.0.5."; EvCreateRun 0;
      EvPoll 0 "completed"; EvList]).
Proof. reflexivity. Qed.

Lemma launch_failure_leaves_no_artifact_witness :
  all_space "scan-tool 10.0.0.5" = false
  /\ env_popen env_nolaunch 0 "scan-tool 10.0.0.5"
     = PopenRaise {| exn_cls := OSError;
                     exn_msg := "[Errno 11] Resource temporarily unavailable" |}
  /\ outcome_of (act env_nolaunch client0 "thread_1" "asst_1" "scan-tool 10.0.0.5" world0)
     = Raise {| exn_cls := FileNotFoundError;
                exn_msg := "[Errno 2] No such file or directory: "
                           +:+ "scan-tool_results_20240307_090500.txt" |}.
Proof.
  split; [reflexivity|]. split; [reflexivity|].
  exact (proj1 (launch_failure_leaves_no_artifact env_nolaunch client0 "thread_1"
                  "asst_1" "scan-tool 10.0.0.5" _ world0
                  eq_refl eq_refl eq_refl eq_refl)).
Defined.

(** The whole program when no process can be started. *)
Example main_without_launch :
  let r := main env_nolaunch 3 3 "10.0.0.5" world0 in
  outcome_of r
  = Raise {| exn_cls := FileNotFoundError;
             exn_msg := "[Errno 2] No such file or directory: "
                        +:+ "scan-tool_results_20240307_090500.txt" |}
  /\ w_fs (world_of r) !! "scan-tool_results_20240307_090500.txt" = None
  /\ sent (events_of r) = ["Start a penetration test on this machine 10.0.0.5."]
  /\ List.filter is_log (events_of r)
     = [EvLog "OS error occurred: [Errno 11] Resource temporarily unavailable"].
Proof. vm_compute. repeat split. Qed.

(** ** What holds of every run of the loop *)

Section LoopInvariant.

Variable R : World -> list event -> World -> Prop.
Hypothesis R_nil : forall w, R w [] w.
Hypothesis R_app :
  forall w t1 w1 t2 w2, R w t1 w1 -> R w1 t2 w2 -> R w (t1 ++ t2) w2.

Variable env : Env.
Variables (client : Client) (thread_id assistant_id : string).

Hypothesis R_poll :
  forall polls run mc w,
    R w (events_of (poll_loop env polls client thread_id assistant_id run mc w))
      (world_of (poll_loop env polls client thread_id assistant_id run mc w)).
Hypothesis R_act :
  forall m w,
    R w (events_of (act env client thread_id assistant_id m w))
      (world_of (act env client thread_id assistant_id m w)).

Lemma respects_bind {A B} (m : M A) (k : A -> M B) (w : World) :
  R w (events_of (m w)) (world_of (m w)) ->
  (forall a w1, R w1 (events_of (k a w1)) (world_of (k a w1))) ->
  R w (events_of (bind m k w)) (world_of (bind m k w)).
Proof.
  intros Hm Hk. unfold bind.
  destruct (m w) as [[[a | e |] w1] t1]; try exact Hm.
  specialize (Hk a w1). destruct (k a w1) as [[o w2] t2].
  unfold events_of, world_of in *. cbn [fst snd] in *. eauto.
Qed.

Lemma cycle_respects (polls : nat) (run : Run) (mc : option string) (w : World) :
  R w (events_of (cycle env polls client thread_id assistant_id run mc w))
    (world_of (cycle env polls client thread_id assistant_id run mc w)).
Proof.
  unfold cycle. apply respects_bind; [apply R_poll|].
  intros mc' w1. apply respects_bind.
  - destruct mc'; apply R_nil.
  - intros m w2. apply R_act.
Qed.

Lemma main_loop_respects (cycles polls : nat) (run : Run) (mc : option string)
    (w : World) :
  R w (events_of (main_loop env cycles polls client thread_id assistant_id run mc w))
    (world_of (main_loop env cycles polls client thread_id assistant_id run mc w)).
Proof.
  revert run mc w. induction cycles as [|cycles IH]; intros run mc w.
  - apply R_nil.
  - cbn [main_loop]. apply respects_bind; [apply cycle_respects|].
    intros [|run' mc'] w1; [apply R_nil | apply IH].
Qed.

End LoopInvariant.

Section MainFacts.

Variable env : Env.

(** [main] is the first submission, the first run, and the loop. *)
Lemma main_unfold (cycles polls : nat) (ip_address : string) (w : World) :
  main env cycles polls ip_address w
  = match env_api_key env with
    | Some (String c k) =>
        let objective :=
          "Start a penetration test on this machine " +:+ ip_address +:+ "." in
        let '(o, w', t) :=
          main_loop env cycles polls {| api_key := String c k |}
            (env_thread_id env) (env_assistant_id env)
            {| run_id := w_runs w |} None (fed_back objective w) in
        (o, w', [EvSend objective; EvCreateRun (w_runs w)] ++ t)
    | _ =>
        (Raise {| exn_cls := ValueError;
                  exn_msg := "OPENAI_API_KEY is not set in environment variables." |},
         w, [])
    end.
Proof.
  unfold main, initialize_openai_client.
  destruct (env_api_key env) as [[|c k]|]; try reflexivity.
  unfold bind at 1, ret at 1.
  unfold bind at 1, create_assistant, ret at 1.
  unfold bind at 1, create_thread, ret at 1.
  unfold bind at 1, send_message, messages_create, bind at 1, modify, emit.
  unfold bind at 1, create_run, runs_create.
  cbn [app w_runs w_active with_thread].
  fold (user_message ("Start a penetration test on this machine " +:+ ip_address +:+ ".")).
  fold (fed_back ("Start a penetration test on this machine " +:+ ip_address +:+ ".") w).
  destruct (main_loop _ _ _ _ _ _ _ _ _) as [[o w'] t]. reflexivity.
Qed.

End MainFacts.

(** ** Flushing and submission order (C8) *)

Section OrderFacts.

Lemma closed_before_read_app (o : list string) (a b : list event) :
  closed_before_read_from o (a ++ b)
  = closed_before_read_from o a && closed_before_read_from (writers_after o a) b.
Proof.
  revert o. induction a as [|e a IH]; intros o; [reflexivity|].
  destruct e; cbn [app closed_before_read_from writers_after]; rewrite ?IH;
    try reflexivity; now rewrite andb_assoc.
Qed.

Lemma writers_after_app (o : list string) (a b : list event) :
  writers_after o (a ++ b) = writers_after (writers_after o a) b.
Proof.
  revert o. induction a as [|e a IH]; intros o; [reflexivity|].
  destruct e; cbn [app writers_after]; apply IH.
Qed.

Lemma balanced_nil : balanced [].
Proof. split; reflexivity. Qed.

Lemma balanced_app (a b : list event) : balanced a -> balanced b -> balanced (a ++ b).
Proof.
  intros [Ha1 Ha2] [Hb1 Hb2]. split.
  - rewrite closed_before_read_app, Ha1, Ha2, Hb1. reflexivity.
  - rewrite writers_after_app, Ha2, Hb2. reflexivity.
Qed.

Lemma balanced_polling (t : list event) :
  forallb polling_event t = true -> balanced t.
Proof.
  induction t as [|e t IH]; [intros _; apply balanced_nil|].
  cbn [forallb]. intros [He Ht]%andb_prop.
  destruct (IH Ht) as [H1 H2].
  destruct e; try discriminate; split; assumption.
Qed.

Lemma line_events_closed (o : list string) (file : string) (out : list string)
    (rest : list event) :
  closed_before_read_from o (line_events file out ++ rest)
  = closed_before_read_from o rest
  /\ writers_after o (line_events file out ++ rest) = writers_after o rest.
Proof.
  induction out as [|l out [IH1 IH2]]; [split; reflexivity|].
  split; cbn [line_events app closed_before_read_from writers_after]; assumption.
Qed.

Lemma sent_app (a b : list event) : sent (a ++ b) = sent a ++ sent b.
Proof.
  induction a as [|e a IH]; [reflexivity|].
  destruct e; cbn [app sent]; rewrite IH; reflexivity.
Qed.

Lemma sent_local (t : list event) : forallb local_event t = true -> sent t = [].
Proof.
  induction t as [|e t IH]; [reflexivity|].
  cbn [forallb]. intros [He Ht]%andb_prop.
  destruct e; try discriminate; cbn [sent]; auto.
Qed.

Lemma sent_polling (t : list event) : forallb polling_event t = true -> sent t = [].
Proof.
  induction t as [|e t IH]; [reflexivity|].
  cbn [forallb]. intros [He Ht]%andb_prop.
  destruct e; try discriminate; cbn [sent]; auto.
Qed.

Lemma line_events_local (file : string) (out : list string) :
  forallb local_event (line_events file out) = true.
Proof. induction out as [|l out IH]; simpl; auto. Qed.

Lemma user_contents_app (a b : list Message) :
  user_contents (a ++ b) = user_contents a ++ user_contents b.
Proof.
  induction a as [|m a IH]; [reflexivity|].
  cbn [app user_contents]. destruct (msg_role m); rewrite IH; reflexivity.
Qed.

Lemma user_contents_replies (env : Env) (l : list (list string)) :
  user_contents (map (reply_message env) l) = [].
Proof. induction l as [|b l IH]; simpl; auto. Qed.

Lemma in_submission_order_nil (w : World) : in_submission_order w [] w.
Proof. unfold in_submission_order. cbn [sent map]. now rewrite app_nil_r. Qed.

Lemma in_submission_order_app (w : World) (t1 : list event) (w1 : World)
    (t2 : list event) (w2 : World) :
  in_submission_order w t1 w1 -> in_submission_order w1 t2 w2 ->
  in_submission_order w (t1 ++ t2) w2.
Proof.
  unfold in_submission_order. intros H1 H2.
  rewrite H2, H1, sent_app, map_app, app_assoc. reflexivity.
Qed.

Variable env : Env.
Variables (client : Client) (thread_id assistant_id : string).

Lemma delivered_thread (r : nat) (w : World) :
  user_contents (w_thread (delivered env r w)) = user_contents (w_thread w).
Proof.
  unfold delivered. destruct (existsb _ _); [|reflexivity].
  cbn [w_thread with_thread]. rewrite user_contents_app, user_contents_replies.
  apply app_nil_r.
Qed.

(** The executor touches neither the thread nor the runs, and closes
    what it opens. *)
Lemma execute_command_frame (command : string) (w : World) :
  let r := execute_command env command w in
  w_thread (world_of r) = w_thread w
  /\ w_active (world_of r) = w_active w
  /\ w_runs (world_of r) = w_runs w
  /\ forallb local_event (events_of r) = true
  /\ balanced (events_of r)
  /\ outcome_of r <> Running.
Proof.
  cbv zeta.
  destruct (execute_command_cases env command w)
    as [[_ ->] | [_ [(e & msg & _ & ->)
                    | [(out & b & c & e & msg & _ & _ & ->)
                      | (out & b & c & tail & _ & _ & Htail & ->)]]]];
    unfold events_of, world_of, outcome_of; cbn [fst snd];
    (split; [reflexivity|]); (split; [reflexivity|]); (split; [reflexivity|]).
  - repeat split; discriminate.
  - repeat split; discriminate.
  - repeat split; discriminate.
  - assert (Ht : forallb local_event tail = true /\ balanced tail).
    { destruct Htail as [[_ ->] | (e & msg & _ & ->)]; repeat split. }
    destruct Ht as [Ht1 [Ht2 Ht3]].
    split; [|split; [|discriminate]].
    + cbn [app forallb local_event andb].
      rewrite forallb_app, line_events_local. cbn [forallb local_event andb].
      exact Ht1.
    + split; cbn [app closed_before_read_from writers_after].
      * rewrite (proj1 (line_events_closed _ _ _ _)).
        cbn [closed_before_read_from List.filter].
        rewrite String.eqb_refl. exact Ht2.
      * rewrite (proj2 (line_events_closed _ _ _ _)).
        cbn [writers_after List.filter].
        rewrite String.eqb_refl. exact Ht3.
Qed.

Lemma poll_feedback_ok (polls : nat) (run : Run) (mc : option string) (w : World) :
  let r := poll_loop env polls client thread_id assistant_id run mc w in
  balanced (events_of r) /\ in_submission_order w (events_of r) (world_of r).
Proof.
  cbv zeta.
  pose proof (poll_loop_events env client thread_id assistant_id polls run mc w) as Hev.
  split; [now apply balanced_polling|].
  unfold in_submission_order. rewrite (sent_polling _ Hev). cbn [map].
  rewrite app_nil_r.
  destruct (poll_loop_spec env client thread_id assistant_id polls run mc w)
    as [[_ ->] | (k & _ & _ & _ & ->)]; unfold world_of; cbn [fst snd].
  - reflexivity.
  - rewrite delivered_thread. reflexivity.
Qed.

Lemma act_feedback_ok (m : string) (w : World) :
  let r := act env client thread_id assistant_id m w in
  balanced (events_of r) /\ in_submission_order w (events_of r) (world_of r).
Proof.
  cbv zeta.
  destruct (is_pen_test_complete m) eqn:Hc.
  - rewrite act_done by exact Hc. unfold events_of, world_of; cbn [fst snd].
    split; [split; reflexivity | apply in_submission_order_nil].
  - destruct (execute_command_frame m w) as (Hth & _ & _ & Hloc & Hbal & Hrun).
    destruct (execute_command env m w) as [[[name | e |] w'] t] eqn:E;
      unfold events_of, world_of, outcome_of in Hth, Hloc, Hbal, Hrun;
      cbn [fst snd] in Hth, Hloc, Hbal, Hrun.
    + rewrite (act_feedback env client thread_id assistant_id m name w w' t Hc E).
      destruct (w_fs w' !! name) as [c|]; unfold events_of, world_of; cbn [fst snd].
      * split.
        -- apply balanced_app; [exact Hbal | split; reflexivity].
        -- unfold in_submission_order, fed_back. cbn [w_thread with_thread with_runs with_active].
           rewrite user_contents_app, sent_app, (sent_local _ Hloc), Hth.
           reflexivity.
      * split; [exact Hbal|].
        unfold in_submission_order. rewrite (sent_local _ Hloc), Hth.
        cbn [map]. now rewrite app_nil_r.
    + rewrite (act_raise env client thread_id assistant_id m e w w' t Hc E).
      unfold events_of, world_of; cbn [fst snd].
      split; [exact Hbal|].
      unfold in_submission_order. rewrite (sent_local _ Hloc), Hth.
      cbn [map]. now rewrite app_nil_r.
    + exfalso. now apply Hrun.
Qed.

End OrderFacts.

(** C8: in every run of the program no artifact is opened for reading,
    or read, while its writer is open, and no writer is left open; the
    requester turns of the thread are the submitted contents in the order
    of submission; and in a turn whose child ran to the end, the writer is
    closed before the artifact is read back, what is read back is all the
    captured output, and that is what is submitted. *)
Theorem output_closed_before_read_back
    (env : Env) (cycles polls : nat) (ip_address : string) (w : World) :
  let r := main env cycles polls ip_address w in
  closed_before_read (events_of r) = true
  /\ user_contents (w_thread (world_of r))
     = user_contents (w_thread w) ++ map (fun c => [c]) (sent (events_of r))
  /\ (forall (client : Client) (thread_id assistant_id m : string)
             (out : list string) (code : Z) (w0 : World),
        is_pen_test_complete m = false ->
        all_space m = false ->
        let name :=
          artifact_name (leading_token m) (strftime (env_now env (w_clock w0))) in
        env_popen env (w_spawns w0) m = PopenStart out None code ->
        env_open_w env name = None ->
        events_of (act env client thread_id assistant_id m w0)
        = [EvExecute m; EvPrint ("Executing command: " +:+ m +:+ newline);
           EvPopen m; EvOpenW name]
          ++ line_events name out
          ++ [EvCloseW name; EvWait m;
              EvOpenR name; EvRead name (concat out); EvSend (concat out);
              EvCreateRun (w_runs w0); EvCloseR name]).
Proof.
  cbv zeta.
  assert (Hmain :
    balanced (events_of (main env cycles polls ip_address w))
    /\ in_submission_order w (events_of (main env cycles polls ip_address w))
         (world_of (main env cycles polls ip_address w))).
  { rewrite main_unfold.
    destruct (env_api_key env) as [[|c k]|];
      try (unfold events_of, world_of; cbn [fst snd];
           split; [apply balanced_nil | apply in_submission_order_nil]).
    cbv zeta.
    set (obj := "Start a penetration test on this machine " +:+ ip_address +:+ ".").
    pose proof (main_loop_respects
      (fun w t w' => balanced t /\ in_submission_order w t w')
      (fun w => conj balanced_nil (in_submission_order_nil w))
      (fun w t1 w1 t2 w2 H1 H2 =>
         conj (balanced_app t1 t2 (proj1 H1) (proj1 H2))
              (in_submission_order_app w t1 w1 t2 w2 (proj2 H1) (proj2 H2)))
      env {| api_key := String c k |} (env_thread_id env) (env_assistant_id env)
      (poll_feedback_ok env _ _ _) (act_feedback_ok env _ _ _)
      cycles polls {| run_id := w_runs w |} None (fed_back obj w)) as [Hb Ho].
    destruct (main_loop _ _ _ _ _ _ _ _ _) as [[o w'] t].
    unfold events_of, world_of in *. cbn [fst snd] in *.
    split.
    - apply (balanced_app [EvSend obj; EvCreateRun (w_runs w)] t); [split; reflexivity | exact Hb].
    - apply (in_submission_order_app w [EvSend obj; EvCreateRun (w_runs w)]
               (fed_back obj w) t w'); [|exact Ho].
      unfold in_submission_order, fed_back.
      cbn [w_thread with_thread with_runs with_active sent map].
      rewrite user_contents_app. reflexivity. }
  destruct Hmain as [[Hb _] Ho].
  split; [exact Hb|]. split; [exact Ho|].
  intros client thread_id assistant_id m out code w0 Hc Hsp Hp Hw.
  destruct (execute_command_cases env m w0)
    as [[E _] | [_ [(e' & msg & Hp' & _)
                   | [(out' & b & c' & e' & msg & _ & Ho' & _)
                     | (out' & b & c' & tail & Hp' & _ & Htail & E)]]]];
    [congruence | congruence | congruence |].
  rewrite Hp in Hp'. injection Hp' as <- <- <-.
  destruct Htail as [[_ ->] | (e & msg & Hb' & _)]; [|discriminate].
  rewrite (act_feedback env client thread_id assistant_id m _ w0 _ _ Hc E).
  cbn [w_fs with_fs]. rewrite lookup_insert_eq.
  unfold events_of; cbn [snd]. cbn [w_runs with_fs with_spawns with_clock].
  rewrite !app_nil_r. cbn [app]. rewrite <- !app_assoc. reflexivity.
Qed.

Lemma output_closed_before_read_back_witness :
  is_pen_test_complete "scan-tool 10.0.0.5" = false
  /\ all_space "scan-tool 10.0.0.5" = false
  /\ env_popen env_scan 0 "scan-tool 10.0.0.5"
     = PopenStart ["line1" +:+ newline; "line2" +:+ newline] None 0
  /\ env_open_w env_scan "scan-tool_results_20240307_090500.txt" = None
  /\ events_of (act env_scan client0 "thread_1" "asst_1" "scan-tool 10.0.0.5" world0)
     = [EvExecute "scan-tool 10.0.0.5";
        EvPrint ("Executing command: scan-tool 10.0.0.5" +:+ newline);
        EvPopen "scan-tool 10.0.0.5";
        EvOpenW "scan-tool_results_20240307_090500.txt";
        EvPrint ("line1" +:+ newline);
        EvWrite "scan-tool_results_20240307_090500.txt" ("line1" +:+ newline);
        EvPrint ("line2" +:+ newline);
        EvWrite "scan-tool_results_20240307_090500.txt" ("line2" +:+ newline);
        EvCloseW "scan-tool_results_20240307_090500.txt";
        EvWait "scan-tool 10.0.0.5";
        EvOpenR "scan-tool_results_20240307_090500.txt";
        EvRead "scan-tool_results_20240307_090500.txt"
          (("line1" +:+ newline) +:+ ("line2" +:+ newline));
        EvSend (("line1" +:+ newline) +:+ ("line2" +:+ newline));
        EvCreateRun 0;
        EvCloseR "scan-tool_results_20240307_090500.txt"].
Proof.
  split; [reflexivity|]. split; [reflexivity|].
  split; [reflexivity|]. split; [reflexivity|].
  destruct (output_closed_before_read_back env_scan 0 0 "10.0.0.5" world0)
    as (_ & _ & H).
  rewrite (H client0 "thread_1" "asst_1" "scan-tool 10.0.0.5"
             ["line1" +:+ newline; "line2" +:+ newline] 0%Z world0
             eq_refl eq_refl eq_refl eq_refl).
  reflexivity.
Defined.

(** ** The turns of the thread (C9) *)

Section FlightFacts.

Variable env : Env.
Variables (client : Client) (thread_id assistant_id : string).

Lemma single_flight_waiting (fl : option nat) (r start k : nat) (rest : list event) :
  none_completed env start k = true ->
  single_flight_from fl (waiting_events env r start k ++ rest)
  = single_flight_from fl rest.
Proof.
  revert start. induction k as [|k IH]; intros start H; [reflexivity|].
  cbn [none_completed] in H. apply andb_prop in H as [H1 H2].
  apply negb_true_iff in H1.
  cbn [waiting_events app single_flight_from]. rewrite H1. cbn [andb].
  destruct fl; apply IH; exact H2.
Qed.

Lemma single_flight_polled (r start k : nat) (rest : list event) :
  none_completed env start k = true ->
  single_flight_from (Some r)
    ((waiting_events env r start k ++ [EvPoll r "completed"; EvList]) ++ rest)
  = single_flight_from None rest.
Proof.
  intros H. rewrite <- app_assoc, single_flight_waiting by exact H.
  cbn [app single_flight_from].
  change (String.eqb "completed" "completed") with true.
  rewrite Nat.eqb_refl. reflexivity.
Qed.

Lemma single_flight_local (fl : option nat) (t rest : list event) :
  forallb local_event t = true ->
  single_flight_from fl (t ++ rest) = single_flight_from fl rest.
Proof.
  induction t as [|e t IH]; [reflexivity|].
  cbn [forallb]. intros [He Ht]%andb_prop.
  destruct e; try discriminate; cbn [app single_flight_from]; auto.
Qed.

Lemma extracted_not_running (th : list Message) (mc : option string) :
  extracted assistant_id th mc <> Running.
Proof.
  unfold extracted. destruct (List.filter _ _) as [|m l]; [discriminate|].
  destruct (msg_content m); discriminate.
Qed.

(** The polling leaves the run in flight until its "completed". *)
Lemma poll_loop_single_flight (polls : nat) (run : Run) (mc : option string)
    (w : World) (rest : list event) :
  let r := poll_loop env polls client thread_id assistant_id run mc w in
  single_flight_from (Some (run_id run)) (events_of r ++ rest)
  = single_flight_from
      (match outcome_of r with Running => Some (run_id run) | _ => None end) rest.
Proof.
  cbv zeta.
  destruct (poll_loop_spec env client thread_id assistant_id polls run mc w)
    as [[Hn ->] | (k & _ & Hn & _ & ->)];
    unfold events_of, outcome_of; cbn [fst snd].
  - now apply single_flight_waiting.
  - rewrite single_flight_polled by exact Hn.
    destruct (extracted _ _ _) eqn:E; try reflexivity.
    exfalso. eapply extracted_not_running. exact E.
Qed.

(** The turn after the polling creates at most one run, at its end. *)
Lemma act_single_flight (m : string) (w : World) (rest : list event) :
  let r := act env client thread_id assistant_id m w in
  single_flight_from None (events_of r ++ rest)
  = single_flight_from
      (match outcome_of r with
       | Ret (Continue run' _) => Some (run_id run')
       | _ => None
       end) rest.
Proof.
  cbv zeta. destruct (is_pen_test_complete m) eqn:Hc.
  - rewrite act_done by exact Hc. reflexivity.
  - destruct (execute_command_frame env m w) as (_ & _ & _ & Hloc & _ & Hrun).
    destruct (execute_command env m w) as [[[name | e |] w'] t] eqn:E;
      unfold events_of, outcome_of in Hloc, Hrun; cbn [fst snd] in Hloc, Hrun.
    + rewrite (act_feedback env client thread_id assistant_id m name w w' t Hc E).
      destruct (w_fs w' !! name) as [c|]; unfold events_of, outcome_of; cbn [fst snd].
      * rewrite <- app_assoc, single_flight_local by exact Hloc. reflexivity.
      * now apply single_flight_local.
    + rewrite (act_raise env client thread_id assistant_id m e w w' t Hc E).
      unfold events_of, outcome_of; cbn [fst snd].
      now apply single_flight_local.
    + exfalso. now apply Hrun.
Qed.

Lemma act_not_running (m : string) (w : World) :
  outcome_of (act env client thread_id assistant_id m w) <> Running.
Proof.
  destruct (is_pen_test_complete m) eqn:Hc.
  - rewrite act_done by exact Hc. discriminate.
  - destruct (execute_command_frame env m w) as (_ & _ & _ & _ & _ & Hrun).
    destruct (execute_command env m w) as [[[name | e |] w'] t] eqn:E;
      unfold outcome_of in Hrun; cbn [fst] in Hrun.
    + rewrite (act_feedback env client thread_id assistant_id m name w w' t Hc E).
      destruct (w_fs w' !! name); discriminate.
    + rewrite (act_raise env client thread_id assistant_id m e w w' t Hc E).
      discriminate.
    + exfalso. now apply Hrun.
Qed.

Lemma cycle_single_flight (polls : nat) (run : Run) (mc : option string)
    (w : World) (rest : list event) :
  let r := cycle env polls client thread_id assistant_id run mc w in
  single_flight_from (Some (run_id run)) (events_of r ++ rest)
  = single_flight_from
      (match outcome_of r with
       | Ret (Continue run' _) => Some (run_id run')
       | Running => Some (run_id run)
       | _ => None
       end) rest.
Proof.
  cbv zeta.
  pose proof (poll_loop_single_flight polls run mc w) as Hp. cbv zeta in Hp.
  pose proof (poll_loop_events env client thread_id assistant_id polls run mc w) as Hev.
  destruct (poll_loop env polls client thread_id assistant_id run mc w)
    as [[[[m|] | e |] w1] t1] eqn:E;
    unfold events_of, outcome_of in Hp, Hev; cbn [fst snd] in Hp, Hev.
  - rewrite (cycle_after_poll env client thread_id assistant_id polls run mc m w w1 t1 E).
    pose proof (act_single_flight m w1 rest) as Ha. cbv zeta in Ha.
    pose proof (act_not_running m w1) as Hr.
    destruct (act env client thread_id assistant_id m w1) as [[o w2] t2].
    unfold events_of, outcome_of in *; cbn [fst snd] in *.
    rewrite <- app_assoc, Hp, Ha.
    destruct o as [[|run' mc'] | e |]; try reflexivity.
    exfalso. now apply Hr.
  - rewrite (cycle_unbound env client thread_id assistant_id polls run mc w w1 t1 E).
    apply Hp.
  - rewrite (cycle_raise env client thread_id assistant_id polls run mc e w w1 t1 E).
    apply Hp.
  - rewrite (cycle_running env client thread_id assistant_id polls run mc w w1 t1 E).
    apply Hp.
Qed.

(** Whatever the environment does, a run is created only when no run is
    in flight. *)
Lemma main_loop_single_flight (cycles polls : nat) (run : Run)
    (mc : option string) (w : World) :
  single_flight_from (Some (run_id run))
    (events_of (main_loop env cycles polls client thread_id assistant_id run mc w))
  = true.
Proof.
  revert run mc w. induction cycles as [|cycles IH]; intros run mc w; [reflexivity|].
  cbn [main_loop]. unfold bind.
  pose proof (cycle_single_flight polls run mc w) as Hc. cbv zeta in Hc.
  destruct (cycle env polls client thread_id assistant_id run mc w)
    as [[[[|run' mc'] | e |] w1] t1];
    unfold events_of, outcome_of in Hc; cbn [fst snd] in Hc.
  - unfold ret, events_of; cbn [snd]. rewrite Hc. reflexivity.
  - specialize (IH run' mc' w1).
    destruct (main_loop _ _ _ _ _ _ _ _ _) as [[o w2] t2].
    unfold events_of in *; cbn [snd] in *. rewrite Hc. exact IH.
  - unfold events_of; cbn [snd]. rewrite <- (app_nil_r t1), Hc. reflexivity.
  - unfold events_of; cbn [snd]. rewrite <- (app_nil_r t1), Hc. reflexivity.
Qed.

End FlightFacts.

Section TurnFacts.

Lemma turn_pattern_length (n : nat) : List.length (turn_pattern n) = 2 * n + 1.
Proof.
  induction n as [|n IH]; [reflexivity|].
  cbn [turn_pattern]. rewrite List.length_app, IH. cbn [List.length]. lia.
Qed.

Lemma no_adjacent_after_user (l : list role) :
  no_adjacent_assistant (l ++ [user]) = true ->
  no_adjacent_assistant (l ++ [user; assistant]) = true
  /\ no_adjacent_assistant (l ++ [user; assistant; user]) = true.
Proof.
  induction l as [|a l IH]; [intros _; split; reflexivity|].
  intros H. destruct a.
  - cbn [app no_adjacent_assistant] in *. exact (IH H).
  - destruct l as [|b l].
    + split; reflexivity.
    + destruct b.
      * cbn [app no_adjacent_assistant] in *. exact (IH H).
      * cbn [app no_adjacent_assistant] in H. discriminate.
Qed.

Lemma turn_pattern_ends_with_user (n : nat) :
  exists l, turn_pattern n = l ++ [user].
Proof.
  destruct n as [|n].
  - exists []. reflexivity.
  - exists (turn_pattern n ++ [assistant]). cbn [turn_pattern].
    rewrite <- app_assoc. reflexivity.
Qed.

Lemma turn_pattern_no_adjacent (n : nat) :
  no_adjacent_assistant (turn_pattern n) = true
  /\ no_adjacent_assistant (turn_pattern n ++ [assistant]) = true.
Proof.
  induction n as [|n [IH1 IH2]]; [split; reflexivity|].
  destruct (turn_pattern_ends_with_user n) as [l Hl].
  rewrite Hl in IH1.
  destruct (no_adjacent_after_user l IH1) as [H1 H2].
  assert (E : turn_pattern (S n) = l ++ [user; assistant; user]).
  { cbn [turn_pattern]. rewrite Hl, <- app_assoc. reflexivity. }
  rewrite E. split; [exact H2|].
  replace ((l ++ [user; assistant; user]) ++ [assistant])
    with ((l ++ [user; assistant]) ++ [user; assistant])
    by (rewrite <- !app_assoc; reflexivity).
  apply no_adjacent_after_user.
  replace ((l ++ [user; assistant]) ++ [user])
    with (l ++ [user; assistant; user])
    by (rewrite <- !app_assoc; reflexivity).
  exact H2.
Qed.

Variable env : Env.
Variable client : Client.
Variable thread_id : string.
Variable polls : nat.

(** The service answers every run with exactly one message. *)
Hypothesis one_reply : forall r, List.length (env_replies env r) = 1.

Lemma delivered_one_reply (r : nat) (w : World) :
  w_active w = [r] ->
  exists blocks,
    w_thread (delivered env r w) = w_thread w ++ [reply_message env blocks]
    /\ w_active (delivered env r w) = []
    /\ extracted (env_assistant_id env) (w_thread (delivered env r w))
       = fun mc =>
           match blocks with
           | [] => Raise {| exn_cls := IndexError;
                            exn_msg := "list index out of range" |}
           | block :: _ => Ret (Some block)
           end.
Proof.
  intros Ha. unfold delivered. rewrite Ha.
  cbn [existsb]. rewrite Nat.eqb_refl. cbn [orb List.filter negb].
  rewrite Nat.eqb_refl. cbn [negb].
  pose proof (one_reply r) as Hl.
  destruct (env_replies env r) as [|blocks [|b2 l]]; try discriminate.
  exists blocks. cbn [map w_thread w_active with_thread with_active with_polls].
  repeat split.
  unfold extracted. rewrite rev_app_distr. cbn [rev app List.filter].
  cbn [msg_assistant_id reply_message].
  rewrite bool_decide_eq_true_2 by reflexivity.
  cbn [msg_content]. reflexivity.
Qed.

(** One turn of the loop, started with the thread at [n] executed
    actions and the run [run] in flight. *)
Lemma cycle_turn (run : Run) (mc : option string) (w : World) (n : nat) :
  roles w = turn_pattern n ->
  w_active w = [run_id run] ->
  let r := cycle env polls client thread_id (env_assistant_id env) run mc w in
  match outcome_of r with
  | Ret Break =>
      roles (world_of r) = turn_pattern n ++ [assistant]
      /\ count_execute (events_of r) = 0
  | Ret (Continue run' _) =>
      roles (world_of r) = turn_pattern (S n)
      /\ w_active (world_of r) = [run_id run']
      /\ count_execute (events_of r) = 1
  | Running =>
      roles (world_of r) = turn_pattern n
      /\ count_execute (events_of r) = 0
  | Raise _ =>
      roles (world_of r) = turn_pattern n ++ [assistant]
  end.
Proof.
  intros Hroles Hactive. cbv zeta.
  destruct (poll_loop_spec env client thread_id (env_assistant_id env) polls run mc w)
    as [[Hn Hp] | (k & Hk & Hn & Hs & Hp)].
  - (* the fuel ends while the run is pending *)
    rewrite (cycle_running env client thread_id (env_assistant_id env)
               polls run mc w _ _ Hp).
    unfold outcome_of, world_of, events_of; cbn [fst snd].
    split; [exact Hroles|].
    apply count_execute_polling, waiting_events_polling.
  - (* the run is completed at the poll number k *)
    set (wk := with_polls (w_polls w + k) w) in *.
    destruct (delivered_one_reply (run_id run) wk Hactive)
      as (blocks & Hth & Hact & Hex).
    rewrite Hex in Hp.
    set (wd := delivered env (run_id run) wk) in *.
    set (t1 := waiting_events env (run_id run) (w_polls w) k
               ++ [EvPoll (run_id run) "completed"; EvList]) in *.
    assert (Hwd : roles wd = turn_pattern n ++ [assistant]).
    { unfold roles. rewrite Hth, map_app. cbn [map msg_role reply_message].
      f_equal. exact Hroles. }
    assert (Ht1 : forallb polling_event t1 = true).
    { unfold t1. rewrite forallb_app, waiting_events_polling. reflexivity. }
    destruct blocks as [|m blocks].
    + (* the message has no content block *)
      rewrite (cycle_raise env client thread_id (env_assistant_id env)
                 polls run mc _ w _ _ Hp).
      exact Hwd.
    + rewrite (cycle_after_poll env client thread_id (env_assistant_id env)
                 polls run mc m w wd t1 Hp).
      destruct (is_pen_test_complete m) eqn:Hc.
      * (* the sentinel *)
        rewrite act_done by exact Hc.
        unfold outcome_of, world_of, events_of; cbn [fst snd].
        split; [exact Hwd|].
        rewrite count_execute_app, count_execute_polling by exact Ht1. reflexivity.
      * (* an action *)
        destruct (execute_command_frame env m wd) as (Fth & Fact & _ & _ & _ & Frun).
        destruct (execute_command_events env m wd) as (post & Fev & Fcount & _).
        destruct (execute_command env m wd) as [[[name | e |] w'] t] eqn:E;
          unfold events_of, world_of, outcome_of in Fth, Fact, Frun, Fev;
          cbn [fst snd] in Fth, Fact, Frun, Fev.
        -- rewrite (act_feedback env client thread_id (env_assistant_id env)
                      m name wd w' t Hc E).
           destruct (w_fs w' !! name) as [c|];
             unfold outcome_of, world_of, events_of; cbn [fst snd].
           ++ split.
              { unfold roles, fed_back.
                cbn [w_thread with_thread with_runs with_active].
                rewrite map_app, Fth. fold (roles wd). rewrite Hwd.
                cbn [turn_pattern map msg_role user_message].
                rewrite <- app_assoc. reflexivity. }
              split.
              { unfold fed_back. cbn [w_active with_active with_runs with_thread].
                rewrite Fact, Hact. reflexivity. }
              rewrite !count_execute_app, count_execute_polling by exact Ht1.
              rewrite Fev. unfold count_execute at 1.
              cbn [List.filter is_execute List.length].
              fold (count_execute post). rewrite Fcount. reflexivity.
           ++ unfold roles; rewrite Fth; exact Hwd.
        -- rewrite (act_raise env client thread_id (env_assistant_id env)
                      m e wd w' t Hc E).
           unfold outcome_of, world_of, events_of; cbn [fst snd].
           unfold roles; rewrite Fth; exact Hwd.
        -- exfalso. now apply Frun.
Qed.

Lemma main_loop_turns (cycles : nat) (run : Run) (mc : option string)
    (w : World) (n : nat) :
  roles w = turn_pattern n ->
  w_active w = [run_id run] ->
  let r := main_loop env cycles polls client thread_id (env_assistant_id env) run mc w in
  let N := n + count_execute (events_of r) in
  (outcome_of r = Ret tt -> roles (world_of r) = turn_pattern N ++ [assistant])
  /\ (outcome_of r = Running -> roles (world_of r) = turn_pattern N)
  /\ (exists k, roles (world_of r) = turn_pattern k
                \/ roles (world_of r) = turn_pattern k ++ [assistant]).
Proof.
  revert run mc w n. induction cycles as [|cycles IH]; intros run mc w n Hroles Hactive.
  - cbn [main_loop]. unfold running, outcome_of, world_of, events_of; cbn [fst snd].
    unfold count_execute; cbn [List.filter List.length]. rewrite Nat.add_0_r.
    split; [discriminate|]. split; [intros _; exact Hroles|].
    exists n; left; exact Hroles.
  - cbv zeta. cbn [main_loop]. unfold bind.
    pose proof (cycle_turn run mc w n Hroles Hactive) as Hc. cbv zeta in Hc.
    destruct (cycle _ _ _ _ _ _ _ _) as [[[[|run' mc'] | e |] w1] t1];
      unfold outcome_of, world_of, events_of in Hc; cbn [fst snd] in Hc.
    + (* the loop is left *)
      destruct Hc as (Hr & Hcount).
      unfold ret, outcome_of, world_of, events_of; cbn [fst snd].
      rewrite app_nil_r, Hcount, Nat.add_0_r.
      split; [intros _; exact Hr|]. split; [discriminate|].
      exists n; right; exact Hr.
    + (* the loop goes on *)
      destruct Hc as (Hr & Ha & Hcount).
      specialize (IH run' mc' w1 (S n) Hr Ha). cbv zeta in IH.
      destruct (main_loop _ _ _ _ _ _ _ _ _) as [[o w2] t2].
      unfold outcome_of, world_of, events_of in *; cbn [fst snd] in *.
      destruct IH as (I1 & I2 & I3).
      rewrite count_execute_app, Hcount.
      replace (n + (1 + count_execute t2)) with (S n + count_execute t2) by lia.
      split; [exact I1|]. split; [exact I2|]. exact I3.
    + unfold outcome_of, world_of, events_of; cbn [fst snd].
      split; [discriminate|]. split; [discriminate|].
      exists n; right; exact Hc.
    + destruct Hc as (Hr & Hcount).
      unfold outcome_of, world_of, events_of; cbn [fst snd].
      rewrite Hcount, Nat.add_0_r.
      split; [discriminate|]. split; [intros _; exact Hr|].
      exists n; left; exact Hr.
Qed.

End TurnFacts.

(** C9 (as the code has it): whatever the service does, a run is created
    only when the run before it has been reported completed; and with a
    service that answers every run with exactly one message, no two oracle
    turns are adjacent in the thread, and a run of the program that has
    not been ended by an exception (it has ended with the sentinel, or it
    is still polling) and in which N actions were executed leaves a
    thread of the objective and N pairs of an oracle turn and a requester
    turn, 2N+1 turns, followed by the terminal oracle turn when the loop
    has ended. *)
Theorem turns_alternate
    (env : Env) (cycles polls : nat) (ip_address : string) :
  let r := main env cycles polls ip_address world0 in
  let N := count_execute (events_of r) in
  single_flight (events_of r) = true
  /\ ((forall r, List.length (env_replies env r) = 1) ->
      (outcome_of r = Ret tt -> roles (world_of r) = turn_pattern N ++ [assistant])
      /\ (outcome_of r = Running -> roles (world_of r) = turn_pattern N)
      /\ List.length (turn_pattern N) = 2 * N + 1
      /\ no_adjacent_assistant (roles (world_of r)) = true).
Proof.
  cbv zeta. rewrite main_unfold.
  destruct (env_api_key env) as [[|c k]|];
    try (unfold outcome_of, world_of, events_of; cbn [fst snd];
         split; [reflexivity|]; intros _;
         split; [discriminate|]; split; [discriminate|];
         split; [apply turn_pattern_length | reflexivity]).
  cbv zeta.
  set (obj := "Start a penetration test on this machine " +:+ ip_address +:+ ".").
  split.
  - pose proof (main_loop_single_flight env {| api_key := String c k |}
                  (env_thread_id env) (env_assistant_id env) cycles polls
                  {| run_id := 0 |} None (fed_back obj world0)) as H.
    change (w_runs world0) with 0.
    destruct (main_loop _ _ _ _ _ _ _ _ _) as [[o w'] t].
    unfold events_of in *; cbn [snd] in *. exact H.
  - intros Hone.
    pose proof (main_loop_turns env {| api_key := String c k |} (env_thread_id env)
                  polls Hone cycles {| run_id := 0 |} None (fed_back obj world0) 0
                  eq_refl eq_refl) as H.
    cbv zeta in H. change (w_runs world0) with 0.
    destruct (main_loop _ _ _ _ _ _ _ _ _) as [[o w'] t].
    unfold outcome_of, world_of, events_of in *; cbn [fst snd] in *.
    destruct H as (H1 & H2 & (k' & H3)).
    change (count_execute ([EvSend obj; EvCreateRun 0] ++ t)) with (count_execute t).
    split; [exact H1|]. split; [exact H2|].
    split; [apply turn_pattern_length|].
    destruct H3 as [-> | ->]; apply turn_pattern_no_adjacent.
Qed.

Lemma turns_alternate_witness :
  (forall r, List.length (env_replies env_scan r) = 1)
  /\ roles (world_of (main env_scan 5 5 "10.0.0.5" world0))
     = turn_pattern 1 ++ [assistant]
  /\ single_flight (events_of (main env_scan 5 5 "10.0.0.5" world0)) = true.
Proof.
  assert (H : forall r, List.length (env_replies env_scan r) = 1)
    by (intros [|r]; reflexivity).
  split; [exact H|].
  destruct (turns_alternate env_scan 5 5 "10.0.0.5") as (H5 & Hturns).
  destruct (Hturns H) as (H1 & _).
  split; [exact (H1 eq_refl) | exact H5].
Defined.

(** C9, as the specification states it, fails in two ways.  The service
    writes two messages during the first run, the second of them the
    sentinel: the program takes the newest and ends; no action was
    executed, and the thread holds two turns before the terminal one, the
    last two turns being oracle turns in a row.  And with one message for
    every run: the action is executed (the child is started and waited
    for), the artifact could not be opened, and the program ends with
    FileNotFoundError when it reads it back; one action was executed and
    the thread holds two turns. *)
Lemma turn_count_fails :
  (outcome_of (main env_twice 5 5 "10.0.0.5" world0) = Ret tt
   /\ count_execute (events_of (main env_twice 5 5 "10.0.0.5" world0)) = 0
   /\ roles (world_of (main env_twice 5 5 "10.0.0.5" world0))
      = [user; assistant; assistant]
   /\ no_adjacent_assistant (roles (world_of (main env_twice 5 5 "10.0.0.5" world0)))
      = false)
  /\ (env_replies env_nodir = (fun _ => [["/opt/tools/scan 10.0.0.5"]])
      /\ outcome_of (main env_nodir 5 5 "10.0.0.5" world0)
         = Raise {| exn_cls := FileNotFoundError;
                    exn_msg := "[Errno 2] No such file or directory: "
                               +:+ "/opt/tools/scan_results_20240307_090500.txt" |}
      /\ events_of (main env_nodir 5 5 "10.0.0.5" world0)
         = [EvSend "Start a penetration test on this machine 10.0.0.5.";
            EvCreateRun 0; EvPoll 0 "completed"; EvList;
            EvExecute "/opt/tools/scan 10.0.0.5";
            EvPrint ("Executing command: /opt/tools/scan 10.0.0.5" +:+ newline);
            EvPopen "/opt/tools/scan 10.0.0.5";
            EvWait "/opt/tools/scan 10.0.0.5";
            EvLog "Command not found: /opt/tools/scan"]
      /\ count_execute (events_of (main env_nodir 5 5 "10.0.0.5" world0)) = 1
      /\ roles (world_of (main env_nodir 5 5 "10.0.0.5" world0)) = [user; assistant]).
Proof. vm_compute. repeat split. Qed.

(** ** Checks on concrete inputs *)

Section Checks.

Example strip_lower_example :
  is_pen_test_complete ("  DoNe " +:+ newline) = true
  /\ is_pen_test_complete "done." = false
  /\ is_pen_test_complete "" = false.
Proof. repeat split. Qed.

Example split_example :
  split "  nmap -sV  10.0.0.5 " = ["nmap"; "-sV"; "10.0.0.5"]
  /\ split "   " = []
  /\ leading_token "  nmap -sV  10.0.0.5 " = "nmap".
Proof. repeat split. Qed.

Example strftime_example : strftime noon = "20240307_090500".
Proof. reflexivity. Qed.

(** The readers of traces do reject what they are meant to reject. *)
Example closed_before_read_rejects :
  closed_before_read [EvOpenW "a"; EvWrite "a" "x"; EvOpenR "a"; EvCloseW "a"] = false
  /\ closed_before_read [EvOpenW "a"; EvWrite "a" "x"; EvCloseW "a"; EvOpenR "a"] = true.
Proof. split; reflexivity. Qed.

Example single_flight_rejects :
  single_flight [EvCreateRun 0; EvPoll 0 "failed"; EvCreateRun 1] = false
  /\ single_flight [EvCreateRun 0; EvPoll 0 "completed"; EvCreateRun 1] = true.
Proof. split; reflexivity. Qed.

Example no_adjacent_assistant_rejects :
  no_adjacent_assistant [user; assistant; assistant; user] = false.
Proof. reflexivity. Qed.

(** The scenario of the specification: one scan, then Done; one artifact. *)
Example scan_then_done :
  let r := main env_scan 5 5 "10.0.0.5" world0 in
  outcome_of r = Ret tt
  /\ count_execute (events_of r) = 1
  /\ size (w_fs (world_of r)) = 1
  /\ w_fs (world_of r) !! "scan-tool_results_20240307_090500.txt"
     = Some (("line1" +:+ newline) +:+ ("line2" +:+ newline))
  /\ roles (world_of r) = [user; assistant; user; assistant].
Proof. vm_compute. repeat split. Qed.

(** A blank answer of the assistant ends the program with IndexError. *)
Example main_on_blank_action :
  outcome_of (main env_blank 3 3 "10.0.0.5" world0)
  = Raise {| exn_cls := IndexError; exn_msg := "list index out of range" |}
  /\ w_fs (world_of (main env_blank 3 3 "10.0.0.5" world0)) = ∅.
Proof. split; reflexivity. Qed.

(** A run that is completed without a new message of the assistant: the
    newest message is the old one, and the old action is executed again. *)
Example old_action_is_repeated :
  List.filter is_execute (events_of (main env_once 2 3 "10.0.0.5" world0))
  = [EvExecute "id"; EvExecute "id"]
  /\ roles (world_of (main env_once 2 3 "10.0.0.5" world0))
     = [user; assistant; user; user].
Proof. vm_compute. split; reflexivity. Qed.

End Checks.

(** * Further properties of the code *)

Ltac str_norm := rewrite ?append_cons, ?append_nil_l.

(** ** The completion test *)

Section CompletionFacts.

Lemma isspace_lower_char (c : ascii) : isspace (lower_char c) = isspace c.
Proof. destruct c as [[] [] [] [] [] [] [] []]; vm_compute; reflexivity. Qed.

Lemma lstrip_lower (s : string) : lstrip (lower s) = lower (lstrip s).
Proof.
  induction s as [|c s IH]; [reflexivity|].
  cbn [lower lstrip]. rewrite isspace_lower_char.
  destruct (isspace c); [exact IH | reflexivity].
Qed.

Lemma rstrip_lower (s : string) : rstrip (lower s) = lower (rstrip s).
Proof.
  induction s as [|c s IH]; [reflexivity|].
  cbn [lower rstrip]. rewrite IH, isspace_lower_char.
  destruct (rstrip s) as [|a x]; cbn [lower].
  - destruct (isspace c); reflexivity.
  - reflexivity.
Qed.

Lemma strip_lower (s : string) : strip (lower s) = lower (strip s).
Proof. unfold strip. now rewrite lstrip_lower, rstrip_lower. Qed.

Lemma lstrip_app_visible (m r : string) :
  all_space m = false -> lstrip (m +:+ r) = lstrip m +:+ r.
Proof.
  induction m as [|c m IH]; [discriminate|].
  str_norm. cbn [all_space lstrip].
  destruct (isspace c); [exact IH | reflexivity].
Qed.

Lemma rstrip_app_space (x r : string) :
  all_space r = true -> rstrip (x +:+ r) = rstrip x.
Proof.
  intros Hr. induction x as [|c x IH]; str_norm.
  - now apply rstrip_all_space.
  - cbn [rstrip]. rewrite IH. reflexivity.
Qed.

(** Whitespace around a string does not change what [strip] gives. *)
Lemma strip_padding (l m r : string) :
  all_space l = true -> all_space r = true ->
  strip (l +:+ m +:+ r) = strip m.
Proof.
  intros Hl Hr. unfold strip. rewrite lstrip_app by exact Hl.
  destruct (all_space m) eqn:Hm.
  - rewrite (lstrip_all_space m Hm).
    rewrite lstrip_all_space by (rewrite all_space_app, Hm, Hr; reflexivity).
    reflexivity.
  - rewrite lstrip_app_visible by exact Hm. now apply rstrip_app_space.
Qed.

End CompletionFacts.

(** X1: the completion test does not see whitespace around the message
    nor the case of its letters: two messages that are equal up to case
    are judged alike, also with blanks added on either side of one. *)
Theorem completion_test_ignores_case_and_padding (l m1 m2 r : string) :
  all_space l = true ->
  all_space r = true ->
  lower m1 = lower m2 ->
  is_pen_test_complete (l +:+ m1 +:+ r) = is_pen_test_complete m2.
Proof.
  intros Hl Hr Hm. unfold is_pen_test_complete.
  rewrite strip_padding by assumption.
  rewrite <- !strip_lower, Hm. reflexivity.
Qed.

Lemma completion_test_ignores_case_and_padding_witness :
  all_space "  " = true
  /\ all_space newline = true
  /\ lower "DONE" = lower "Done"
  /\ is_pen_test_complete ("  " +:+ "DONE" +:+ newline) = is_pen_test_complete "Done".
Proof.
  split; [reflexivity|]. split; [reflexivity|]. split; [reflexivity|].
  exact (completion_test_ignores_case_and_padding "  " "DONE" "Done" newline
           eq_refl eq_refl eq_refl).
Defined.

(** ** Artifact names *)

Section NameFacts.







End NameFacts.



(** ** What is taken from the thread *)

Section ExtractionFacts.

Variables (client : Client) (thread_id assistant_id : string).

Lemma send_all_spec (contents : list string) (w : World) :
  send_all client thread_id contents w
  = (Ret tt, with_thread (w_thread w ++ map user_message contents) w,
     map EvSend contents).
Proof.
  revert w. induction contents as [|c contents IH]; intros w.
  - unfold send_all, ret. cbn [fold_right map]. rewrite app_nil_r.
    destruct w; reflexivity.
  - unfold send_all. cbn [fold_right]. fold (send_all client thread_id contents).
    unfold bind at 1. unfold send_message, messages_create, bind, modify, emit.
    rewrite IH. cbn [w_thread with_thread map app].
    rewrite <- app_assoc. reflexivity.
Qed.

Lemma filter_user_messages (contents : list string) :
  List.filter (fun msg => bool_decide (msg_assistant_id msg = Some assistant_id))
    (rev (map user_message contents)) = [].
Proof.
  induction contents as [|c contents IH]; [reflexivity|].
  cbn [map rev]. rewrite List.filter_app, IH. reflexivity.
Qed.

Lemma sent_map_send (contents : list string) : sent (map EvSend contents) = contents.
Proof. induction contents as [|c contents IH]; simpl; [reflexivity | now rewrite IH]. Qed.

End ExtractionFacts.

(** X3: what the program submits never comes back as an answer of the
    assistant: after any number of submitted turns the responses read
    from the thread are those read before, so no output fed back is ever
    taken for an action or for the sentinel. *)
Theorem submitted_turns_are_not_responses
    (client : Client) (thread_id assistant_id : string)
    (contents : list string) (w : World) :
  outcome_of
    ((send_all client thread_id contents ;;
      get_assistant_responses client thread_id assistant_id) w)
  = outcome_of (get_assistant_responses client thread_id assistant_id w)
  /\ sent (events_of
       ((send_all client thread_id contents ;;
         get_assistant_responses client thread_id assistant_id) w))
     = contents.
Proof.
  unfold bind. rewrite send_all_spec.
  unfold get_assistant_responses, messages_list, bind, get_world, emit, ret.
  unfold outcome_of, events_of. cbn [fst snd w_thread with_thread].
  split.
  - rewrite rev_app_distr, List.filter_app, filter_user_messages. reflexivity.
  - rewrite sent_app, sent_map_send. cbn [app sent]. apply app_nil_r.
Qed.

Section NewestFacts.

Variable env : Env.

Lemma extracted_newest (before : list Message) (block : string)
    (more later : list string) (mc : option string) :
  extracted (env_assistant_id env)
    (before ++ [reply_message env (block :: more)] ++ map user_message later) mc
  = Ret (Some block).
Proof.
  unfold extracted.
  rewrite !rev_app_distr, !List.filter_app, filter_user_messages.
  cbn [rev app List.filter msg_assistant_id reply_message].
  rewrite bool_decide_eq_true_2 by reflexivity.
  reflexivity.
Qed.

End NewestFacts.

(** X4: the proposed action is the first content block of the newest
    message of the assistant in the thread, whatever the variable held:
    when the completed run wrote several messages it is the last of them
    (the earlier ones are never executed), and when it wrote none it is
    again the message of an earlier run. *)
Theorem newest_message_is_the_action
    (env : Env) (client : Client) (thread_id : string) (polls : nat)
    (run : Run) (mc : option string) (w : World)
    (block : string) (more : list string) :
  env_status env (w_polls w) = "completed" ->
  existsb (Nat.eqb (run_id run)) (w_active w) = true ->
  (forall earlier,
     env_replies env (run_id run) = earlier ++ [block :: more] ->
     poll_loop env (S polls) client thread_id (env_assistant_id env) run mc w
     = (Ret (Some block), delivered env (run_id run) w,
        [EvPoll (run_id run) "completed"; EvList]))
  /\ (forall before later,
        env_replies env (run_id run) = [] ->
        w_thread w
        = before ++ [reply_message env (block :: more)] ++ map user_message later ->
        poll_loop env (S polls) client thread_id (env_assistant_id env) run mc w
        = (Ret (Some block), delivered env (run_id run) w,
           [EvPoll (run_id run) "completed"; EvList])).
Proof.
  intros Hs Ha. split.
  - intros earlier Hr.
    rewrite poll_loop_completed_step by exact Hs. f_equal. f_equal.
    unfold delivered. rewrite Ha, Hr. cbn [w_thread with_thread].
    rewrite map_app. cbn [map]. rewrite app_assoc.
    apply (extracted_newest env (w_thread w ++ map (reply_message env) earlier)
             block more [] mc).
  - intros before later Hr Hth.
    rewrite poll_loop_completed_step by exact Hs. f_equal. f_equal.
    unfold delivered. rewrite Ha, Hr. cbn [w_thread with_thread map].
    rewrite app_nil_r, Hth. apply extracted_newest.
Qed.

Lemma newest_message_is_the_action_witness :
  env_status env_twice 0 = "completed"
  /\ existsb (Nat.eqb 0) [0] = true
  /\ env_replies env_twice 0 = [["id"]] ++ [["done"]]
  /\ poll_loop env_twice 1 client0 "thread_1" "asst_1" {| run_id := 0 |} None
       (with_active [0] world0)
     = (Ret (Some "done"), delivered env_twice 0 (with_active [0] world0),
        [EvPoll 0 "completed"; EvList]).
Proof.
  split; [reflexivity|]. split; [reflexivity|]. split; [reflexivity|].
  exact (proj1 (newest_message_is_the_action env_twice client0 "thread_1" 0
                  {| run_id := 0 |} None (with_active [0] world0) "done" []
                  eq_refl eq_refl) [["id"]] eq_refl).
Defined.

(** ** The waiting *)

Section WaitingFacts.

Variable env : Env.

Lemma waiting_events_counts (r start k : nat) :
  List.length (List.filter is_poll (waiting_events env r start k)) = k
  /\ total_sleep (waiting_events env r start k) = 10 * k
  /\ List.filter is_list (waiting_events env r start k) = [].
Proof.
  revert start. induction k as [|k IH]; intros start; [repeat split|].
  destruct (IH (S start)) as (I1 & I2 & I3).
  cbn [waiting_events List.filter is_poll is_list total_sleep List.length].
  rewrite I1, I2, I3. repeat split. lia.
Qed.

Lemma total_sleep_app (a b : list event) :
  total_sleep (a ++ b) = total_sleep a + total_sleep b.
Proof.
  induction a as [|e a IH]; [reflexivity|].
  destruct e; cbn [app total_sleep]; rewrite ?IH; lia.
Qed.

End WaitingFacts.

(** X5: the inner loop sleeps 10 seconds after every poll that is not
    answered "completed" and not after the one that is; it reads the
    messages of the thread once, right after that poll, and never before:
    while it is still waiting after n polls it has slept 10 n seconds and
    read nothing; when it has left after k+1 polls it has slept 10 k
    seconds and its last two events are the completed poll and the
    reading. *)
Theorem polling_sleeps_between_polls
    (env : Env) (client : Client) (thread_id assistant_id : string)
    (polls : nat) (run : Run) (mc : option string) (w : World) :
  let r := poll_loop env polls client thread_id assistant_id run mc w in
  (outcome_of r = Running /\
     List.length (List.filter is_poll (events_of r)) = polls
     /\ total_sleep (events_of r) = 10 * polls
     /\ List.filter is_list (events_of r) = [])
  \/ (outcome_of r <> Running /\
      exists k waiting,
        k < polls
        /\ events_of r = waiting ++ [EvPoll (run_id run) "completed"; EvList]
        /\ List.length (List.filter is_poll waiting) = k
        /\ total_sleep (events_of r) = 10 * k
        /\ List.filter is_list waiting = []).
Proof.
  cbv zeta.
  destruct (poll_loop_spec env client thread_id assistant_id polls run mc w)
    as [[_ ->] | (k & Hk & _ & _ & ->)];
    unfold outcome_of, events_of; cbn [fst snd].
  - left. split; [reflexivity|]. apply waiting_events_counts.
  - right. split; [apply extracted_not_running|].
    exists k, (waiting_events env (run_id run) (w_polls w) k).
    destruct (waiting_events_counts env (run_id run) (w_polls w) k) as (I1 & I2 & I3).
    split; [exact Hk|]. split; [reflexivity|]. split; [exact I1|].
    split; [|exact I3].
    rewrite total_sleep_app, I2. cbn [total_sleep]. lia.
Qed.

(** ** The executor and the files *)

Section FileFacts.

Variable env : Env.

Lemma execute_command_started (command : string) (out : list string)
    (broken : option exn) (code : Z) (w : World) :
  all_space command = false ->
  let name :=
    artifact_name (leading_token command) (strftime (env_now env (w_clock w))) in
  env_popen env (w_spawns w) command = PopenStart out broken code ->
  env_open_w env name = None ->
  exists tail,
    (broken = None /\ tail = [] \/ exists e msg, broken = Some e /\ tail = [EvLog msg])
    /\ execute_command env command w
       = (Ret name,
          with_fs (<[name := concat out]> (w_fs w))
            (with_spawns (S (w_spawns w)) (with_clock (S (w_clock w)) w)),
          [EvExecute command; EvPrint ("Executing command: " +:+ command +:+ newline)]
          ++ [EvPopen command; EvOpenW name] ++ line_events name out
          ++ [EvCloseW name; EvWait command] ++ tail).
Proof.
  intros Hsp name Hp Ho.
  destruct (execute_command_cases env command w)
    as [[E _] | [_ [(e' & msg & Hp' & _)
                   | [(out' & b & c' & e' & msg & _ & Ho' & _)
                     | (out' & b & c' & tail & Hp' & _ & Htail & E)]]]];
    [congruence | congruence | fold name in Ho'; congruence |].
  rewrite Hp in Hp'. injection Hp' as <- <- <-.
  exists tail. split; [exact Htail | exact E].
Qed.

End FileFacts.

Section ArtifactFacts.

Variable env : Env.

Lemma line_events_file (name : string) (out : list string) (e : event) (f : string) :
  In e (line_events name out) -> file_of e = Some f -> f = name.
Proof.
  induction out as [|l out IH]; [intros []|].
  cbn [line_events In]. intros [<- | [<- | H]] Hf.
  - discriminate.
  - cbn [file_of] in Hf. congruence.
  - exact (IH H Hf).
Qed.

Lemma polling_no_file (t : list event) (e : event) :
  forallb polling_event t = true -> In e t -> file_of e = None.
Proof.
  rewrite forallb_forall. intros H Hin. specialize (H e Hin).
  destruct e; try discriminate; reflexivity.
Qed.

(** The executor touches its own artifact and no other file. *)
Lemma execute_command_own_file (command : string) (w : World) (e : event) (f : string) :
  In e (events_of (execute_command env command w)) ->
  file_of e = Some f ->
  f = artifact_name (leading_token command) (strftime (env_now env (w_clock w))).
Proof.
  destruct (execute_command_cases env command w)
    as [[_ ->] | [_ [(x & msg & _ & ->)
                    | [(out & b & c & x & msg & _ & _ & ->)
                      | (out & b & c & tail & _ & _ & Htail & ->)]]]];
    unfold events_of; cbn [snd app In]; intros Hin Hf.
  - destruct Hin as [<- | [<- | []]]; discriminate.
  - destruct Hin as [<- | [<- | [<- | []]]]; discriminate.
  - destruct Hin as [<- | [<- | [<- | [<- | [<- | []]]]]]; discriminate.
  - destruct Hin as [<- | [<- | [<- | [<- | Hin]]]]; try discriminate.
    + cbn [file_of] in Hf. congruence.
    + apply in_app_or in Hin as [Hin | Hin];
        [exact (line_events_file _ _ _ _ Hin Hf)|].
      cbn [app In] in Hin. destruct Hin as [<- | [<- | Hin]].
      * cbn [file_of] in Hf. congruence.
      * discriminate.
      * destruct Htail as [[_ ->] | (x & msg & _ & ->)]; [destruct Hin|].
        destruct Hin as [<- | []]. discriminate.
Qed.

Lemma opens_only_artifacts_app (t1 t2 : list event) :
  opens_only_artifacts env t1 -> opens_only_artifacts env t2 ->
  opens_only_artifacts env (t1 ++ t2).
Proof.
  intros H1 H2 e f Hin Hf.
  apply in_app_or in Hin as [Hin | Hin].
  - destruct (H1 e f Hin Hf) as (action & n & Ha & ->).
    exists action, n. split; [apply in_or_app; left; exact Ha | reflexivity].
  - destruct (H2 e f Hin Hf) as (action & n & Ha & ->).
    exists action, n. split; [apply in_or_app; right; exact Ha | reflexivity].
Qed.

Variables (client : Client) (thread_id assistant_id : string).

Lemma poll_loop_opens_no_file (polls : nat) (run : Run) (mc : option string)
    (w : World) :
  opens_only_artifacts env
    (events_of (poll_loop env polls client thread_id assistant_id run mc w)).
Proof.
  intros e f Hin Hf.
  rewrite (polling_no_file _ e
             (poll_loop_events env client thread_id assistant_id polls run mc w) Hin)
    in Hf.
  discriminate.
Qed.

Lemma act_opens_only_artifacts (m : string) (w : World) :
  opens_only_artifacts env (events_of (act env client thread_id assistant_id m w)).
Proof.
  destruct (is_pen_test_complete m) eqn:Hc.
  - rewrite act_done by exact Hc. intros e f [<- | []]. discriminate.
  - assert (Hx : opens_only_artifacts env (events_of (execute_command env m w))).
    { intros e f Hin Hf. exists m, (w_clock w). split.
      - destruct (execute_command_events env m w) as (post & -> & _). now left.
      - exact (execute_command_own_file m w e f Hin Hf). }
    pose proof (execute_command_events env m w) as (post & Hev & _).
    pose proof (execute_command_frame env m w) as (_ & _ & _ & _ & _ & Hrun).
    destruct (execute_command env m w) as [[[name | x |] w'] t] eqn:E;
      unfold events_of, outcome_of in Hx, Hev, Hrun; cbn [fst snd] in Hx, Hev, Hrun.
    + rewrite (act_feedback env client thread_id assistant_id m name w w' t Hc E).
      destruct (w_fs w' !! name) as [c|]; unfold events_of; cbn [snd]; [|exact Hx].
      assert (Hname : name = artifact_name (leading_token m)
                               (strftime (env_now env (w_clock w)))).
      { destruct (execute_command_cases env m w)
          as [[_ E'] | [Hsp _]]; [congruence|].
        pose proof (execute_command_returns_name env m w Hsp) as Hr.
        rewrite E in Hr. unfold outcome_of in Hr. cbn [fst] in Hr. congruence. }
      intros e f Hin Hf. apply in_app_or in Hin as [Hin | Hin].
      * destruct (Hx e f Hin Hf) as (action & n & Ha & ->).
        exists action, n. split; [apply in_or_app; left; exact Ha | reflexivity].
      * exists m, (w_clock w). split; [rewrite Hev; now left|].
        rewrite <- Hname.
        destruct Hin as [<- | [<- | [<- | [<- | [<- | []]]]]];
          cbn [file_of] in Hf; congruence.
    + rewrite (act_raise env client thread_id assistant_id m x w w' t Hc E).
      exact Hx.
    + exfalso. now apply Hrun.
Qed.

End ArtifactFacts.

(** X7: the program touches no file but artifacts: every file the
    executor opens, writes or closes is the artifact it names from the
    leading token of its action and the clock reading of the call; and
    every file that is opened, written, read or closed during a run of the
    program is such an artifact of an action for which the executor was
    entered in that run. *)
Theorem only_artifacts_are_touched
    (env : Env) (cycles polls : nat) (ip_address command : string) (w : World) :
  (forall e f,
     In e (events_of (execute_command env command w)) ->
     file_of e = Some f ->
     f = artifact_name (leading_token command) (strftime (env_now env (w_clock w))))
  /\ opens_only_artifacts env (events_of (main env cycles polls ip_address w)).
Proof.
  split; [intros e f; apply execute_command_own_file|].
  rewrite main_unfold.
  destruct (env_api_key env) as [[|c k]|]; try (intros e f []).
  cbv zeta.
  set (obj := "Start a penetration test on this machine " +:+ ip_address +:+ ".").
  pose proof (main_loop_respects
    (fun _ t _ => opens_only_artifacts env t)
    (fun _ e f (H : In e []) => match H with end)
    (fun _ t1 _ t2 _ => opens_only_artifacts_app env t1 t2)
    env {| api_key := String c k |} (env_thread_id env) (env_assistant_id env)) as H.
  cbv beta in H.
  specialize (H (poll_loop_opens_no_file env _ _ _)
                (act_opens_only_artifacts env _ _ _)
                cycles polls {| run_id := w_runs w |} None (fed_back obj w)).
  destruct (main_loop _ _ _ _ _ _ _ _ _) as [[o w'] t].
  unfold events_of in *. cbn [snd] in *.
  apply opens_only_artifacts_app; [|exact H].
  intros e f [<- | [<- | []]]; discriminate.
Qed.

(** A trace that opens a file of another name is rejected. *)
Example opens_only_artifacts_rejects :
  ~ opens_only_artifacts env_scan [EvExecute "id"; EvOpenW "notes.txt"].
Proof.
  intros H.
  destruct (H (EvOpenW "notes.txt") "notes.txt") as (action & n & Ha & Hf);
    [right; left; reflexivity | reflexivity |].
  destruct Ha as [Ha | [Ha | []]]; [|discriminate].
  injection Ha as <-. vm_compute in Hf. discriminate.
Qed.

(** X8: two actions with the same leading token executed within the same
    second share one artifact: the second execution empties the file, and
    afterwards it holds the output of the second action only. *)
Theorem same_second_overwrites
    (env : Env) (c1 c2 : string) (out1 out2 : list string)
    (b1 b2 : option exn) (x1 x2 : Z) (w : World) :
  all_space c1 = false ->
  leading_token c2 = leading_token c1 ->
  env_now env (S (w_clock w)) = env_now env (w_clock w) ->
  let name :=
    artifact_name (leading_token c1) (strftime (env_now env (w_clock w))) in
  env_popen env (w_spawns w) c1 = PopenStart out1 b1 x1 ->
  env_popen env (S (w_spawns w)) c2 = PopenStart out2 b2 x2 ->
  env_open_w env name = None ->
  let r := (execute_command env c1 ;; execute_command env c2) w in
  outcome_of r = Ret name
  /\ w_fs (world_of r) = <[name := concat out2]> (w_fs w)
  /\ List.filter (fun e => match e with EvOpenW _ => true | _ => false end) (events_of r)
     = [EvOpenW name; EvOpenW name].
Proof.
  intros Hsp1 Htok Hnow name Hp1 Hp2 Ho. cbv zeta.
  assert (Hsp2 : all_space c2 = false).
  { destruct (split_leading_token c2) as [[Hb Hs] | [Hb _]]; [|exact Hb].
    destruct (split_leading_token c1) as [[Hb1 _] | (_ & Hne & _)]; [congruence|].
    exfalso. apply Hne. rewrite <- Htok. unfold leading_token.
    rewrite (lstrip_all_space c2 Hb). reflexivity. }
  destruct (execute_command_started env c1 out1 b1 x1 w Hsp1 Hp1 Ho)
    as (tail1 & Ht1 & E1).
  fold name in E1.
  set (w1 := with_fs (<[name := concat out1]> (w_fs w))
               (with_spawns (S (w_spawns w)) (with_clock (S (w_clock w)) w))) in *.
  assert (Hname : artifact_name (leading_token c2) (strftime (env_now env (w_clock w1)))
                  = name).
  { unfold w1. cbn [w_clock with_fs with_spawns with_clock].
    rewrite Htok, Hnow. reflexivity. }
  destruct (execute_command_started env c2 out2 b2 x2 w1 Hsp2)
    as (tail2 & Ht2 & E2).
  { exact Hp2. }
  { rewrite Hname. exact Ho. }
  rewrite Hname in E2.
  unfold bind. rewrite E1, E2.
  unfold outcome_of, world_of, events_of; cbn [fst snd].
  split; [reflexivity|]. split.
  - unfold w1. cbn [w_fs with_fs with_spawns with_clock].
    apply insert_insert_eq.
  - assert (Hl : forall out, List.filter
                   (fun e => match e with EvOpenW _ => true | _ => false end)
                   (line_events name out) = []).
    { intros out. induction out as [|l out IH]; simpl; auto. }
    assert (Hta : forall tail b,
               (b = None /\ tail = [] \/
                exists (e : exn) msg, b = Some e /\ tail = [EvLog msg]) ->
               List.filter (fun e => match e with EvOpenW _ => true | _ => false end)
                 tail = []).
    { intros tail b [[_ ->] | (e & msg & _ & ->)]; reflexivity. }
    rewrite !List.filter_app, !Hl, (Hta _ _ Ht1), (Hta _ _ Ht2).
    reflexivity.
Qed.

Lemma same_second_overwrites_witness :
  all_space "scan-tool 10.0.0.5" = false
  /\ leading_token "scan-tool 10.0.0.6" = leading_token "scan-tool 10.0.0.5"
  /\ env_now env_scan 1 = env_now env_scan 0
  /\ w_fs (world_of ((execute_command env_scan "scan-tool 10.0.0.5" ;;
                      execute_command env_scan "scan-tool 10.0.0.6") world0))
     = <["scan-tool_results_20240307_090500.txt"
         := concat ["line1" +:+ newline; "line2" +:+ newline]]> (w_fs world0).
Proof.
  split; [reflexivity|]. split; [reflexivity|]. split; [reflexivity|].
  destruct (same_second_overwrites env_scan "scan-tool 10.0.0.5" "scan-tool 10.0.0.6"
              ["line1" +:+ newline; "line2" +:+ newline]
              ["line1" +:+ newline; "line2" +:+ newline] None None 0 0 world0
              eq_refl eq_refl eq_refl eq_refl eq_refl eq_refl) as (_ & H & _).
  exact H.
Defined.

(** ** Failures around the artifact *)

Section FailureFacts.

Variable env : Env.
Variables (client : Client) (thread_id assistant_id : string).

Lemma execute_command_no_file (command : string) (out : list string)
    (broken : option exn) (code : Z) (e : exn) (w : World) :
  all_space command = false ->
  let name :=
    artifact_name (leading_token command) (strftime (env_now env (w_clock w))) in
  env_popen env (w_spawns w) command = PopenStart out broken code ->
  env_open_w env name = Some e ->
  exn_cls e = FileNotFoundError ->
  execute_command env command w
  = (Ret name,
     with_spawns (S (w_spawns w)) (with_clock (S (w_clock w)) w),
     [EvExecute command; EvPrint ("Executing command: " +:+ command +:+ newline);
      EvPopen command; EvWait command;
      EvLog ("Command not found: " +:+ leading_token command)]).
Proof.
  intros Hsp name Hp Ho Hcls.
  destruct (split_leading_token command) as [[Hb _] | (_ & _ & rest & Hsplit)];
    [congruence|].
  rewrite (execute_command_token env command _ rest w Hsplit).
  fold name. cbv zeta. unfold try_except.
  rewrite (capture_no_file env command name out broken code e); [|exact Hp|exact Ho].
  unfold handlers. rewrite Hcls. reflexivity.
Qed.

End FailureFacts.

(** X9: when the artifact cannot be opened because its directory does
    not exist (the leading token is a path), the child has been started
    all the same; it is waited for and its output is dropped; the failure
    is logged as "Command not found" with the token; and the loop, finding
    no file, dies of FileNotFoundError with nothing submitted. *)
Theorem unwritable_artifact_ends_the_loop
    (env : Env) (client : Client) (thread_id assistant_id m : string)
    (out : list string) (broken : option exn) (code : Z) (e : exn) (w : World) :
  all_space m = false ->
  is_pen_test_complete m = false ->
  let name :=
    artifact_name (leading_token m) (strftime (env_now env (w_clock w))) in
  env_popen env (w_spawns w) m = PopenStart out broken code ->
  env_open_w env name = Some e ->
  exn_cls e = FileNotFoundError ->
  w_fs w !! name = None ->
  act env client thread_id assistant_id m w
  = (Raise {| exn_cls := FileNotFoundError;
              exn_msg := "[Errno 2] No such file or directory: " +:+ name |},
     with_spawns (S (w_spawns w)) (with_clock (S (w_clock w)) w),
     [EvExecute m; EvPrint ("Executing command: " +:+ m +:+ newline);
      EvPopen m; EvWait m;
      EvLog ("Command not found: " +:+ leading_token m)]).
Proof.
  intros Hsp Hc name Hp Ho Hcls Hfs.
  rewrite (act_feedback env client thread_id assistant_id m name w _ _ Hc
             (execute_command_no_file env m out broken code e w Hsp Hp Ho Hcls)).
  cbn [w_fs with_spawns with_clock]. rewrite Hfs. reflexivity.
Qed.

Lemma unwritable_artifact_ends_the_loop_witness :
  all_space "/opt/tools/scan 10.0.0.5" = false
  /\ is_pen_test_complete "/opt/tools/scan 10.0.0.5" = false
  /\ outcome_of (act env_nodir client0 "thread_1" "asst_1"
                   "/opt/tools/scan 10.0.0.5" world0)
     = Raise {| exn_cls := FileNotFoundError;
                exn_msg := "[Errno 2] No such file or directory: "
                           +:+ "/opt/tools/scan_results_20240307_090500.txt" |}
  /\ List.filter is_log
       (events_of (act env_nodir client0 "thread_1" "asst_1"
                     "/opt/tools/scan 10.0.0.5" world0))
     = [EvLog "Command not found: /opt/tools/scan"].
Proof.
  split; [reflexivity|]. split; [reflexivity|].
  rewrite (unwritable_artifact_ends_the_loop env_nodir client0 "thread_1" "asst_1"
             "/opt/tools/scan 10.0.0.5" ["found" +:+ newline] None 0
             {| exn_cls := FileNotFoundError;
                exn_msg := "[Errno 2] No such file or directory" |} world0
             eq_refl eq_refl eq_refl eq_refl eq_refl eq_refl).
  split; reflexivity.
Defined.

(** X10: when the reading of the child's output breaks off (the pipe
    raises after some lines), the lines that had arrived are in the
    artifact, one error is logged, and the loop goes on: it submits those
    lines as the result of the action and creates the next run. *)
Theorem broken_output_is_fed_back
    (env : Env) (client : Client) (thread_id assistant_id m : string)
    (out : list string) (e : exn) (code : Z) (w : World) :
  all_space m = false ->
  is_pen_test_complete m = false ->
  let name :=
    artifact_name (leading_token m) (strftime (env_now env (w_clock w))) in
  env_popen env (w_spawns w) m = PopenStart out (Some e) code ->
  env_open_w env name = None ->
  exists msg,
    act env client thread_id assistant_id m w
    = (Ret (Continue {| run_id := w_runs w |} (Some m)),
       fed_back (concat out)
         (with_fs (<[name := concat out]> (w_fs w))
            (with_spawns (S (w_spawns w)) (with_clock (S (w_clock w)) w))),
       [EvExecute m; EvPrint ("Executing command: " +:+ m +:+ newline);
        EvPopen m; EvOpenW name]
       ++ line_events name out
       ++ [EvCloseW name; EvWait m; EvLog msg;
           EvOpenR name; EvRead name (concat out); EvSend (concat out);
           EvCreateRun (w_runs w); EvCloseR name]).
Proof.
  intros Hsp Hc name Hp Ho.
  destruct (execute_command_started env m out (Some e) code w Hsp Hp Ho)
    as (tail & Htail & E).
  destruct Htail as [[Hb _] | (e' & msg & _ & ->)]; [discriminate|].
  exists msg. fold name in E.
  rewrite (act_feedback env client thread_id assistant_id m name w _ _ Hc E).
  cbn [w_fs with_fs]. rewrite lookup_insert_eq.
  cbn [w_runs with_fs with_spawns with_clock].
  f_equal. cbn [app]. rewrite <- !app_assoc. reflexivity.
Qed.

Lemma broken_output_is_fed_back_witness :
  all_space "scan-tool 10.0.0.5" = false
  /\ is_pen_test_complete "scan-tool 10.0.0.5" = false
  /\ sent (events_of (act env_broken client0 "thread_1" "asst_1"
                        "scan-tool 10.0.0.5" world0))
     = ["line1" +:+ newline].
Proof.
  split; [reflexivity|]. split; [reflexivity|].
  destruct (broken_output_is_fed_back env_broken client0 "thread_1" "asst_1"
              "scan-tool 10.0.0.5" ["line1" +:+ newline]
              {| exn_cls := UnicodeDecodeError; exn_msg := "invalid start byte" |}
              0 world0 eq_refl eq_refl eq_refl eq_refl) as [msg ->].
  reflexivity.
Defined.

(** X11: the loop reads back whatever file has the returned name: when
    the child cannot be started and a file of that name is there already
    (an artifact of the same second), that old content is submitted as
    the result of the action and the loop goes on. *)
Theorem old_artifact_is_submitted_after_failed_launch
    (env : Env) (client : Client) (thread_id assistant_id m : string)
    (e : exn) (old : string) (w : World) :
  all_space m = false ->
  is_pen_test_complete m = false ->
  let name :=
    artifact_name (leading_token m) (strftime (env_now env (w_clock w))) in
  env_popen env (w_spawns w) m = PopenRaise e ->
  w_fs w !! name = Some old ->
  let r := act env client thread_id assistant_id m w in
  outcome_of r = Ret (Continue {| run_id := w_runs w |} (Some m))
  /\ sent (events_of r) = [old]
  /\ w_fs (world_of r) = w_fs w.
Proof.
  intros Hsp Hc name Hp Hfs. cbv zeta.
  destruct (execute_command_cases env m w)
    as [[E _] | [_ [(e' & msg & _ & E)
                   | [(out & b & c & e' & msg & Hp' & _ & _)
                     | (out & b & c & tail & Hp' & _ & _ & _)]]]];
    [congruence | | congruence | congruence].
  fold name in E.
  rewrite (act_feedback env client thread_id assistant_id m name w _ _ Hc E).
  cbn [w_fs with_spawns with_clock]. rewrite Hfs.
  unfold outcome_of, world_of, events_of; cbn [fst snd].
  repeat split.
Qed.

Lemma old_artifact_is_submitted_after_failed_launch_witness :
  all_space "scan-tool 10.0.0.5" = false
  /\ is_pen_test_complete "scan-tool 10.0.0.5" = false
  /\ sent (events_of (act env_nolaunch client0 "thread_1" "asst_1" "scan-tool 10.0.0.5"
                        (with_fs (<["scan-tool_results_20240307_090500.txt" := "old"]>
                                     (w_fs world0)) world0)))
     = ["old"].
Proof.
  split; [reflexivity|]. split; [reflexivity|].
  set (w := with_fs (<["scan-tool_results_20240307_090500.txt" := "old"]> (w_fs world0))
              world0).
  assert (Hfs : w_fs w !! artifact_name (leading_token "scan-tool 10.0.0.5")
                           (strftime (env_now env_nolaunch (w_clock w)))
                = Some "old") by (vm_compute; reflexivity).
  destruct (old_artifact_is_submitted_after_failed_launch env_nolaunch client0
              "thread_1" "asst_1" "scan-tool 10.0.0.5" _ "old" w
              eq_refl eq_refl eq_refl Hfs) as (_ & H & _).
  exact H.
Defined.

(** ** The thread and the runs over a whole run of the program *)

Section ProtocolFacts.

Lemma thread_extends_refl (th : list Message) : thread_extends th th.
Proof. exists []. now rewrite app_nil_r. Qed.

Lemma thread_extends_trans (a b c : list Message) :
  thread_extends a b -> thread_extends b c -> thread_extends a c.
Proof.
  intros [m1 ->] [m2 ->]. exists (m1 ++ m2). now rewrite app_assoc.
Qed.

Lemma thread_extends_app (th more : list Message) : thread_extends th (th ++ more).
Proof. exists more. reflexivity. Qed.

Lemma paired_quiet (t : list event) : forallb quiet_event t = true -> paired t = true.
Proof.
  induction t as [|e t IH]; [reflexivity|].
  cbn [forallb]. intros [He Ht]%andb_prop.
  destruct e; try discriminate; cbn [paired]; auto.
Qed.

Lemma paired_app (a b : list event) :
  paired a = true -> paired b = true -> paired (a ++ b) = true.
Proof.
  intros Ha Hb.
  assert (H : forall n a, List.length a <= n -> paired a = true ->
                          paired (a ++ b) = true).
  { clear a Ha. induction n as [|n IH]; intros a Hlen Ha.
    - destruct a; [exact Hb | cbn [List.length] in Hlen; lia].
    - destruct a as [|e a]; [exact Hb|].
      cbn [List.length] in Hlen.
      destruct e; cbn [app paired] in *; try (apply IH; [lia | exact Ha]);
        try discriminate.
      destruct a as [|e' a]; [discriminate|].
      destruct e'; try discriminate.
      cbn [app]. apply IH; [cbn [List.length] in Hlen; lia | exact Ha]. }
  apply (H (List.length a) a); [lia | exact Ha].
Qed.

Lemma quiet_of_local (t : list event) :
  forallb local_event t = true -> forallb quiet_event t = true.
Proof.
  induction t as [|e t IH]; [reflexivity|].
  cbn [forallb]. intros [He Ht]%andb_prop.
  rewrite (IH Ht). destruct e; try discriminate; reflexivity.
Qed.

Lemma quiet_of_polling (t : list event) :
  forallb polling_event t = true -> forallb quiet_event t = true.
Proof.
  induction t as [|e t IH]; [reflexivity|].
  cbn [forallb]. intros [He Ht]%andb_prop.
  rewrite (IH Ht). destruct e; try discriminate; reflexivity.
Qed.

Variable env : Env.
Variables (client : Client) (thread_id assistant_id : string).

Lemma delivered_runs (r : nat) (w : World) : w_runs (delivered env r w) = w_runs w.
Proof. unfold delivered. destruct (existsb _ _); reflexivity. Qed.

Lemma delivered_extends (r : nat) (w : World) :
  thread_extends (w_thread w) (w_thread (delivered env r w)).
Proof.
  unfold delivered. destruct (existsb _ _); cbn [w_thread with_thread with_polls].
  - apply thread_extends_app.
  - apply thread_extends_refl.
Qed.

(** What the polling keeps. *)
Lemma poll_loop_protocol (polls : nat) (run : Run) (mc : option string) (w : World) :
  let r := poll_loop env polls client thread_id assistant_id run mc w in
  thread_extends (w_thread w) (w_thread (world_of r))
  /\ paired (events_of r) = true
  /\ w_runs (world_of r) = w_runs w + List.length (sent (events_of r)).
Proof.
  cbv zeta.
  pose proof (poll_loop_events env client thread_id assistant_id polls run mc w) as Hev.
  rewrite (sent_polling _ Hev), (paired_quiet _ (quiet_of_polling _ Hev)).
  cbn [List.length]. rewrite Nat.add_0_r.
  destruct (poll_loop_spec env client thread_id assistant_id polls run mc w)
    as [[_ ->] | (k & _ & _ & _ & ->)]; unfold world_of; cbn [fst snd].
  - split; [apply thread_extends_refl | split; reflexivity].
  - split; [exact (delivered_extends (run_id run) (with_polls (w_polls w + k) w))|].
    split; [reflexivity|].
    exact (delivered_runs (run_id run) (with_polls (w_polls w + k) w)).
Qed.

(** What the rest of a turn keeps. *)
Lemma act_protocol (m : string) (w : World) :
  let r := act env client thread_id assistant_id m w in
  thread_extends (w_thread w) (w_thread (world_of r))
  /\ paired (events_of r) = true
  /\ w_runs (world_of r) = w_runs w + List.length (sent (events_of r)).
Proof.
  cbv zeta. destruct (is_pen_test_complete m) eqn:Hc.
  - rewrite act_done by exact Hc. unfold world_of, events_of; cbn [fst snd].
    split; [apply thread_extends_refl|]. split; [reflexivity|].
    cbn [sent List.length]. lia.
  - destruct (execute_command_frame env m w) as (Fth & _ & Fruns & Floc & _ & Frun).
    destruct (execute_command env m w) as [[[name | e |] w'] t] eqn:E;
      unfold events_of, world_of, outcome_of in Fth, Fruns, Floc, Frun;
      cbn [fst snd] in Fth, Fruns, Floc, Frun.
    + rewrite (act_feedback env client thread_id assistant_id m name w w' t Hc E).
      destruct (w_fs w' !! name) as [c|]; unfold events_of, world_of; cbn [fst snd].
      * split.
        { unfold fed_back. cbn [w_thread with_thread with_runs with_active].
          rewrite Fth. apply thread_extends_app. }
        split.
        { apply paired_app; [apply paired_quiet, quiet_of_local, Floc | reflexivity]. }
        unfold fed_back. cbn [w_runs with_runs with_active with_thread].
        rewrite sent_app, (sent_local _ Floc), Fruns. cbn [app sent List.length]. lia.
      * rewrite Fth, Fruns, (sent_local _ Floc).
        split; [apply thread_extends_refl|].
        split; [apply paired_quiet, quiet_of_local, Floc|].
        cbn [List.length]. lia.
    + rewrite (act_raise env client thread_id assistant_id m e w w' t Hc E).
      unfold events_of, world_of; cbn [fst snd].
      rewrite Fth, Fruns, (sent_local _ Floc).
      split; [apply thread_extends_refl|].
      split; [apply paired_quiet, quiet_of_local, Floc|].
      cbn [List.length]. lia.
    + exfalso. now apply Frun.
Qed.

End ProtocolFacts.

(** X12: over a whole run of the program the thread only grows at its
    end (no turn is edited or removed); every submission of a turn is
    followed at once by the creation of a run and no run is created
    otherwise, so that the runs created are as many as the turns
    submitted. *)
Theorem every_submission_starts_a_run
    (env : Env) (cycles polls : nat) (ip_address : string) (w : World) :
  let r := main env cycles polls ip_address w in
  thread_extends (w_thread w) (w_thread (world_of r))
  /\ paired (events_of r) = true
  /\ w_runs (world_of r) = w_runs w + List.length (sent (events_of r))
  /\ List.length (List.filter is_create_run (events_of r))
     = List.length (sent (events_of r)).
Proof.
  cbv zeta.
  assert (Hcount : forall t, paired t = true ->
            List.length (List.filter is_create_run t) = List.length (sent t)).
  { intros t.
    assert (H : forall n t, List.length t <= n -> paired t = true ->
              List.length (List.filter is_create_run t) = List.length (sent t)).
    { clear t. induction n as [|n IH]; intros t Hlen Hp.
      - destruct t; [reflexivity | cbn [List.length] in Hlen; lia].
      - destruct t as [|e t]; [reflexivity|].
        cbn [List.length] in Hlen.
        destruct e; cbn [paired List.filter is_create_run sent] in *;
          try (apply IH; [lia | exact Hp]); try discriminate.
        destruct t as [|e' t]; [discriminate|].
        destruct e'; try discriminate.
        cbn [List.filter is_create_run sent List.length]. f_equal.
        apply IH; [cbn [List.length] in Hlen; lia | exact Hp]. }
    apply (H (List.length t) t). lia. }
  assert (Hmain :
    thread_extends (w_thread w) (w_thread (world_of (main env cycles polls ip_address w)))
    /\ paired (events_of (main env cycles polls ip_address w)) = true
    /\ w_runs (world_of (main env cycles polls ip_address w))
       = w_runs w + List.length (sent (events_of (main env cycles polls ip_address w)))).
  { rewrite main_unfold.
    destruct (env_api_key env) as [[|c k]|];
      try (unfold events_of, world_of; cbn [fst snd sent List.length];
           split; [apply thread_extends_refl | split; [reflexivity | lia]]).
    cbv zeta.
    set (obj := "Start a penetration test on this machine " +:+ ip_address +:+ ".").
    pose proof (main_loop_respects
      (fun w t w' =>
         thread_extends (w_thread w) (w_thread w')
         /\ paired t = true
         /\ w_runs w' = w_runs w + List.length (sent t))
      (fun w => conj (thread_extends_refl (w_thread w))
                  (conj eq_refl (eq_sym (Nat.add_0_r (w_runs w)))))) as H.
    cbv beta in H.
    assert (Happ : forall (w : World) (t1 : list event) (w1 : World)
                          (t2 : list event) (w2 : World),
      thread_extends (w_thread w) (w_thread w1) /\ paired t1 = true
        /\ w_runs w1 = w_runs w + List.length (sent t1) ->
      thread_extends (w_thread w1) (w_thread w2) /\ paired t2 = true
        /\ w_runs w2 = w_runs w1 + List.length (sent t2) ->
      thread_extends (w_thread w) (w_thread w2) /\ paired (t1 ++ t2) = true
        /\ w_runs w2 = w_runs w + List.length (sent (t1 ++ t2))).
    { intros w0 t1 w1 t2 w2 (A1 & A2 & A3) (B1 & B2 & B3).
      split; [eapply thread_extends_trans; eassumption|].
      split; [now apply paired_app|].
      rewrite sent_app, List.length_app. lia. }
    specialize (H Happ env {| api_key := String c k |} (env_thread_id env)
                  (env_assistant_id env)
                  (poll_loop_protocol env _ _ _) (act_protocol env _ _ _)
                  cycles polls {| run_id := w_runs w |} None (fed_back obj w)).
    destruct (main_loop _ _ _ _ _ _ _ _ _) as [[o w'] t].
    unfold events_of, world_of in *. cbn [fst snd] in *.
    apply (Happ w [EvSend obj; EvCreateRun (w_runs w)] (fed_back obj w) t w');
      [|exact H].
    unfold fed_back. cbn [w_thread w_runs with_thread with_runs with_active sent List.length].
    split; [apply thread_extends_app|]. split; [reflexivity | lia]. }
  destruct Hmain as (H1 & H2 & H3).
  split; [exact H1|]. split; [exact H2|]. split; [exact H3|].
  now apply Hcount.
Qed.

Section LatestRunFacts.

Variable env : Env.
Variables (client : Client) (thread_id assistant_id : string).

Lemma polls_latest_waiting (r start k : nat) (rest : list event) :
  polls_latest_from (Some r) (waiting_events env r start k ++ rest)
  = polls_latest_from (Some r) rest.
Proof.
  revert start. induction k as [|k IH]; intros start; [reflexivity|].
  cbn [waiting_events app polls_latest_from]. rewrite Nat.eqb_refl. apply IH.
Qed.

Lemma polls_latest_local (last : option nat) (t rest : list event) :
  forallb local_event t = true ->
  polls_latest_from last (t ++ rest) = polls_latest_from last rest.
Proof.
  induction t as [|e t IH]; [reflexivity|].
  cbn [forallb]. intros [He Ht]%andb_prop.
  destruct e; try discriminate; cbn [app polls_latest_from]; auto.
Qed.

Lemma poll_loop_polls_latest (polls : nat) (run : Run) (mc : option string)
    (w : World) (rest : list event) :
  polls_latest_from (Some (run_id run))
    (events_of (poll_loop env polls client thread_id assistant_id run mc w) ++ rest)
  = polls_latest_from (Some (run_id run)) rest.
Proof.
  destruct (poll_loop_spec env client thread_id assistant_id polls run mc w)
    as [[_ ->] | (k & _ & _ & _ & ->)]; unfold events_of; cbn [snd].
  - apply polls_latest_waiting.
  - rewrite <- app_assoc, polls_latest_waiting.
    cbn [app polls_latest_from]. rewrite Nat.eqb_refl. reflexivity.
Qed.

Lemma act_polls_latest (m : string) (w : World) (last : option nat)
    (rest : list event) :
  let r := act env client thread_id assistant_id m w in
  polls_latest_from last (events_of r ++ rest)
  = polls_latest_from
      (match outcome_of r with
       | Ret (Continue run' _) => Some (run_id run')
       | _ => last
       end) rest.
Proof.
  cbv zeta. destruct (is_pen_test_complete m) eqn:Hc.
  - rewrite act_done by exact Hc. reflexivity.
  - destruct (execute_command_frame env m w) as (_ & _ & _ & Hloc & _ & Hrun).
    destruct (execute_command env m w) as [[[name | e |] w'] t] eqn:E;
      unfold events_of, outcome_of in Hloc, Hrun; cbn [fst snd] in Hloc, Hrun.
    + rewrite (act_feedback env client thread_id assistant_id m name w w' t Hc E).
      destruct (w_fs w' !! name) as [c|]; unfold events_of, outcome_of; cbn [fst snd].
      * rewrite <- app_assoc, polls_latest_local by exact Hloc. reflexivity.
      * now apply polls_latest_local.
    + rewrite (act_raise env client thread_id assistant_id m e w w' t Hc E).
      unfold events_of, outcome_of; cbn [fst snd].
      now apply polls_latest_local.
    + exfalso. now apply Hrun.
Qed.

Lemma cycle_polls_latest (polls : nat) (run : Run) (mc : option string)
    (w : World) (rest : list event) :
  let r := cycle env polls client thread_id assistant_id run mc w in
  polls_latest_from (Some (run_id run)) (events_of r ++ rest)
  = polls_latest_from
      (match outcome_of r with
       | Ret (Continue run' _) => Some (run_id run')
       | _ => Some (run_id run)
       end) rest.
Proof.
  cbv zeta.
  pose proof (poll_loop_polls_latest polls run mc w) as Hp.
  destruct (poll_loop env polls client thread_id assistant_id run mc w)
    as [[[[m|] | e |] w1] t1] eqn:E;
    unfold events_of in Hp; cbn [snd] in Hp.
  - rewrite (cycle_after_poll env client thread_id assistant_id polls run mc m w w1 t1 E).
    pose proof (act_polls_latest m w1 (Some (run_id run)) rest) as Ha. cbv zeta in Ha.
    destruct (act env client thread_id assistant_id m w1) as [[o w2] t2].
    unfold events_of, outcome_of in *; cbn [fst snd] in *.
    rewrite <- app_assoc, Hp, Ha. reflexivity.
  - rewrite (cycle_unbound env client thread_id assistant_id polls run mc w w1 t1 E).
    apply Hp.
  - rewrite (cycle_raise env client thread_id assistant_id polls run mc e w w1 t1 E).
    apply Hp.
  - rewrite (cycle_running env client thread_id assistant_id polls run mc w w1 t1 E).
    apply Hp.
Qed.

Lemma main_loop_polls_latest (cycles polls : nat) (run : Run)
    (mc : option string) (w : World) :
  polls_latest_from (Some (run_id run))
    (events_of (main_loop env cycles polls client thread_id assistant_id run mc w))
  = true.
Proof.
  revert run mc w. induction cycles as [|cycles IH]; intros run mc w; [reflexivity|].
  cbn [main_loop]. unfold bind.
  pose proof (cycle_polls_latest polls run mc w) as Hc. cbv zeta in Hc.
  destruct (cycle env polls client thread_id assistant_id run mc w)
    as [[[[|run' mc'] | e |] w1] t1];
    unfold events_of, outcome_of in Hc; cbn [fst snd] in Hc.
  - unfold ret, events_of; cbn [snd]. rewrite Hc. reflexivity.
  - specialize (IH run' mc' w1).
    destruct (main_loop _ _ _ _ _ _ _ _ _) as [[o w2] t2].
    unfold events_of in *; cbn [snd] in *. rewrite Hc. exact IH.
  - unfold events_of; cbn [snd]. rewrite <- (app_nil_r t1), Hc. reflexivity.
  - unfold events_of; cbn [snd]. rewrite <- (app_nil_r t1), Hc. reflexivity.
Qed.

End LatestRunFacts.

(** X13: whatever the environment does, every poll of the program asks
    for the run it has created last: no run is polled before it is
    created, and none after a later run has been created. *)
Theorem only_the_latest_run_is_polled
    (env : Env) (cycles polls : nat) (ip_address : string) (w : World) :
  polls_latest (events_of (main env cycles polls ip_address w)) = true.
Proof.
  rewrite main_unfold.
  destruct (env_api_key env) as [[|c k]|]; try reflexivity.
  cbv zeta.
  pose proof (main_loop_polls_latest env {| api_key := String c k |}
                (env_thread_id env) (env_assistant_id env) cycles polls
                {| run_id := w_runs w |} None
                (fed_back ("Start a penetration test on this machine "
                           +:+ ip_address +:+ ".") w)) as H.
  destruct (main_loop _ _ _ _ _ _ _ _ _) as [[o w'] t].
  unfold events_of in *; cbn [snd] in *. exact H.
Qed.

Example polls_latest_rejects :
  polls_latest [EvCreateRun 0; EvPoll 0 "completed"; EvCreateRun 1; EvPoll 0 "queued"]
  = false
  /\ polls_latest [EvPoll 0 "queued"; EvCreateRun 0] = false
  /\ paired [EvSend "a"; EvPrint "b"; EvCreateRun 0] = false
  /\ paired [EvCreateRun 0] = false.
Proof. repeat split. Qed.

(** ** Start-up *)

Section SetupFacts.

Import Setup.

Variable dotenv_values : gmap string string -> string -> gmap string string.
Variable open_a : string -> option string.

Lemma strip_blank (s : string) : all_space s = true -> strip s = "".
Proof. intros H. unfold strip. now rewrite (lstrip_all_space s H). Qed.

Lemma strip_visible (s : string) :
  all_space s = false -> exists c k, strip s = String c k.
Proof.
  intros H. destruct (strip_decompose s) as (l & r & Hs & Hl & Hr).
  destruct (strip s) as [|c k]; [|eauto].
  exfalso. rewrite append_nil_l in Hs. rewrite Hs, all_space_app, Hl, Hr in H.
  discriminate.
Qed.

(** The prompting branch of [env_setup]. *)
Lemma env_setup_prompts (h : Host) (line : string) (rest : list string) :
  falsy (os_environ (load_dotenv dotenv_values dotenv_path h) !! KEY) = true ->
  host_stdin h = line :: rest ->
  open_a dotenv_path = None ->
  let h1 := load_dotenv dotenv_values dotenv_path h in
  let old := default "" (host_files h !! dotenv_path) in
  env_setup dotenv_values open_a h
  = Ok tt
      {| os_environ := <[KEY := strip line]> (os_environ h1);
         host_files := <[dotenv_path := old +:+ key_line (strip line)]> (host_files h);
         host_stdin := rest;
         host_stdout :=
           (host_stdout h ++ ["Please enter your OPENAI_API_KEY: "])
           ++ ["API Key saved to .env file and loaded for this session." +:+ newline] |}.
Proof.
  intros Hf Hin Ho. cbv zeta. unfold env_setup. rewrite Hf.
  assert (E1 : host_stdin (load_dotenv dotenv_values dotenv_path h) = line :: rest).
  { unfold load_dotenv. destruct (host_files h !! dotenv_path); exact Hin. }
  assert (E2 : host_files (load_dotenv dotenv_values dotenv_path h) = host_files h).
  { unfold load_dotenv. destruct (host_files h !! dotenv_path); reflexivity. }
  assert (E3 : host_stdout (load_dotenv dotenv_values dotenv_path h) = host_stdout h).
  { unfold load_dotenv. destruct (host_files h !! dotenv_path); reflexivity. }
  unfold input, host_print.
  cbn [host_stdin with_stdout]. rewrite E1, Ho.
  cbn [host_files host_stdout os_environ with_stdin with_stdout with_files with_environ].
  rewrite E2, E3. reflexivity.
Qed.

End SetupFacts.

(** X14: a key that the process environment already holds is kept and
    suppresses the prompt, whatever the .env file says; a key that only
    the .env file holds is taken from there, again without prompt; but a
    variable that is set to the empty string hides the key of the .env
    file, and the user is asked. *)
Theorem key_lookup_precedence
    (dotenv_values : gmap string string -> string -> gmap string string)
    (open_a : string -> option string) (h : Setup.Host) (c : ascii) (k : string) :
  (Setup.os_environ h !! Setup.KEY = Some (String c k) ->
   exists h',
     Setup.env_setup dotenv_values open_a h = Setup.Ok tt h'
     /\ Setup.os_environ h' !! Setup.KEY = Some (String c k)
     /\ Setup.host_files h' = Setup.host_files h
     /\ Setup.host_stdin h' = Setup.host_stdin h
     /\ Setup.host_stdout h' = Setup.host_stdout h)
  /\ (forall content,
        Setup.os_environ h !! Setup.KEY = None ->
        Setup.host_files h !! Setup.dotenv_path = Some content ->
        dotenv_values (Setup.os_environ h) content !! Setup.KEY = Some (String c k) ->
        exists h',
          Setup.env_setup dotenv_values open_a h = Setup.Ok tt h'
          /\ Setup.os_environ h' !! Setup.KEY = Some (String c k)
          /\ Setup.host_files h' = Setup.host_files h
          /\ Setup.host_stdin h' = Setup.host_stdin h
          /\ Setup.host_stdout h' = Setup.host_stdout h)
  /\ (forall content line rest,
        Setup.os_environ h !! Setup.KEY = Some "" ->
        Setup.host_files h !! Setup.dotenv_path = Some content ->
        dotenv_values (Setup.os_environ h) content !! Setup.KEY = Some (String c k) ->
        Setup.host_stdin h = line :: rest ->
        open_a Setup.dotenv_path = None ->
        exists h',
          Setup.env_setup dotenv_values open_a h = Setup.Ok tt h'
          /\ Setup.os_environ h' !! Setup.KEY = Some (strip line)
          /\ Setup.host_stdin h' = rest).
Proof.
  split; [|split].
  - intros Hk. exists (Setup.load_dotenv dotenv_values Setup.dotenv_path h).
    assert (E : Setup.os_environ (Setup.load_dotenv dotenv_values Setup.dotenv_path h)
                !! Setup.KEY = Some (String c k)).
    { unfold Setup.load_dotenv.
      destruct (Setup.host_files h !! Setup.dotenv_path); [|exact Hk].
      cbn [Setup.os_environ Setup.with_environ].
      now apply lookup_union_Some_l. }
    split; [unfold Setup.env_setup; rewrite E; reflexivity|].
    split; [exact E|].
    unfold Setup.load_dotenv.
    destruct (Setup.host_files h !! Setup.dotenv_path); repeat split.
  - intros content Hk Hfile Hd.
    exists (Setup.load_dotenv dotenv_values Setup.dotenv_path h).
    assert (E : Setup.os_environ (Setup.load_dotenv dotenv_values Setup.dotenv_path h)
                !! Setup.KEY = Some (String c k)).
    { unfold Setup.load_dotenv. rewrite Hfile.
      cbn [Setup.os_environ Setup.with_environ].
      rewrite lookup_union_r by exact Hk. exact Hd. }
    split; [unfold Setup.env_setup; rewrite E; reflexivity|].
    split; [exact E|].
    unfold Setup.load_dotenv. rewrite Hfile. repeat split.
  - intros content line rest Hk Hfile Hd Hin Ho.
    assert (E : Setup.falsy
                  (Setup.os_environ (Setup.load_dotenv dotenv_values Setup.dotenv_path h)
                   !! Setup.KEY) = true).
    { unfold Setup.load_dotenv. rewrite Hfile.
      cbn [Setup.os_environ Setup.with_environ].
      rewrite (lookup_union_Some_l _ _ _ _ Hk). reflexivity. }
    eexists. split; [apply (env_setup_prompts dotenv_values open_a h line rest E Hin Ho)|].
    cbn [Setup.os_environ Setup.host_stdin].
    split; [apply lookup_insert_eq | reflexivity].
Qed.

(** X15: when no key is found, [env_setup] asks once, keeps the answer
    without the whitespace around it, appends one line with it to the
    .env file (what the file held before stays in front, other files are
    untouched), sets the variable of the process to it, and reports. *)
Theorem prompted_key_is_appended
    (dotenv_values : gmap string string -> string -> gmap string string)
    (open_a : string -> option string) (h : Setup.Host)
    (line : string) (rest : list string) :
  Setup.falsy
    (Setup.os_environ (Setup.load_dotenv dotenv_values Setup.dotenv_path h)
     !! Setup.KEY) = true ->
  Setup.host_stdin h = line :: rest ->
  open_a Setup.dotenv_path = None ->
  exists h',
    Setup.env_setup dotenv_values open_a h = Setup.Ok tt h'
    /\ Setup.os_environ h' !! Setup.KEY = Some (strip line)
    /\ Setup.host_files h' !! Setup.dotenv_path
       = Some (default "" (Setup.host_files h !! Setup.dotenv_path)
               +:+ Setup.key_line (strip line))
    /\ (forall f, f <> Setup.dotenv_path ->
                  Setup.host_files h' !! f = Setup.host_files h !! f)
    /\ Setup.host_stdin h' = rest
    /\ Setup.host_stdout h'
       = Setup.host_stdout h
         ++ ["Please enter your OPENAI_API_KEY: ";
             "API Key saved to .env file and loaded for this session." +:+ newline].
Proof.
  intros Hf Hin Ho.
  eexists. split; [apply (env_setup_prompts dotenv_values open_a h line rest Hf Hin Ho)|].
  cbn [Setup.os_environ Setup.host_files Setup.host_stdin Setup.host_stdout].
  split; [apply lookup_insert_eq|]. split; [apply lookup_insert_eq|].
  split; [intros f Hne; apply lookup_insert_ne; congruence|].
  split; [reflexivity|]. rewrite <- app_assoc. reflexivity.
Qed.

(** X16: the script with an address on the command line and no key: a
    blank answer at the prompt is saved as an empty key, and the program
    then stops with ValueError before it has sent anything to the
    service; any other answer becomes the key (without the whitespace
    around it) and the loop starts by submitting the objective with the
    address and creating the first run.  Without an address the script
    prints its usage line and exits with status 1. *)
Theorem blank_key_stops_before_the_service
    (dotenv_values : gmap string string -> string -> gmap string string)
    (open_a : string -> option string) (env : Env) (cycles polls : nat)
    (prog ip_address : string) (extra : list string)
    (h : Setup.Host) (w : World) (line : string) (rest : list string) :
  Setup.falsy
    (Setup.os_environ (Setup.load_dotenv dotenv_values Setup.dotenv_path h)
     !! Setup.KEY) = true ->
  Setup.host_stdin h = line :: rest ->
  open_a Setup.dotenv_path = None ->
  (all_space line = true ->
   exists h',
     Setup.entry dotenv_values open_a env cycles polls
       (prog :: ip_address :: extra) h w
     = Setup.MainRan h'
         (Raise {| exn_cls := ValueError;
                   exn_msg := "OPENAI_API_KEY is not set in environment variables." |},
          w, [])
     /\ Setup.host_files h' !! Setup.dotenv_path
        = Some (default "" (Setup.host_files h !! Setup.dotenv_path)
                +:+ Setup.key_line ""))
  /\ (all_space line = false ->
      exists h' o w' t,
        Setup.entry dotenv_values open_a env cycles polls
          (prog :: ip_address :: extra) h w
        = Setup.MainRan h'
            (o, w',
             [EvSend ("Start a penetration test on this machine "
                      +:+ ip_address +:+ ".");
              EvCreateRun (w_runs w)] ++ t)
        /\ Setup.os_environ h' !! Setup.KEY = Some (strip line))
  /\ Setup.entry dotenv_values open_a env cycles polls [prog] h w
     = Setup.SysExit 1
         (Setup.host_print ("Please provide an IP address" +:+ newline) h).
Proof.
  intros Hf Hin Ho. split; [|split; [|reflexivity]].
  - intros Hb. eexists. unfold Setup.entry.
    rewrite (env_setup_prompts dotenv_values open_a h line rest Hf Hin Ho).
    cbn [Setup.os_environ Setup.host_files]. rewrite lookup_insert_eq.
    rewrite (strip_blank line Hb). rewrite main_unfold.
    cbn [env_api_key Setup.with_api_key].
    split; [reflexivity | apply lookup_insert_eq].
  - intros Hv. destruct (strip_visible line Hv) as (c & k & Hs).
    unfold Setup.entry.
    rewrite (env_setup_prompts dotenv_values open_a h line rest Hf Hin Ho).
    cbn [Setup.os_environ]. rewrite lookup_insert_eq, Hs. rewrite main_unfold.
    cbn [env_api_key Setup.with_api_key]. cbv zeta.
    destruct (main_loop _ _ _ _ _ _ _ _ _) as [[o w'] t].
    eexists _, o, w', t. split; [reflexivity|].
    cbn [Setup.os_environ]. apply lookup_insert_eq.
Qed.

Lemma key_lookup_precedence_witness :
  Setup.os_environ host_with_key !! Setup.KEY = Some "sk-env"
  /\ exists h',
       Setup.env_setup sample_dotenv_values may_append host_with_key = Setup.Ok tt h'
       /\ Setup.os_environ h' !! Setup.KEY = Some "sk-env"
       /\ Setup.host_stdout h' = [].
Proof.
  assert (H : Setup.os_environ host_with_key !! Setup.KEY = Some "sk-env")
    by (vm_compute; reflexivity).
  split; [exact H|].
  destruct (proj1 (key_lookup_precedence sample_dotenv_values may_append
                     host_with_key "s" "k-env") H)
    as (h' & E & Hk & _ & _ & Ho).
  exists h'. split; [exact E|]. split; [exact Hk | exact Ho].
Defined.

Lemma prompted_key_is_appended_witness :
  Setup.falsy
    (Setup.os_environ
       (Setup.load_dotenv sample_dotenv_values Setup.dotenv_path
          (host_typing "  sk-live  "))
     !! Setup.KEY) = true
  /\ Setup.host_stdin (host_typing "  sk-live  ") = ["  sk-live  "]
  /\ may_append Setup.dotenv_path = None
  /\ exists h',
       Setup.env_setup sample_dotenv_values may_append (host_typing "  sk-live  ")
       = Setup.Ok tt h'
       /\ Setup.os_environ h' !! Setup.KEY = Some "sk-live"
       /\ Setup.host_files h' !! Setup.dotenv_path
          = Some (Setup.key_line "sk-live").
Proof.
  assert (H : Setup.falsy
                (Setup.os_environ
                   (Setup.load_dotenv sample_dotenv_values Setup.dotenv_path
                      (host_typing "  sk-live  "))
                 !! Setup.KEY) = true) by (vm_compute; reflexivity).
  split; [exact H|]. split; [reflexivity|]. split; [reflexivity|].
  destruct (prompted_key_is_appended sample_dotenv_values may_append
              (host_typing "  sk-live  ") "  sk-live  " [] H eq_refl eq_refl)
    as (h' & E & Hk & Hf & _).
  exists h'. split; [exact E|]. split; [exact Hk | exact Hf].
Defined.

Lemma blank_key_stops_before_the_service_witness :
  Setup.falsy
    (Setup.os_environ
       (Setup.load_dotenv sample_dotenv_values Setup.dotenv_path (host_typing " "))
     !! Setup.KEY) = true
  /\ Setup.host_stdin (host_typing " ") = [" "]
  /\ may_append Setup.dotenv_path = None
  /\ all_space " " = true
  /\ exists h',
       Setup.entry sample_dotenv_values may_append env_scan 5 5
         ["main.py"; "10.0.0.5"] (host_typing " ") world0
       = Setup.MainRan h'
           (Raise {| exn_cls := ValueError;
                     exn_msg := "OPENAI_API_KEY is not set in environment variables." |},
            world0, []).
Proof.
  assert (H : Setup.falsy
                (Setup.os_environ
                   (Setup.load_dotenv sample_dotenv_values Setup.dotenv_path
                      (host_typing " "))
                 !! Setup.KEY) = true) by (vm_compute; reflexivity).
  split; [exact H|]. split; [reflexivity|]. split; [reflexivity|].
  split; [reflexivity|].
  destruct (proj1 (blank_key_stops_before_the_service sample_dotenv_values may_append
                     env_scan 5 5 "main.py" "10.0.0.5" [] (host_typing " ") world0
                     " " [] H eq_refl eq_refl) eq_refl)
    as (h' & E & _).
  exists h'. exact E.
Defined.

(** ** A message without content *)

(** X17: when the newest message of the assistant has no content block,
    taking its first block raises IndexError inside the polling: the loop
    dies there, before the completion test, with nothing executed. *)
Theorem empty_message_ends_the_loop
    (env : Env) (client : Client) (thread_id : string) (polls : nat)
    (run : Run) (mc : option string) (w : World) (earlier : list (list string)) :
  env_status env (w_polls w) = "completed" ->
  existsb (Nat.eqb (run_id run)) (w_active w) = true ->
  env_replies env (run_id run) = earlier ++ [[]] ->
  cycle env (S polls) client thread_id (env_assistant_id env) run mc w
  = (Raise {| exn_cls := IndexError; exn_msg := "list index out of range" |},
     delivered env (run_id run) w,
     [EvPoll (run_id run) "completed"; EvList]).
Proof.
  intros Hs Ha Hr. apply cycle_raise.
  rewrite poll_loop_completed_step by exact Hs. f_equal. f_equal.
  unfold delivered. rewrite Ha, Hr. cbn [w_thread with_thread].
  unfold extracted.
  rewrite map_app, app_assoc, rev_app_distr.
  cbn [map rev app List.filter msg_assistant_id reply_message].
  rewrite bool_decide_eq_true_2 by reflexivity. reflexivity.
Qed.

Lemma empty_message_ends_the_loop_witness :
  env_status env_silent 0 = "completed"
  /\ existsb (Nat.eqb 0) [0] = true
  /\ outcome_of
       (cycle (with_replies (fun _ => [["id"]; []]) env_silent) 1 client0
          "thread_1" "asst_1" {| run_id := 0 |} None (with_active [0] world0))
     = Raise {| exn_cls := IndexError; exn_msg := "list index out of range" |}.
Proof.
  split; [reflexivity|]. split; [reflexivity|].
  pose proof (empty_message_ends_the_loop
                (with_replies (fun _ => [["id"]; []]) env_silent)
                client0 "thread_1" 0 {| run_id := 0 |} None (with_active [0] world0)
                [["id"]] eq_refl eq_refl eq_refl) as H.
  change (env_assistant_id (with_replies (fun _ => [["id"]; []]) env_silent))
    with "asst_1" in H.
  rewrite H. reflexivity.
Defined.

(** ** One child at a time *)

Section ChildFacts.

Lemma child_after_app (b : bool) (a t : list event) :
  child_after b (a ++ t)
  = match child_after b a with
    | Some b' => child_after b' t
    | None => None
    end.
Proof.
  revert b. induction a as [|e a IH]; intros b; [reflexivity|].
  destruct e; cbn [app child_after]; destruct b; try apply IH; reflexivity.
Qed.

Lemma one_child_nil : one_child_at_a_time [].
Proof. reflexivity. Qed.

Lemma one_child_app (a b : list event) :
  one_child_at_a_time a -> one_child_at_a_time b -> one_child_at_a_time (a ++ b).
Proof.
  unfold one_child_at_a_time. intros Ha Hb. now rewrite child_after_app, Ha.
Qed.

Lemma one_child_polling (t : list event) :
  forallb polling_event t = true -> one_child_at_a_time t.
Proof.
  unfold one_child_at_a_time.
  induction t as [|e t IH]; [reflexivity|].
  cbn [forallb]. intros [He Ht]%andb_prop.
  destruct e; try discriminate; cbn [child_after]; auto.
Qed.

Lemma child_after_line_events (b : bool) (file : string) (out : list string)
    (rest : list event) :
  child_after b (line_events file out ++ rest) = child_after b rest.
Proof.
  induction out as [|l out IH]; [reflexivity|].
  cbn [line_events app child_after]. exact IH.
Qed.

Variable env : Env.
Variables (client : Client) (thread_id assistant_id : string).

Lemma execute_command_one_child (command : string) (w : World) :
  one_child_at_a_time (events_of (execute_command env command w)).
Proof.
  unfold one_child_at_a_time.
  destruct (execute_command_cases env command w)
    as [[_ ->] | [_ [(e & msg & _ & ->)
                    | [(out & b & c & e & msg & _ & _ & ->)
                      | (out & b & c & tail & _ & _ & Htail & ->)]]]];
    unfold events_of; cbn [snd]; try reflexivity.
  cbn [app child_after]. rewrite child_after_line_events.
  destruct Htail as [[_ ->] | (e & msg & _ & ->)]; reflexivity.
Qed.

Lemma act_one_child (m : string) (w : World) :
  one_child_at_a_time (events_of (act env client thread_id assistant_id m w)).
Proof.
  destruct (is_pen_test_complete m) eqn:Hc.
  - rewrite act_done by exact Hc. reflexivity.
  - pose proof (execute_command_one_child m w) as Hx.
    pose proof (execute_command_frame env m w) as (_ & _ & _ & _ & _ & Hrun).
    destruct (execute_command env m w) as [[[name | e |] w'] t] eqn:E;
      unfold events_of, outcome_of in Hx, Hrun; cbn [fst snd] in Hx, Hrun.
    + rewrite (act_feedback env client thread_id assistant_id m name w w' t Hc E).
      destruct (w_fs w' !! name) as [c|]; unfold events_of; cbn [snd].
      * apply one_child_app; [exact Hx | reflexivity].
      * exact Hx.
    + rewrite (act_raise env client thread_id assistant_id m e w w' t Hc E).
      exact Hx.
    + exfalso. now apply Hrun.
Qed.

End ChildFacts.

(** X18: whatever the environment does, the program has at most one
    child process at a time and waits for every child it has started
    before it does anything else with the service or the artifact: no
    child is running when the executor is entered again, when an artifact
    is opened for reading, when a turn is submitted, when a run is
    created or polled, nor when the program stops. *)
Theorem one_child_and_it_is_waited_for
    (env : Env) (cycles polls : nat) (ip_address : string) (w : World) :
  one_child_at_a_time (events_of (main env cycles polls ip_address w)).
Proof.
  rewrite main_unfold.
  destruct (env_api_key env) as [[|c k]|]; try reflexivity.
  cbv zeta.
  set (obj := "Start a penetration test on this machine " +:+ ip_address +:+ ".").
  pose proof (main_loop_respects
    (fun _ t _ => one_child_at_a_time t)
    (fun _ => one_child_nil)
    (fun _ t1 _ t2 _ H1 H2 => one_child_app t1 t2 H1 H2)
    env {| api_key := String c k |} (env_thread_id env) (env_assistant_id env)
    (fun polls run mc w =>
       one_child_polling _ (poll_loop_events env _ _ _ polls run mc w))
    (act_one_child env _ _ _)
    cycles polls {| run_id := w_runs w |} None (fed_back obj w)) as H.
  destruct (main_loop _ _ _ _ _ _ _ _ _) as [[o w'] t].
  unfold events_of in *; cbn [snd] in *.
  apply (one_child_app [EvSend obj; EvCreateRun (w_runs w)] t); [reflexivity | exact H].
Qed.

Example one_child_at_a_time_rejects :
  child_after false [EvPopen "a"; EvPopen "b"; EvWait "a"; EvWait "b"] = None
  /\ child_after false [EvPopen "a"; EvSend "x"; EvWait "a"] = None
  /\ child_after false [EvPopen "a"] = Some true
  /\ child_after false [EvPopen "a"; EvWait "a"; EvSend "x"] = Some false.
Proof. repeat split. Qed.
